(** * Issue Sheet Generator (Project No. variant): revision matrix compiler

    A shallow embedding of [script.py] (the pyRevit push button
    "Issue Sheet Generator with Project No.") and the properties of its
    revision matrix: sheet filter, sheet/revision association, revision
    filter and sort, label resolution, chunking and grid placement. *)

From Stdlib Require Import ZArith Ascii String List Lia Sorted.
From Stdlib Require Import DecimalString DecimalZ DecimalFacts DecimalPos.
From stdpp Require Import base option list gmap strings.

Local Open Scope Z_scope.

#[local] Set Warnings "-clear-no-such-hyp".

(** ** Python values the script manipulates *)

(** A cell value ([Value2]), a revision number or a sort key is either
    an integer or a string. *)
Inductive PyVal : Type :=
  | PInt (z : Z)
  | PStr (s : string).

Global Instance PyVal_eq_dec : EqDecision PyVal.
Proof. solve_decision. Defined.

(** ** Strings *)

Module PyStr.

Definition to_list (s : string) : list ascii := list_ascii_of_string s.
Definition of_list (l : list ascii) : string := string_of_list_ascii l.

(** [str(z)] and [format] of an integer: decimal digits, a leading
    minus sign for negative numbers. *)
Definition str (z : Z) : string := NilZero.string_of_int (Z.to_int z).

(** [unicode.strip()] / [str.strip()]: the ASCII white space
    characters are removed at both ends. *)
Definition is_space (c : ascii) : bool := Ascii.is_space c.

Fixpoint lstrip (l : list ascii) : list ascii :=
  match l with
  | c :: l' => if is_space c then lstrip l' else l
  | [] => []
  end.

Definition strip_list (l : list ascii) : list ascii :=
  rev (lstrip (rev (lstrip l))).

Definition strip (s : string) : string := of_list (strip_list (to_list s)).

(** [sep.join(parts)] *)
Fixpoint join (sep : string) (parts : list string) : string :=
  match parts with
  | [] => ""
  | [p] => p
  | p :: ps => p +:+ sep +:+ join sep ps
  end.

(** [s.zfill(width)]: pad with zeros on the left up to [width]
    characters, after the sign if there is one. *)
Definition zeros (n : nat) : string := of_list (replicate n "0"%char).

Definition zfill (s : string) (width : Z) : string :=
  let len := Z.of_nat (String.length s) in
  if width <=? len then s
  else
    let pad := zeros (Z.to_nat (width - len)) in
    match s with
    | String c rest =>
        if bool_decide (c = "+"%char) || bool_decide (c = "-"%char)
        then String c (pad +:+ rest)
        else pad +:+ s
    | EmptyString => pad
    end.

(** [chr(n)] for a code point below 256 *)
Definition chr (n : Z) : ascii := ascii_of_N (Z.to_N n).

End PyStr.

(** ** [excel_col_name] *)

(** The letter [chr(65 + r)] that the loop prepends. *)
Definition letter (r : Z) : ascii := PyStr.chr (65 + r).

(** The body of the [while n >= 0] loop, run at most [fuel] times. *)
Fixpoint excel_col_loop (fuel : nat) (n : Z) (name : string) : string :=
  match fuel with
  | O => name
  | S fuel' =>
      if 0 <=? n then
        let r := n mod 26 in
        let n := n / 26 in
        let name := String (letter r) name in
        excel_col_loop fuel' (n - 1) name
      else name
  end.

Definition excel_col_name (n : Z) : string :=
  excel_col_loop (S (Z.to_nat n)) n "".

(** ** The host model (Revit API objects, as far as the script reads them) *)

Abbreviation ElementId := Z (only parsing).

Inductive RevisionNumberType : Type :=
  | NoNumberType
  | Numeric
  | Alphanumeric.

Global Instance RevisionNumberType_eq_dec : EqDecision RevisionNumberType.
Proof. solve_decision. Defined.

(** [Parameter]: [AsInteger()] and [AsString()] (which may be null). *)
Module Param.
Record t : Type := mk {
  AsInteger : Z;
  AsString : option string
}.
End Param.

(** [NumericRevisionSettings]; a prefix or suffix may be null. *)
Module NumericSettings.
Record t : Type := mk {
  Prefix : option string;
  Suffix : option string;
  StartNumber : Z;
  MinimumDigits : Z
}.
End NumericSettings.

Module NumberingSequence.
Record t : Type := mk {
  Id : ElementId;
  NumberType : RevisionNumberType;
  GetNumericRevisionSettings : NumericSettings.t
}.
End NumberingSequence.

(** [rev.RevisionDate]: an object that answers [ToShortDateString()],
    or anything else, of which the script takes [str(raw)]. *)
Inductive RevisionDateValue : Type :=
  | DateObject (short : string)
  | DateText (text : string).

Module Revision.
Record t : Type := mk {
  Id : ElementId;
  SequenceNumber : Z;
  (** [None] when the object has no attribute [RevisionNumber] *)
  RevisionNumber : option string;
  RevisionNumberingSequenceId : ElementId;
  RevisionDate : RevisionDateValue;
  Description : string
}.
End Revision.

Module Viewport.
Record t : Type := mk {
  Id : ElementId;
  ViewId : ElementId
}.
End Viewport.

Module RevisionCloud.
Record t : Type := mk {
  Id : ElementId;
  OwnerViewId : ElementId;
  RevisionId : ElementId
}.
End RevisionCloud.

Module ViewSheet.
Record t : Type := mk {
  Id : ElementId;
  Name : string;
  SheetNumber : string;
  ParameterMap : gmap string Param.t;
  GetAllViewports : list ElementId;
  GetAdditionalRevisionIds : list ElementId;
  RevisionNumbersOnSheet : gmap ElementId string
}.

Definition LookupParameter (s : t) (name : string) : option Param.t :=
  ParameterMap s !! name.

Definition GetRevisionNumberOnSheet (s : t) (rid : ElementId) : string :=
  default "" (RevisionNumbersOnSheet s !! rid).
End ViewSheet.

Inductive Element : Type :=
  | ERevision (r : Revision.t)
  | ENumberingSequence (q : NumberingSequence.t)
  | EViewport (v : Viewport.t)
  | ERevisionCloud (c : RevisionCloud.t)
  | EViewSheet (s : ViewSheet.t).

Definition element_id (e : Element) : ElementId :=
  match e with
  | ERevision r => Revision.Id r
  | ENumberingSequence q => NumberingSequence.Id q
  | EViewport v => Viewport.Id v
  | ERevisionCloud c => RevisionCloud.Id c
  | EViewSheet s => ViewSheet.Id s
  end.

Module Document.
Record t : Type := mk {
  Elements : list Element;
  ProjectInformation : gmap string Param.t
}.

(** [doc.GetElement(id)]: the element with that id, or null. *)
Definition GetElement (d : t) (id : ElementId) : option Element :=
  List.find (λ e, bool_decide (element_id e = id)) (Elements d).
End Document.

(** Attribute access on what [GetElement] returned; [None] stands for
    the [AttributeError] that ends the run. *)
Definition as_revision (e : option Element) : option Revision.t :=
  match e with Some (ERevision r) => Some r | _ => None end.

Definition as_viewport (e : option Element) : option Viewport.t :=
  match e with Some (EViewport v) => Some v | _ => None end.

(** ** The report workbook *)

(** A worksheet maps a cell address such as ["D10"] to its [Value2]. *)
Abbreviation Worksheet := (gmap string PyVal) (only parsing).

(** [ws.Range[addr].Value2 = v] *)
Definition set_value (addr : string) (v : PyVal) (ws : Worksheet) : Worksheet :=
  <[addr := v]> ws.

(** ["{0}{1}".format(col, row)] *)
Definition cell (col : string) (row : Z) : string := col +:+ PyStr.str row.

(** ** Helper functions of the script *)

(** [get_rev_number(revision, sheet=None)]; the second argument is
    [Some s] exactly when a [ViewSheet] is passed. *)
Definition get_rev_number (revision : Revision.t) (sheet : option ViewSheet.t) : PyVal :=
  match sheet with
  | Some s => PStr (ViewSheet.GetRevisionNumberOnSheet s (Revision.Id revision))
  | None =>
      match Revision.RevisionNumber revision with
      | Some n => PStr n
      | None => PInt (Revision.SequenceNumber revision)
      end
  end.

(** ** Sorting *)

(** [list.sort(key=...)] is a stable sort; [leb a b] says that the key
    of [a] is not above the key of [b]. *)
Section Sort.
Context {A : Type} (leb : A → A → bool).

Fixpoint sort_insert (x : A) (l : list A) : list A :=
  match l with
  | [] => [x]
  | y :: l' => if leb x y then x :: l else y :: sort_insert x l'
  end.

Fixpoint stable_sort (l : list A) : list A :=
  match l with
  | [] => []
  | x :: l' => sort_insert x (stable_sort l')
  end.
End Sort.

(** Order of sort keys in Python 2: integers by value, strings by code
    point, and an integer before any string. *)
Definition key_leb (a b : PyVal) : bool :=
  match a, b with
  | PInt x, PInt y => x <=? y
  | PInt _, PStr _ => true
  | PStr _, PInt _ => false
  | PStr s, PStr t => String.leb s t
  end.

(** ** The date pattern *)

(** A pattern that is a sequence of bounded repetitions of character
    classes: [(cls, lo, hi)] is [cls{lo,hi}]. *)
Definition RepItem : Type := (ascii → bool) * nat * nat.

Fixpoint full_match (items : list RepItem) (s : list ascii) : bool :=
  match items with
  | [] => bool_decide (s = [])
  | (cls, lo, hi) :: rest =>
      existsb (λ n : nat,
                 (n <=? length s)%nat
                 && forallb cls (take n s)
                 && full_match rest (drop n s))
              (seq lo (S hi - lo))
  end.

Definition is_digit (c : ascii) : bool :=
  let n := N_of_ascii c in ((48 <=? n) && (n <=? 57))%N.

Definition is_sep (c : ascii) : bool :=
  bool_decide (c = "."%char) || bool_decide (c = "/"%char).

(** [^\d{1,2}[./]\d{1,2}[./]\d{2,4}$] without its anchors *)
Definition date_items : list RepItem :=
  [ (is_digit, 1, 2); (is_sep, 1, 1); (is_digit, 1, 2);
    (is_sep, 1, 1); (is_digit, 2, 4) ]%nat.

Definition newline : ascii := "010"%char.

(** [date_rx.match(dstr)]: the match starts at the beginning of the
    string, and [$] accepts the end of the string or the position just
    before a newline that ends it. *)
Definition date_rx_match (dstr : string) : bool :=
  let s := PyStr.to_list dstr in
  full_match date_items s
  || match List.rev s with
     | c :: before => bool_decide (c = newline) && full_match date_items (List.rev before)
     | [] => false
     end.

(** [re.findall(r'\d+', s)]: the maximal runs of digits, left to right;
    [cur] is the run being read, last digit first. *)
Fixpoint digit_runs (cur : list ascii) (s : list ascii) : list (list ascii) :=
  let flush := match cur with [] => [] | _ => [List.rev cur] end in
  match s with
  | [] => flush
  | c :: s' =>
      if is_digit c then digit_runs (c :: cur) s'
      else flush ++ digit_runs [] s'
  end.

(** [int(digits)] *)
Definition int_of_digits (ds : list ascii) : Z :=
  foldl (λ acc c, 10 * acc + (Z.of_N (N_of_ascii c) - 48)) 0 ds.

(** ['sub' in s] *)
Definition str_contains (sub s : string) : bool :=
  match String.index 0 sub s with Some _ => true | None => false end.

(** ** [RevisedSheet] *)

Record RevisedSheet : Type := mkRevisedSheet {
  _sheet : ViewSheet.t;
  _clouds : list RevisionCloud.t;
  _rev_ids : gset ElementId
}.

(** A row of the filtered revision data: [(revId, num, date_str, desc)] *)
Definition RevData : Type := ElementId * PyVal * string * string.

Definition rd_id (x : RevData) : ElementId := let '(rid, _, _, _) := x in rid.
Definition rd_num (x : RevData) : PyVal := let '(_, num, _, _) := x in num.
Definition rd_date (x : RevData) : string := let '(_, _, dstr, _) := x in dstr.

(** [l[a:b]] for [0 <= a <= b] *)
Definition slice {A} (l : list A) (a b : nat) : list A := take (b - a) (drop a l).

(** A [for] loop whose body may raise: the state is threaded through,
    and [None] is the exception that ends the run. *)
Fixpoint for_each {S X : Type} (body : X → S → option S) (xs : list X) (s : S)
  : option S :=
  match xs with
  | [] => Some s
  | x :: xs' => s' ← body x s; for_each body xs' s'
  end.

(** [groups.setdefault(k, []).append(v)] on an [OrderedDict]: keys keep
    the order of their first insertion. *)
Fixpoint od_setdefault_append {V : Type} (k : ElementId) (v : V)
    (groups : list (ElementId * list V)) : list (ElementId * list V) :=
  match groups with
  | [] => [(k, [v])]
  | (k', vs) :: groups' =>
      if bool_decide (k' = k) then (k', vs ++ [v]) :: groups'
      else (k', vs) :: od_setdefault_append k v groups'
  end.

(** [{rid: idx for idx, (rid, _, _, _) in enumerate(rev_chunk)}], the
    entries inserted from left to right starting at index [idx]. *)
Fixpoint build_rev_index (idx : nat) (rev_chunk : list RevData)
    (m : gmap ElementId nat) : gmap ElementId nat :=
  match rev_chunk with
  | [] => m
  | x :: rest => build_rev_index (S idx) rest (<[rd_id x := idx]> m)
  end.

(** ** The script's functions *)

(** [doc] and [all_clouds] are module globals that [main] sets before
    anything else runs. *)
Section Script.
Variable doc : Document.t.
Variable all_clouds : list RevisionCloud.t.

(** *** [RevisedSheet.__init__] *)

Definition _find_clouds (sheet : ViewSheet.t) : option (list RevisionCloud.t) :=
  vps ← mapM (λ vp, Viewport.ViewId <$> as_viewport (Document.GetElement doc vp))
             (ViewSheet.GetAllViewports sheet);
  let view_ids := [ViewSheet.Id sheet] ++ vps in
  Some (filter (λ c, RevisionCloud.OwnerViewId c ∈ view_ids) all_clouds).

Definition _find_revisions (sheet : ViewSheet.t) (clouds : list RevisionCloud.t)
  : gset ElementId :=
  let rev_ids := foldl (λ s c, s ∪ {[RevisionCloud.RevisionId c]}) ∅ clouds in
  foldl (λ s rid, s ∪ {[rid]}) rev_ids (ViewSheet.GetAdditionalRevisionIds sheet).

Definition RevisedSheet_init (sheet : ViewSheet.t) : option RevisedSheet :=
  clouds ← _find_clouds sheet;
  Some {| _sheet := sheet; _clouds := clouds;
          _rev_ids := _find_revisions sheet clouds |}.

Definition sheet_name (rs : RevisedSheet) : string := ViewSheet.Name (_sheet rs).

Definition rev_count (rs : RevisedSheet) : nat := size (_rev_ids rs).

(** *** [RevisedSheet.get_drawing_number] *)

Definition drawing_number_params : list string :=
  [ "Project Number";
    "EWP_Project_Originator Code";
    "EWP_Sheet_Zone Code";
    "EWP_Sheet_Level Code";
    "EWP_Sheet_Type Code";
    "EWP_Project_Role Code";
    "Sheet Number" ].

Definition drawing_number_lookup (rs : RevisedSheet) (pname : string)
  : option Param.t :=
  if str_contains "Project" pname
  then Document.ProjectInformation doc !! pname
  else ViewSheet.LookupParameter (_sheet rs) pname.

(** The [parts] that one parameter name adds: nothing when the
    parameter is missing or its string is null or empty. *)
Definition drawing_number_part (rs : RevisedSheet) (pname : string) : list string :=
  match drawing_number_lookup rs pname with
  | Some p =>
      match Param.AsString p with
      | Some (String c s) => [PyStr.strip (String c s)]
      | _ => []
      end
  | None => []
  end.

Definition get_drawing_number (rs : RevisedSheet) : string :=
  let parts := foldl (λ parts pname, parts ++ drawing_number_part rs pname)
                     [] drawing_number_params in
  PyStr.join "-" parts.

(** *** [filter_valid_sheets_and_show_count] *)

Fixpoint filter_valid_sheets (all_sheets : list ViewSheet.t)
  : option (list RevisedSheet) :=
  match all_sheets with
  | [] => Some []
  | sheet :: rest =>
      match ViewSheet.LookupParameter sheet "Appears In Sheet List" with
      | Some p =>
          if bool_decide (Param.AsInteger p ≠ 1) then filter_valid_sheets rest
          else
            rs ← RevisedSheet_init sheet;
            revised_sheets ← filter_valid_sheets rest;
            if bool_decide (ViewSheet.GetAllViewports sheet ≠ [])
               && bool_decide (0 < rev_count rs)%nat
            then Some (rs :: revised_sheets)
            else Some revised_sheets
      | None => filter_valid_sheets rest
      end
  end.

Definition filter_valid_sheets_and_show_count
    (all_sheets : list ViewSheet.t) (all_revisions : list Revision.t)
  : option (list RevisedSheet * nat) :=
  revised_sheets ← filter_valid_sheets all_sheets;
  let total_revisions := length all_revisions in
  Some (revised_sheets, total_revisions).

(** *** [build_filtered_rev_data] *)

Definition assigned_ids (revised_sheets : list RevisedSheet) : gset ElementId :=
  foldl (λ assigned rs, assigned ∪ _rev_ids rs) ∅ revised_sheets.

(** [raw.ToShortDateString()], or [str(raw).strip()] when the
    attribute is missing *)
Definition date_string (raw : RevisionDateValue) : string :=
  match raw with
  | DateObject short => short
  | DateText text => PyStr.strip text
  end.

Definition rev_data_of (rev : Revision.t) : RevData :=
  (Revision.Id rev, get_rev_number rev None,
   date_string (Revision.RevisionDate rev), Revision.Description rev).

Fixpoint filtered_rev_data (assigned : gset ElementId)
    (all_revisions : list Revision.t) : list RevData :=
  match all_revisions with
  | [] => []
  | rev :: rest =>
      if bool_decide (Revision.Id rev ∉ assigned)
      then filtered_rev_data assigned rest
      else if negb (date_rx_match (date_string (Revision.RevisionDate rev)))
      then filtered_rev_data assigned rest
      else rev_data_of rev :: filtered_rev_data assigned rest
  end.

Definition build_filtered_rev_data (all_revisions : list Revision.t)
    (revised_sheets : list RevisedSheet) : list RevData :=
  let assigned := assigned_ids revised_sheets in
  let filtered := filtered_rev_data assigned all_revisions in
  stable_sort (λ x y, key_leb (rd_num x) (rd_num y)) filtered.

(** *** [fill_revision_header_chunk] *)

Fixpoint fill_revision_header_from (j : nat) (rev_chunk : list RevData)
    (ws : Worksheet) : Worksheet :=
  match rev_chunk with
  | [] => ws
  | x :: rest =>
      let parts := digit_runs [] (PyStr.to_list (rd_date x)) in
      match parts with
      | [d; m; y] =>
          let col := excel_col_name (3 + Z.of_nat j) in
          let ws := set_value (col +:+ "6") (PInt (int_of_digits d)) ws in
          let ws := set_value (col +:+ "7") (PInt (int_of_digits m)) ws in
          let ws := set_value (col +:+ "8") (PInt (int_of_digits y)) ws in
          fill_revision_header_from (S j) rest ws
      | _ => fill_revision_header_from (S j) rest ws
      end
  end.

Definition fill_revision_header_chunk (ws : Worksheet) (rev_chunk : list RevData)
  : Worksheet :=
  fill_revision_header_from 0 rev_chunk ws.

(** *** [fill_sheet_block_chunk] *)

(** The label of a numeric sequence:
    [prefix + str(num_val).zfill(s.MinimumDigits) + suffix] *)
Definition numeric_label (s : NumericSettings.t) (seq_idx : Z) : string :=
  let prefix := default "" (NumericSettings.Prefix s) in
  let suffix := default "" (NumericSettings.Suffix s) in
  let num_val := NumericSettings.StartNumber s + seq_idx - 1 in
  prefix +:+ PyStr.zfill (PyStr.str num_val) (NumericSettings.MinimumDigits s)
         +:+ suffix.

Definition resolve_label (seq_idx : Z) (rev : Revision.t) : option PyVal :=
  match Document.GetElement doc (Revision.RevisionNumberingSequenceId rev) with
  | None => Some (get_rev_number rev None)
  | Some (ENumberingSequence seq) =>
      if bool_decide (NumberingSequence.NumberType seq = Numeric)
      then Some (PStr (numeric_label
                         (NumberingSequence.GetNumericRevisionSettings seq) seq_idx))
      else Some (get_rev_number rev None)
  | Some _ => None
  end.

(** A label about to be written: the revision, its column index in
    the chunk, and the label. *)
Definition LabelCell : Type := ElementId * nat * PyVal.

(** [for seq_idx, rev in enumerate(grp, start=1)] *)
Fixpoint label_group (rev_index : gmap ElementId nat) (seq_idx : Z)
    (grp : list Revision.t) : option (list LabelCell) :=
  match grp with
  | [] => Some []
  | rev :: rest =>
      let rid := Revision.Id rev in
      match rev_index !! rid with
      | None => label_group rev_index (seq_idx + 1) rest
      | Some j =>
          label ← resolve_label seq_idx rev;
          cells ← label_group rev_index (seq_idx + 1) rest;
          Some ((rid, j, label) :: cells)
      end
  end.

(** The sheet's revisions of this chunk, sorted by sequence number. *)
Definition chunk_revs (rev_index : gmap ElementId nat) (rs : RevisedSheet)
  : option (list Revision.t) :=
  revs ← mapM (λ rid, as_revision (Document.GetElement doc rid))
              (filter (λ rid, is_Some (rev_index !! rid)) (elements (_rev_ids rs)));
  Some (stable_sort (λ a b, Revision.SequenceNumber a <=? Revision.SequenceNumber b)
                    revs).

Definition group_revs (revs : list Revision.t)
  : list (ElementId * list Revision.t) :=
  foldl (λ groups rev,
           od_setdefault_append (Revision.RevisionNumberingSequenceId rev) rev groups)
        [] revs.

Definition sheet_label_cells (rev_index : gmap ElementId nat) (rs : RevisedSheet)
  : option (list LabelCell) :=
  revs ← chunk_revs rev_index rs;
  cells ← mapM (λ grp, label_group rev_index 1 grp) ((group_revs revs).*2);
  Some (concat cells).

Definition write_label (row : Z) (ws : Worksheet) (c : LabelCell) : Worksheet :=
  let '(_, j, label) := c in
  let col := excel_col_name (3 + Z.of_nat j) in
  set_value (cell col row) label ws.

Definition fill_sheet_row (rev_index : gmap ElementId nat) (i : nat)
    (rs : RevisedSheet) (ws : Worksheet) : option Worksheet :=
  let row := 10 + Z.of_nat i in
  let ws := set_value (cell "A" row) (PStr (get_drawing_number rs)) ws in
  let ws := set_value (cell "B" row) (PStr (sheet_name rs)) ws in
  cells ← sheet_label_cells rev_index rs;
  Some (foldl (write_label row) ws cells).

Fixpoint fill_sheet_rows_from (rev_index : gmap ElementId nat) (i : nat)
    (sheet_block : list RevisedSheet) (ws : Worksheet) : option Worksheet :=
  match sheet_block with
  | [] => Some ws
  | rs :: rest =>
      ws ← fill_sheet_row rev_index i rs ws;
      fill_sheet_rows_from rev_index (S i) rest ws
  end.

Definition fill_sheet_block_chunk (ws : Worksheet)
    (sheet_block : list RevisedSheet) (rev_chunk : list RevData)
  : option Worksheet :=
  let rev_index := build_rev_index 0 rev_chunk ∅ in
  fill_sheet_rows_from rev_index 0 sheet_block ws.

(** *** [fill_all_chunks] *)

(** [(total + size - 1) // size] *)
Definition num_chunks (total size : nat) : nat := ((total + size - 1) / size)%nat.

(** The body of the two nested loops for one [(rc, sc)]. *)
Definition fill_page (rev_data : list RevData) (revised_sheets : list RevisedSheet)
    (rev_chunk_size sheet_chunk_size num_sheet_chunks : nat) (rc sc : nat)
    (wb : list Worksheet) : option (list Worksheet) :=
  let rev_chunk := slice rev_data (rc * rev_chunk_size) ((rc + 1) * rev_chunk_size) in
  let sheet_block :=
    slice revised_sheets (sc * sheet_chunk_size) ((sc + 1) * sheet_chunk_size) in
  let ws_index := (rc * num_sheet_chunks + sc + 1)%nat in
  ws ← wb !! (ws_index - 1)%nat;
  let ws := fill_revision_header_chunk ws rev_chunk in
  ws ← fill_sheet_block_chunk ws sheet_block rev_chunk;
  Some (<[(ws_index - 1)%nat := ws]> wb).

Definition fill_all_chunks (wb : list Worksheet) (all_revisions : list Revision.t)
    (revised_sheets : list RevisedSheet) (rev_chunk_size sheet_chunk_size : nat)
  : option (list Worksheet) :=
  let rev_data := build_filtered_rev_data all_revisions revised_sheets in
  let total_rev := length rev_data in
  let total_sheets := length revised_sheets in
  if bool_decide (rev_chunk_size = 0%nat ∨ sheet_chunk_size = 0%nat) then None
  else
    let num_rev_chunks := num_chunks total_rev rev_chunk_size in
    let num_sheet_chunks := num_chunks total_sheets sheet_chunk_size in
    for_each
      (λ rc wb,
         for_each
           (fill_page rev_data revised_sheets rev_chunk_size sheet_chunk_size
                      num_sheet_chunks rc)
           (seq 0 num_sheet_chunks) wb)
      (seq 0 num_rev_chunks) wb.

End Script.

(** The default page capacities of [fill_all_chunks]. *)
Definition rev_chunk_size_default : nat := 50.
Definition sheet_chunk_size_default : nat := 27.

(** ** [main], without its dialogs and files *)

(** The three collections that [main] reads from the document; the
    sheets are sorted by sheet number. *)
Definition doc_sheets (doc : Document.t) : list ViewSheet.t :=
  stable_sort (λ a b, String.leb (ViewSheet.SheetNumber a) (ViewSheet.SheetNumber b))
    (omap (λ e, match e with EViewSheet s => Some s | _ => None end)
          (Document.Elements doc)).

Definition doc_clouds (doc : Document.t) : list RevisionCloud.t :=
  omap (λ e, match e with ERevisionCloud c => Some c | _ => None end)
       (Document.Elements doc).

Definition doc_revisions (doc : Document.t) : list Revision.t :=
  omap (λ e, match e with ERevision r => Some r | _ => None end)
       (Document.Elements doc).

(** [p.AsString().strip() if p else ""]; [None] when the parameter is
    there but its string is null. *)
Definition job_info_text (p : option Param.t) : option string :=
  match p with
  | Some p => PyStr.strip <$> Param.AsString p
  | None => Some ""
  end.

(** The job name and number that [main] writes on every worksheet
    (their bold font is formatting, not a cell value). *)
Definition fill_job_info (doc : Document.t) (wb : list Worksheet)
  : option (list Worksheet) :=
  let nm := Document.ProjectInformation doc !! "Project Name" in
  let num := Document.ProjectInformation doc !! "Project Number" in
  mapM (λ ws,
          name ← job_info_text nm;
          number ← job_info_text num;
          let ws := set_value "A6" (PStr ("Job name: " +:+ name)) ws in
          Some (set_value "B7" (PStr ("Job no: " +:+ number)) ws))
       wb.

(** From the document and the copied template to the filled workbook. *)
Definition main_fill (doc : Document.t) (wb : list Worksheet)
  : option (list Worksheet) :=
  let all_sheets := doc_sheets doc in
  let all_clouds := doc_clouds doc in
  let all_revisions := doc_revisions doc in
  '(revised_sheets, total_revisions) ←
    filter_valid_sheets_and_show_count doc all_clouds all_sheets all_revisions;
  wb ← fill_job_info doc wb;
  fill_all_chunks doc wb all_revisions revised_sheets
                  rev_chunk_size_default sheet_chunk_size_default.

(** ** Notions used in the statements *)

(** A string without a decimal digit, such as a column name. *)
Definition no_digit (s : string) : Prop :=
  forallb (λ c, negb (is_digit c)) (PyStr.to_list s) = true.

(** The accepted date pattern in words: one or two digits, a separator,
    one or two digits, a separator, two to four digits, where a
    separator is [.] or [/]. *)
Definition date_pattern (dstr : string) : Prop :=
  ∃ d1 c1 d2 c2 d3 : list ascii,
    PyStr.to_list dstr = d1 ++ c1 ++ d2 ++ c2 ++ d3
    ∧ forallb is_digit d1 = true ∧ (1 ≤ length d1 ≤ 2)%nat
    ∧ forallb is_sep c1 = true ∧ length c1 = 1%nat
    ∧ forallb is_digit d2 = true ∧ (1 ≤ length d2 ≤ 2)%nat
    ∧ forallb is_sep c2 = true ∧ length c2 = 1%nat
    ∧ forallb is_digit d3 = true ∧ (2 ≤ length d3 ≤ 4)%nat.

(** A revision identifier is assigned when some included sheet has it
    in its association set. *)
Definition assigned_to (revised_sheets : list RevisedSheet) (rid : ElementId) : Prop :=
  ∃ rs, rs ∈ revised_sheets ∧ rid ∈ _rev_ids rs.


(** A revision survives the filter when it is assigned and its date
    string is accepted by [date_rx]. *)
Definition survives (revised_sheets : list RevisedSheet) (rev : Revision.t) : Prop :=
  Revision.Id rev ∈ assigned_ids revised_sheets
  ∧ date_rx_match (date_string (Revision.RevisionDate rev)) = true.

Global Instance survives_dec revised_sheets rev : Decision (survives revised_sheets rev).
Proof. unfold survives. apply _. Defined.

(** The [k]-th chunk that [fill_all_chunks] slices out of a list, and
    the list of all chunks in loop order. *)
Definition chunk_at {A} (l : list A) (size k : nat) : list A :=
  slice l (k * size) ((k + 1) * size).



(** The pairs [(rc, sc)] in the order in which the nested loops of
    [fill_all_chunks] visit them, and the worksheet index of a pair. *)
Definition page_order (num_rev_chunks num_sheet_chunks : nat) : list (nat * nat) :=
  rc ← seq 0 num_rev_chunks; sc ← seq 0 num_sheet_chunks; [(rc, sc)].

Definition ws_index_of (num_sheet_chunks : nat) (p : nat * nat) : nat :=
  (p.1 * num_sheet_chunks + p.2 + 1)%nat.

(** The views of a sheet: the sheet itself and the view of every
    viewport placed on it. *)
Definition placed_view_ids (doc : Document.t) (sheet : ViewSheet.t) : list ElementId :=
  ViewSheet.Id sheet
  :: omap (λ vp, Viewport.ViewId <$> as_viewport (Document.GetElement doc vp))
          (ViewSheet.GetAllViewports sheet).

(** The revision markups owned by one of the sheet's views. *)
Definition sheet_markups (doc : Document.t) (all_clouds : list RevisionCloud.t)
    (sheet : ViewSheet.t) : list RevisionCloud.t :=
  filter (λ c, RevisionCloud.OwnerViewId c ∈ placed_view_ids doc sheet) all_clouds.

(** The association set in the words of the specification: the
    revisions of those markups, and the revisions attached to the
    sheet. *)
Definition sheet_rev_ids (doc : Document.t) (all_clouds : list RevisionCloud.t)
    (sheet : ViewSheet.t) : gset ElementId :=
  list_to_set (RevisionCloud.RevisionId <$> sheet_markups doc all_clouds sheet)
  ∪ list_to_set (ViewSheet.GetAdditionalRevisionIds sheet).

(** Every viewport identifier of the sheet names a viewport of the
    document. *)
Definition viewports_resolve (doc : Document.t) (sheet : ViewSheet.t) : Prop :=
  ∀ vp, vp ∈ ViewSheet.GetAllViewports sheet →
        is_Some (as_viewport (Document.GetElement doc vp)).

(** The integer value of "Appears In Sheet List", when the parameter
    is present. *)
Definition flag_value (sheet : ViewSheet.t) : option Z :=
  Param.AsInteger <$> ViewSheet.LookupParameter sheet "Appears In Sheet List".

(** Eligibility as the code decides it: the flag is 1. *)
Definition eligible (doc : Document.t) (all_clouds : list RevisionCloud.t)
    (sheet : ViewSheet.t) : Prop :=
  flag_value sheet = Some 1
  ∧ ViewSheet.GetAllViewports sheet ≠ []
  ∧ sheet_rev_ids doc all_clouds sheet ≠ ∅.

Global Instance eligible_dec doc all_clouds sheet : Decision (eligible doc all_clouds sheet).
Proof. unfold eligible. apply _. Defined.


(** The [RevisedSheet] object of a sheet whose viewports resolve. *)
Definition revised_sheet_of (doc : Document.t) (all_clouds : list RevisionCloud.t)
    (sheet : ViewSheet.t) : RevisedSheet :=
  {| _sheet := sheet;
     _clouds := sheet_markups doc all_clouds sheet;
     _rev_ids := sheet_rev_ids doc all_clouds sheet |}.

(** The label, if any, that a list of label writes leaves in the
    column of index [j]: the last write to that column. *)
Definition cells_lookup (j : nat) (cells : list LabelCell) : option PyVal :=
  foldl (λ acc c, if bool_decide (c.1.2 = j) then Some c.2 else acc) None cells.

(** Every revision row of the chunk names a revision of the document. *)
Definition chunk_resolves (doc : Document.t) (rev_chunk : list RevData) : Prop :=
  ∀ x, x ∈ rev_chunk →
       is_Some (as_revision (Document.GetElement doc (rd_id x))).

(** The numbering sequence of a revision, when the document has one
    under the revision's sequence identifier; [Some None] when it has
    no element there, and [None] when the element is of another kind. *)
Definition sequence_of (doc : Document.t) (rev : Revision.t)
  : option (option NumberingSequence.t) :=
  match Document.GetElement doc (Revision.RevisionNumberingSequenceId rev) with
  | None => Some None
  | Some (ENumberingSequence q) => Some (Some q)
  | Some _ => None
  end.

Definition sequences_resolve (doc : Document.t) (rev_chunk : list RevData) : Prop :=
  ∀ x rev, x ∈ rev_chunk →
           as_revision (Document.GetElement doc (rd_id x)) = Some rev →
           is_Some (sequence_of doc rev).

(** The comparison of [revs.sort(key=lambda r: r.SequenceNumber)]. *)
Abbreviation seq_leb :=
  (λ a b : Revision.t, Revision.SequenceNumber a <=? Revision.SequenceNumber b).

(** The identifiers of the sheet that the chunk's index knows, in the
    order in which the set is iterated. *)
Definition chunk_ids (rev_index : gmap ElementId nat) (rs : RevisedSheet)
  : list ElementId :=
  filter (λ rid, is_Some (rev_index !! rid)) (elements (_rev_ids rs)).

Abbreviation seq_id := Revision.RevisionNumberingSequenceId.

(** The label of a revision that stands at position [seq_idx] of its
    group, given what the document has under its sequence identifier. *)
Definition label_of (q : option NumberingSequence.t) (seq_idx : Z) (rev : Revision.t)
  : PyVal :=
  match q with
  | Some seq =>
      if bool_decide (NumberingSequence.NumberType seq = Numeric)
      then PStr (numeric_label (NumberingSequence.GetNumericRevisionSettings seq) seq_idx)
      else get_rev_number rev None
  | None => get_rev_number rev None
  end.

(** [rid] names a revision of the same numbering sequence as [rev]
    that was created before it (smaller sequence number). *)
Definition precedes (doc : Document.t) (rev : Revision.t) (rid : ElementId) : Prop :=
  match as_revision (Document.GetElement doc rid) with
  | Some r => seq_id r = seq_id rev
              ∧ Revision.SequenceNumber r < Revision.SequenceNumber rev
  | None => False
  end.

Global Instance precedes_dec doc rev rid : Decision (precedes doc rev rid).
Proof. unfold precedes. destruct (as_revision _); apply _. Defined.



(** Revisions of the chunk with different identifiers have different
    sequence numbers. *)
Definition distinct_sequence_numbers (doc : Document.t) (rev_chunk : list RevData)
  : Prop :=
  ∀ x y r1 r2, x ∈ rev_chunk → y ∈ rev_chunk →
    as_revision (Document.GetElement doc (rd_id x)) = Some r1 →
    as_revision (Document.GetElement doc (rd_id y)) = Some r2 →
    Revision.SequenceNumber r1 = Revision.SequenceNumber r2 → r1 = r2.

(** The string of a drawing number attribute; a parameter that is
    missing, or whose string is null, counts as the empty string. *)
Definition attribute_value (doc : Document.t) (rs : RevisedSheet) (pname : string)
  : string :=
  match drawing_number_lookup doc rs pname with
  | Some p => default "" (Param.AsString p)
  | None => ""
  end.

(** The drawing number in the words of the specification: the
    hyphen-join of the non-empty trimmed attribute values. *)
Definition drawing_number_spec (doc : Document.t) (rs : RevisedSheet) : string :=
  PyStr.join "-"
    (filter (λ s, s ≠ "")
            (PyStr.strip <$> (attribute_value doc rs <$> drawing_number_params))).

(** Boolean checks of the conditions under which the fill functions
    are studied. *)
Definition chunk_resolves_b (doc : Document.t) (rev_chunk : list RevData) : bool :=
  forallb (λ x, bool_decide (is_Some (as_revision (Document.GetElement doc (rd_id x)))))
          rev_chunk.

Definition sequences_resolve_b (doc : Document.t) (rev_chunk : list RevData) : bool :=
  forallb (λ x, match as_revision (Document.GetElement doc (rd_id x)) with
                | Some rev => bool_decide (is_Some (sequence_of doc rev))
                | None => true
                end)
          rev_chunk.

Definition distinct_sequence_numbers_b (doc : Document.t) (rev_chunk : list RevData)
  : bool :=
  bool_decide
    (NoDup (Revision.SequenceNumber
              <$> omap (λ rid, as_revision (Document.GetElement doc rid))
                       (remove_dups (rd_id <$> rev_chunk)))).

Definition viewports_resolve_b (doc : Document.t) (sheet : ViewSheet.t) : bool :=
  forallb (λ vp, bool_decide (is_Some (as_viewport (Document.GetElement doc vp))))
          (ViewSheet.GetAllViewports sheet).

(** The elements of the document have pairwise different identifiers. *)
Definition unique_ids (doc : Document.t) : Prop :=
  NoDup (element_id <$> Document.Elements doc).

(** ** A worked example *)

(** A document with a numeric sequence [A01, A02, ...], an alphanumeric
    sequence, five revisions (one of them with a date that is not a
    date), two revision clouds and four sheets. *)
Module Example.

Definition seqA : NumberingSequence.t :=
  NumberingSequence.mk 100 Numeric (NumericSettings.mk (Some "A") (Some "") 1 2).
Definition seqP : NumberingSequence.t :=
  NumberingSequence.mk 101 Alphanumeric (NumericSettings.mk None None 0 0).

Definition r1 : Revision.t :=
  Revision.mk 1 4 (Some "1") 100 (DateText "TBC") "Concept".
Definition r2 : Revision.t :=
  Revision.mk 2 9 (Some "2") 100 (DateText " 1.2.2024 ") "Planning".
Definition r3 : Revision.t :=
  Revision.mk 3 17 (Some "3") 100 (DateText "03/04/24") "Tender".
Definition r4 : Revision.t :=
  Revision.mk 4 21 (Some "P5") 101 (DateObject "5.6.24") "Construction".
Definition r5 : Revision.t :=
  Revision.mk 5 2 (Some "0") 100 (DateText "1.1.24") "Feasibility".

Definition vp1 : Viewport.t := Viewport.mk 50 60.
Definition cloud1 : RevisionCloud.t := RevisionCloud.mk 70 60 2.
Definition cloud2 : RevisionCloud.t := RevisionCloud.mk 71 10 3.

Definition flag (z : Z) : gmap string Param.t :=
  {[ "Appears In Sheet List" := Param.mk z None ]}.

Definition sh1 : ViewSheet.t :=
  ViewSheet.mk 10 "Ground floor plan" "S01"
    (<["EWP_Sheet_Zone Code" := Param.mk 0 (Some "B")]>
       (<["EWP_Sheet_Level Code" := Param.mk 0 (Some "L2")]>
          (<["EWP_Sheet_Type Code" := Param.mk 0 (Some "")]>
             (<["Sheet Number" := Param.mk 0 (Some "S01")]> (flag 1)))))
    [50] [5; 3] ∅.
Definition sh2 : ViewSheet.t :=
  ViewSheet.mk 11 "First floor plan" "S02"
    (<["Sheet Number" := Param.mk 0 (Some "S02")]> (flag 1))
    [50] [1; 2; 4] {[ 2 := "2"; 4 := "P2" ]}.
Definition sh3 : ViewSheet.t :=
  ViewSheet.mk 12 "Roof plan" "S03"
    (<["Sheet Number" := Param.mk 0 (Some "S03")]> (flag 2))
    [50] [3] ∅.
Definition sh4 : ViewSheet.t :=
  ViewSheet.mk 13 "Site plan" "S04"
    (<["Sheet Number" := Param.mk 0 (Some "S04")]> (flag 1))
    [] [3] ∅.

Definition project_info (originator : string) : gmap string Param.t :=
  {[ "Project Name" := Param.mk 0 (Some "Mill Lane");
     "Project Number" := Param.mk 0 (Some "100");
     "EWP_Project_Originator Code" := Param.mk 0 (Some originator) ]}.

Definition model : list Element :=
  [ ERevision r1; ERevision r2; ERevision r3; ERevision r4; ERevision r5;
    ENumberingSequence seqA; ENumberingSequence seqP;
    EViewport vp1; ERevisionCloud cloud1; ERevisionCloud cloud2;
    EViewSheet sh2; EViewSheet sh1; EViewSheet sh4; EViewSheet sh3 ].

(** The originator code is empty in [doc], a single space in
    [doc_blank]. *)
Definition doc : Document.t := Document.mk model (project_info "").
Definition doc_blank : Document.t := Document.mk model (project_info " ").

Definition all_sheets : list ViewSheet.t := doc_sheets doc.
Definition all_clouds : list RevisionCloud.t := doc_clouds doc.
Definition all_revisions : list Revision.t := doc_revisions doc.

Definition rs1 : RevisedSheet := revised_sheet_of doc all_clouds sh1.
Definition rs2 : RevisedSheet := revised_sheet_of doc all_clouds sh2.

Definition rev_data : list RevData :=
  build_filtered_rev_data all_revisions [rs1; rs2].

(** The template: one empty worksheet, but for a mark in [G10]. *)
Definition template : list Worksheet := [ {[ "G10" := PStr "-" ]} ].

End Example.

(** ** Notions used for the further properties *)

(** A column name read back as a number: the letters are the digits
    1 to 26 of a numeral in base 26 without a zero. *)
Definition letter_value (c : ascii) : Z := Z.of_N (N_of_ascii c) - 64.

Definition col_value (name : string) : Z :=
  foldl (λ acc c, 26 * acc + letter_value c) 0 (PyStr.to_list name).

Definition is_upper (c : ascii) : bool :=
  let n := N_of_ascii c in ((65 <=? n) && (n <=? 90))%N.

(** The three digit groups of an accepted date string: day, month and
    year, between separators, with at most a final newline behind. *)
Definition date_parts (dstr : string) (d m y : list ascii) : Prop :=
  ∃ c1 c2 tail : list ascii,
    PyStr.to_list dstr = d ++ c1 ++ m ++ c2 ++ y ++ tail
    ∧ forallb is_digit d = true ∧ (1 ≤ length d ≤ 2)%nat
    ∧ forallb is_sep c1 = true ∧ length c1 = 1%nat
    ∧ forallb is_digit m = true ∧ (1 ≤ length m ≤ 2)%nat
    ∧ forallb is_sep c2 = true ∧ length c2 = 1%nat
    ∧ forallb is_digit y = true ∧ (2 ≤ length y ≤ 4)%nat
    ∧ (tail = [] ∨ tail = [newline]).

(** The digit group that goes to header row [h] (6, 7 or 8). *)
Definition header_component (h : Z) (d m y : list ascii) : list ascii :=
  if h =? 6 then d else if h =? 7 then m else y.

(** What [fill_all_chunks] does to the worksheet of page [(rc, sc)]:
    the header of revision chunk [rc], then the block of sheets [sc]. *)
Definition fill_worksheet (doc : Document.t) (rev_data : list RevData)
    (revised_sheets : list RevisedSheet) (rev_chunk_size sheet_chunk_size : nat)
    (p : nat * nat) (ws : Worksheet) : option Worksheet :=
  fill_sheet_block_chunk doc
    (fill_revision_header_chunk ws (chunk_at rev_data rev_chunk_size p.1))
    (chunk_at revised_sheets sheet_chunk_size p.2)
    (chunk_at rev_data rev_chunk_size p.1).

(** The example document with a project name parameter that holds no
    string. *)
Definition doc_null_name : Document.t :=
  Document.mk Example.model
    (<["Project Name" := Param.mk 0 None]> (Example.project_info "")).

(** * First checks *)

Example excel_col_name_0 : excel_col_name 0 = "A".
Proof. reflexivity. Qed.
Example excel_col_name_3 : excel_col_name 3 = "D".
Proof. reflexivity. Qed.
Example excel_col_name_25 : excel_col_name 25 = "Z".
Proof. reflexivity. Qed.
Example excel_col_name_26 : excel_col_name 26 = "AA".
Proof. reflexivity. Qed.
Example excel_col_name_52 : excel_col_name 52 = "BA".
Proof. reflexivity. Qed.
Example excel_col_name_702 : excel_col_name 702 = "AAA".
Proof. reflexivity. Qed.
Example zfill_7 : PyStr.zfill (PyStr.str 7) 2 = "07".
Proof. reflexivity. Qed.
Example zfill_neg : PyStr.zfill (PyStr.str (-7)) 4 = "-007".
Proof. reflexivity. Qed.
Example zfill_wide : PyStr.zfill (PyStr.str 123) 2 = "123".
Proof. reflexivity. Qed.
Example strip_ex : PyStr.strip "  a b  " = "a b".
Proof. reflexivity. Qed.

(** * Strings as lists of characters *)

Lemma to_list_app (s t : string) :
  PyStr.to_list (s +:+ t) = PyStr.to_list s ++ PyStr.to_list t.
Proof. induction s as [|c s IH]; simpl; [done|]. by rewrite <- IH. Qed.

Lemma to_list_inj (s t : string) : PyStr.to_list s = PyStr.to_list t → s = t.
Proof.
  intros H. rewrite <- (string_of_list_ascii_of_string s),
    <- (string_of_list_ascii_of_string t).
  unfold PyStr.to_list in H. by rewrite H.
Qed.

Lemma to_of_list (l : list ascii) : PyStr.to_list (PyStr.of_list l) = l.
Proof. apply list_ascii_of_string_of_list_ascii. Qed.

Lemma string_app_assoc (s t u : string) : (s +:+ t) +:+ u = s +:+ (t +:+ u).
Proof. induction s as [|c s IH]; simpl; [done|]. unfold String.app in *. simpl. by rewrite IH. Qed.

Lemma string_app_nil_r (s : string) : s +:+ "" = s.
Proof. induction s as [|c s IH]; [done|]. unfold String.app in *. simpl. by rewrite IH. Qed.

(** * [excel_col_name] *)

Lemma excel_col_loop_acc fuel n name :
  excel_col_loop fuel n name = excel_col_loop fuel n "" +:+ name.
Proof.
  revert n name. induction fuel as [|fuel IH]; intros n name; simpl; [done|].
  destruct (0 <=? n); [|done].
  rewrite (IH _ (String _ name)), (IH _ (String _ "")).
  by rewrite string_app_assoc.
Qed.

Lemma excel_col_loop_enough fuel fuel' n name :
  (Z.to_nat (n + 1) ≤ fuel)%nat → (Z.to_nat (n + 1) ≤ fuel')%nat →
  excel_col_loop fuel n name = excel_col_loop fuel' n name.
Proof.
  revert fuel' n name. induction fuel as [|fuel IH]; intros fuel' n name Hf Hf'.
  - destruct fuel' as [|fuel']; [done|]. simpl.
    destruct (Z.leb_spec 0 n); [lia|done].
  - simpl. destruct (Z.leb_spec 0 n) as [Hn|Hn].
    + destruct fuel' as [|fuel']; [lia|]. simpl.
      destruct (Z.leb_spec 0 n); [|lia].
      assert (n / 26 ≤ n) by (apply Z.div_le_upper_bound; lia).
      apply IH; lia.
    + destruct fuel' as [|fuel']; [done|]. simpl.
      by destruct (Z.leb_spec 0 n); [lia|].
Qed.

(** The loop, unrolled once: the equation the [while] loop satisfies. *)
Lemma excel_col_name_neg n : n < 0 → excel_col_name n = "".
Proof.
  intros Hn. unfold excel_col_name. simpl.
  by destruct (Z.leb_spec 0 n); [lia|].
Qed.

Lemma excel_col_name_step n :
  0 ≤ n →
  excel_col_name n = excel_col_name (n / 26 - 1) +:+ String (letter (n mod 26)) "".
Proof.
  intros Hn. unfold excel_col_name at 1. cbn [excel_col_loop].
  destruct (Z.leb_spec 0 n); [|lia].
  rewrite excel_col_loop_acc. f_equal.
  assert (n / 26 ≤ n) by (apply Z.div_le_upper_bound; lia).
  apply excel_col_loop_enough; lia.
Qed.

Lemma letter_inj r s : 0 ≤ r < 26 → 0 ≤ s < 26 → letter r = letter s → r = s.
Proof.
  intros Hr Hs H. unfold letter, PyStr.chr in H.
  apply (f_equal N_of_ascii) in H.
  rewrite !N_ascii_embedding in H by lia. lia.
Qed.

Lemma letter_not_digit r : 0 ≤ r < 26 → is_digit (letter r) = false.
Proof.
  intros Hr. unfold is_digit, letter, PyStr.chr.
  rewrite N_ascii_embedding by lia.
  apply andb_false_iff. right. apply N.leb_gt. lia.
Qed.

Lemma snoc_inj (s t : string) (a b : ascii) :
  s +:+ String a "" = t +:+ String b "" → s = t ∧ a = b.
Proof.
  intros H. apply (f_equal PyStr.to_list) in H. rewrite !to_list_app in H.
  simpl in H. apply app_inj_tail in H as [H ->]. split; [|done].
  by apply to_list_inj.
Qed.

Lemma excel_col_name_nonempty n : 0 ≤ n → excel_col_name n ≠ "".
Proof.
  intros Hn H. rewrite excel_col_name_step in H by done.
  apply (f_equal PyStr.to_list) in H. rewrite to_list_app in H. simpl in H.
  by destruct (PyStr.to_list _).
Qed.

Lemma excel_col_name_inj n m :
  0 ≤ n → 0 ≤ m → excel_col_name n = excel_col_name m → n = m.
Proof.
  intros Hn. revert m. pattern n. apply Zlt_0_ind; [|done].
  clear n Hn. intros n IH Hn m Hm H.
  rewrite (excel_col_name_step n), (excel_col_name_step m) in H by done.
  apply snoc_inj in H as [Hq Hr].
  apply letter_inj in Hr; [|by apply Z.mod_pos_bound..].
  assert (0 ≤ n / 26) by (apply Z.div_pos; lia).
  assert (0 ≤ m / 26) by (apply Z.div_pos; lia).
  assert (n / 26 = m / 26) as Hdiv.
  { destruct (Z_lt_le_dec (n / 26 - 1) 0) as [Hneg|Hpos];
      destruct (Z_lt_le_dec (m / 26 - 1) 0) as [Hneg'|Hpos'].
    - lia.
    - rewrite (excel_col_name_neg _ Hneg) in Hq.
      symmetry in Hq. by apply excel_col_name_nonempty in Hq.
    - rewrite (excel_col_name_neg _ Hneg') in Hq.
      by apply excel_col_name_nonempty in Hq.
    - assert (n / 26 ≤ n) by (apply Z.div_le_upper_bound; lia).
      enough (n / 26 - 1 = m / 26 - 1) by lia.
      apply IH; [lia|lia|done]. }
  rewrite (Z.div_mod n 26), (Z.div_mod m 26) by lia. congruence.
Qed.

Lemma excel_col_name_letters n :
  forallb (λ c, negb (is_digit c)) (PyStr.to_list (excel_col_name n)) = true.
Proof.
  destruct (Z_lt_le_dec n 0) as [Hneg|Hn].
  { by rewrite excel_col_name_neg. }
  pattern n. apply Zlt_0_ind; [|done]. clear n Hn.
  intros n IH Hn. rewrite excel_col_name_step by done.
  rewrite to_list_app, forallb_app. apply andb_true_iff. split.
  - destruct (Z_lt_le_dec (n / 26 - 1) 0) as [Hneg|Hpos].
    + by rewrite excel_col_name_neg.
    + assert (n / 26 ≤ n) by (apply Z.div_le_upper_bound; lia).
      apply IH; lia.
  - simpl. rewrite letter_not_digit; [done|]. by apply Z.mod_pos_bound.
Qed.

(** * Cell addresses *)

Lemma to_int_proper (z : Z) : Z.to_int z ≠ Decimal.Pos Decimal.Nil ∧ Z.to_int z ≠ Decimal.Neg Decimal.Nil.
Proof.
  destruct z as [|p|p]; simpl; split; try done;
    intros [= H]; by apply DecimalPos.Unsigned.to_uint_nonnil in H.
Qed.

Lemma str_inj (a b : Z) : PyStr.str a = PyStr.str b → a = b.
Proof.
  intros H. apply DecimalZ.to_int_inj.
  destruct (to_int_proper a) as [Ha1 Ha2], (to_int_proper b) as [Hb1 Hb2].
  apply (f_equal NilZero.int_of_string) in H. unfold PyStr.str in H.
  rewrite !NilZero.isi in H by done. congruence.
Qed.

Lemma string_of_uint_digits (d : Decimal.uint) :
  forallb is_digit (PyStr.to_list (NilEmpty.string_of_uint d)) = true.
Proof. induction d; simpl; auto. Qed.

Lemma str_digits (r : Z) :
  0 ≤ r → forallb is_digit (PyStr.to_list (PyStr.str r)) = true.
Proof.
  intros Hr. unfold PyStr.str. destruct r as [|p|p]; [done| |lia].
  simpl. unfold NilZero.string_of_uint.
  destruct (Pos.to_uint p) eqn:E; try apply string_of_uint_digits.
  by apply DecimalPos.Unsigned.to_uint_nonnil in E.
Qed.

(** A run of non-digits followed by a run of digits splits in one way only. *)
Lemma letters_digits_split (l1 l2 d1 d2 : list ascii) :
  forallb (λ c, negb (is_digit c)) l1 = true →
  forallb (λ c, negb (is_digit c)) l2 = true →
  forallb is_digit d1 = true → forallb is_digit d2 = true →
  l1 ++ d1 = l2 ++ d2 → l1 = l2 ∧ d1 = d2.
Proof.
  revert l2. induction l1 as [|a l1 IH]; intros [|b l2] Hl1 Hl2 Hd1 Hd2 H;
    simpl in *.
  - done.
  - subst d1. simpl in Hd1. apply andb_true_iff in Hl2 as [Hb _].
    apply andb_true_iff in Hd1 as [Hb' _]. by rewrite Hb' in Hb.
  - subst d2. simpl in Hd2. apply andb_true_iff in Hl1 as [Ha _].
    apply andb_true_iff in Hd2 as [Ha' _]. by rewrite Ha' in Ha.
  - injection H as -> H. apply andb_true_iff in Hl1 as [_ Hl1].
    apply andb_true_iff in Hl2 as [_ Hl2].
    destruct (IH l2 Hl1 Hl2 Hd1 Hd2 H) as [-> ->]. done.
Qed.

Lemma cell_inj (c1 c2 : string) (r1 r2 : Z) :
  no_digit c1 → no_digit c2 → 0 ≤ r1 → 0 ≤ r2 →
  cell c1 r1 = cell c2 r2 → c1 = c2 ∧ r1 = r2.
Proof.
  intros Hc1 Hc2 Hr1 Hr2 H. unfold cell in H.
  apply (f_equal PyStr.to_list) in H. rewrite !to_list_app in H.
  apply letters_digits_split in H as [Hc Hr];
    [|done|done|by apply str_digits..].
  split; [by apply to_list_inj|]. by apply str_inj, to_list_inj.
Qed.

Lemma col_no_digit (n : Z) : no_digit (excel_col_name n).
Proof. apply excel_col_name_letters. Qed.

Lemma cell_col_inj (n m r1 r2 : Z) :
  0 ≤ n → 0 ≤ m → 0 ≤ r1 → 0 ≤ r2 →
  cell (excel_col_name n) r1 = cell (excel_col_name m) r2 → n = m ∧ r1 = r2.
Proof.
  intros Hn Hm Hr1 Hr2 H.
  apply cell_inj in H as [Hc Hr]; [|apply col_no_digit..|done|done].
  split; [|done]. by apply excel_col_name_inj.
Qed.

(** The label columns start at [D]: they never meet columns [A] and [B]. *)
Lemma cell_col_A (j : nat) (r1 r2 : Z) :
  0 ≤ r1 → 0 ≤ r2 → cell (excel_col_name (3 + Z.of_nat j)) r1 ≠ cell "A" r2.
Proof.
  intros Hr1 Hr2 H. change "A" with (excel_col_name 0) in H.
  apply cell_col_inj in H; lia.
Qed.

Lemma cell_col_B (j : nat) (r1 r2 : Z) :
  0 ≤ r1 → 0 ≤ r2 → cell (excel_col_name (3 + Z.of_nat j)) r1 ≠ cell "B" r2.
Proof.
  intros Hr1 Hr2 H. change "B" with (excel_col_name 1) in H.
  apply cell_col_inj in H; lia.
Qed.

(** The header rows 6, 7 and 8 never meet a sheet row. *)
Lemma cell_header_row (n m : Z) (digit : string) (r h : Z) :
  digit = PyStr.str h → 0 ≤ h < 10 → 10 ≤ r →
  excel_col_name n +:+ digit ≠ cell (excel_col_name m) r.
Proof.
  intros -> Hh Hr H. change (excel_col_name n +:+ PyStr.str h) with
    (cell (excel_col_name n) h) in H.
  apply cell_inj in H as [_ ?]; [lia|apply col_no_digit..|lia|lia].
Qed.

(** * The stable sort *)

Section SortFacts.
Context {A K : Type} (key : A → K) (kle : K → K → bool).
Hypothesis kle_refl : ∀ k, kle k k = true.

Local Abbreviation leb := (λ x y : A, kle (key x) (key y)).

Lemma sort_insert_perm (x : A) (l : list A) : sort_insert leb x l ≡ₚ x :: l.
Proof.
  induction l as [|y l IH]; simpl; [done|].
  destruct (leb x y); [done|]. rewrite IH. apply Permutation_swap.
Qed.

Lemma stable_sort_perm (l : list A) : stable_sort leb l ≡ₚ l.
Proof.
  induction l as [|x l IH]; simpl; [done|].
  by rewrite sort_insert_perm, IH.
Qed.

Lemma stable_sort_length (l : list A) : length (stable_sort leb l) = length l.
Proof. apply Permutation_length, stable_sort_perm. Qed.




Hypothesis kle_total : ∀ k k', kle k k' = true ∨ kle k' k = true.
Hypothesis kle_trans : ∀ k1 k2 k3, kle k1 k2 = true → kle k2 k3 = true → kle k1 k3 = true.

Lemma sort_insert_sorted (x : A) (l : list A) :
  StronglySorted (λ a b, leb a b = true) l →
  StronglySorted (λ a b, leb a b = true) (sort_insert leb x l).
Proof.
  induction 1 as [|y l Hl IH Hy]; simpl.
  - repeat constructor.
  - destruct (leb x y) eqn:E.
    + constructor; [by constructor|]. constructor; [done|].
      eapply Forall_impl; [apply Hy|]. intros z Hz. simpl in *. eauto.
    + constructor; [done|].
      rewrite sort_insert_perm. constructor; [|done].
      simpl in *. destruct (kle_total (key x) (key y)); congruence.
Qed.

Lemma stable_sort_sorted (l : list A) :
  StronglySorted (λ a b, leb a b = true) (stable_sort leb l).
Proof.
  induction l as [|x l IH]; simpl; [constructor|].
  by apply sort_insert_sorted.
Qed.
End SortFacts.




Lemma key_leb_antisym (k k' : PyVal) :
  key_leb k k' = true → key_leb k' k = true → k = k'.
Proof.
  destruct k as [z|s], k' as [z'|s']; simpl; try done.
  - intros. f_equal. lia.
  - intros. f_equal. by apply String.leb_antisym.
Qed.

(** * The date pattern *)

Lemma full_match_cons (cls : ascii → bool) (lo hi : nat) (rest : list RepItem)
    (s : list ascii) :
  full_match ((cls, lo, hi) :: rest) s = true ↔
  ∃ a b, s = a ++ b ∧ (lo ≤ length a ≤ hi)%nat
         ∧ forallb cls a = true ∧ full_match rest b = true.
Proof.
  simpl. rewrite existsb_exists. split.
  - intros (n & Hn & H). apply in_seq in Hn.
    apply andb_true_iff in H as [H Hrest]. apply andb_true_iff in H as [Hlen Hcls].
    apply Nat.leb_le in Hlen.
    exists (take n s), (drop n s). rewrite take_drop, length_take.
    repeat split; try done; lia.
  - intros (a & b & -> & Hlen & Hcls & Hrest). exists (length a).
    rewrite in_seq, take_app_length, drop_app_length, Hcls, Hrest.
    rewrite length_app. split; [lia|].
    rewrite !andb_true_r. apply Nat.leb_le. lia.
Qed.

Lemma full_match_nil (s : list ascii) : full_match [] s = true ↔ s = [].
Proof. simpl. by rewrite bool_decide_eq_true. Qed.

Lemma full_match_date_items (s : string) :
  full_match date_items (PyStr.to_list s) = true ↔ date_pattern s.
Proof.
  unfold date_items, date_pattern. split.
  - intros H.
    apply full_match_cons in H as (d1 & r1 & E1 & L1 & C1 & H).
    apply full_match_cons in H as (c1 & r2 & E2 & L2 & C2 & H).
    apply full_match_cons in H as (d2 & r3 & E3 & L3 & C3 & H).
    apply full_match_cons in H as (c2 & r4 & E4 & L4 & C4 & H).
    apply full_match_cons in H as (d3 & r5 & E5 & L5 & C5 & H).
    apply full_match_nil in H. subst. rewrite app_nil_r in E1.
    exists d1, c1, d2, c2, d3. repeat split; try done; lia.
  - intros (d1 & c1 & d2 & c2 & d3 & E & C1 & L1 & C2 & L2 & C3 & L3 & C4 & L4 & C5 & L5).
    rewrite E.
    apply full_match_cons. exists d1, (c1 ++ d2 ++ c2 ++ d3). repeat split; try done; try lia.
    apply full_match_cons. exists c1, (d2 ++ c2 ++ d3). repeat split; try done; try lia.
    apply full_match_cons. exists d2, (c2 ++ d3). repeat split; try done; try lia.
    apply full_match_cons. exists c2, d3. repeat split; try done; try lia.
    apply full_match_cons. exists d3, []. rewrite app_nil_r. repeat split; try done; lia.
Qed.

(** What [date_rx.match] accepts: the pattern, possibly followed by one
    newline at the very end. *)
Lemma date_rx_match_spec (s : string) :
  date_rx_match s = true ↔
  date_pattern s ∨ ∃ s', s = s' +:+ String newline "" ∧ date_pattern s'.
Proof.
  unfold date_rx_match. rewrite orb_true_iff, full_match_date_items.
  apply or_iff_compat_l.
  destruct (List.rev (PyStr.to_list s)) as [|c before] eqn:E.
  - split; [done|]. intros (s' & -> & _).
    rewrite to_list_app, rev_app_distr in E. done.
  - rewrite andb_true_iff, bool_decide_eq_true.
    apply (f_equal (@List.rev ascii)) in E. rewrite rev_involutive in E. simpl in E.
    split.
    + intros [-> H]. exists (PyStr.of_list (List.rev before)). split.
      * apply to_list_inj. by rewrite to_list_app, to_of_list.
      * apply full_match_date_items. by rewrite to_of_list.
    + intros (s' & -> & H). rewrite to_list_app in E. simpl in E.
      apply app_inj_tail in E as [<- <-]. split; [done|].
      by apply full_match_date_items.
Qed.

(** A stripped string does not end in white space, so for it [$] means
    the end of the string. *)
Lemma lstrip_head (l : list ascii) :
  match PyStr.lstrip l with c :: _ => PyStr.is_space c = false | [] => True end.
Proof.
  induction l as [|c l IH]; simpl; [done|].
  destruct (PyStr.is_space c) eqn:E; [done|]. by rewrite E.
Qed.

Lemma strip_no_trailing_space (s s' : string) (c : ascii) :
  PyStr.strip s = s' +:+ String c "" → PyStr.is_space c = false.
Proof.
  intros H. apply (f_equal PyStr.to_list) in H.
  unfold PyStr.strip in H. rewrite to_of_list, to_list_app in H. simpl in H.
  unfold PyStr.strip_list in H.
  apply (f_equal (@List.rev ascii)) in H. rewrite rev_involutive, rev_app_distr in H.
  simpl in H. pose proof (lstrip_head (List.rev (PyStr.lstrip (PyStr.to_list s)))) as Hh.
  by rewrite H in Hh.
Qed.

Lemma date_rx_match_strip (text : string) :
  date_rx_match (PyStr.strip text) = true ↔ date_pattern (PyStr.strip text).
Proof.
  rewrite date_rx_match_spec. split; [|by left].
  intros [H|(s' & E & _)]; [done|].
  by apply strip_no_trailing_space in E.
Qed.

(** * The revision filter and sort *)

Lemma assigned_ids_foldl (acc : gset ElementId) (revised_sheets : list RevisedSheet)
    (rid : ElementId) :
  rid ∈ foldl (λ assigned rs, assigned ∪ _rev_ids rs) acc revised_sheets
  ↔ rid ∈ acc ∨ assigned_to revised_sheets rid.
Proof.
  revert acc. induction revised_sheets as [|rs l IH]; intros acc; simpl.
  - split; [by left|]. intros [?|(rs & H & _)]; [done|]. by apply elem_of_nil in H.
  - rewrite IH, elem_of_union. unfold assigned_to. split.
    + intros [[?|?]|(rs' & ? & ?)]; [by left|right..].
      * exists rs. split; [by left|done].
      * exists rs'. split; [by right|done].
    + intros [?|(rs' & [->|?]%elem_of_cons & ?)]; [by left; left|by left; right|].
      right. by exists rs'.
Qed.

Lemma assigned_ids_spec (revised_sheets : list RevisedSheet) (rid : ElementId) :
  rid ∈ assigned_ids revised_sheets ↔ assigned_to revised_sheets rid.
Proof.
  unfold assigned_ids. rewrite assigned_ids_foldl. split; [|by right].
  intros [H|H]; [|done]. by apply elem_of_empty in H.
Qed.

Lemma filtered_rev_data_filter (revised_sheets : list RevisedSheet)
    (all_revisions : list Revision.t) :
  filtered_rev_data (assigned_ids revised_sheets) all_revisions
  = rev_data_of <$> filter (survives revised_sheets) all_revisions.
Proof.
  induction all_revisions as [|rev l IH]; simpl; [done|].
  rewrite filter_cons.
  destruct (decide (survives revised_sheets rev)) as [[Ha Hd]|Hn].
  - rewrite bool_decide_eq_false_2 by (intros ?; done).
    rewrite Hd. simpl. by rewrite IH.
  - case_bool_decide as Ha; [done|].
    destruct (date_rx_match _) eqn:Hd; simpl; [|done].
    destruct Hn. split; [|done].
    by destruct (decide (Revision.Id rev ∈ assigned_ids revised_sheets)).
Qed.

Lemma build_filtered_rev_data_perm (all_revisions : list Revision.t)
    (revised_sheets : list RevisedSheet) :
  build_filtered_rev_data all_revisions revised_sheets
  ≡ₚ rev_data_of <$> filter (survives revised_sheets) all_revisions.
Proof.
  unfold build_filtered_rev_data.
  rewrite (stable_sort_perm rd_num key_leb), filtered_rev_data_filter. done.
Qed.

Lemma elem_of_build_filtered_rev_data (all_revisions : list Revision.t)
    (revised_sheets : list RevisedSheet) (x : RevData) :
  x ∈ build_filtered_rev_data all_revisions revised_sheets ↔
  ∃ rev, rev ∈ all_revisions ∧ x = rev_data_of rev
         ∧ assigned_to revised_sheets (Revision.Id rev)
         ∧ date_rx_match (date_string (Revision.RevisionDate rev)) = true.
Proof.
  rewrite build_filtered_rev_data_perm, list_elem_of_fmap.
  split.
  - intros (rev & -> & [[Ha Hd] Hin]%list_elem_of_filter).
    exists rev. by rewrite <- assigned_ids_spec.
  - intros (rev & Hin & -> & Ha & Hd). exists rev. split; [done|].
    apply list_elem_of_filter. split; [|done]. split; [|done].
    by apply assigned_ids_spec.
Qed.

(** C2: an assigned revision is in the ordered revision sequence
    exactly when [date_rx] accepts its date string, that is one or two
    digits, [.] or [/], one or two digits, [.] or [/], two to four
    digits (for a date read with [str(raw).strip()]; in general [$]
    also lets one final newline pass).  Every row of the sequence comes
    from an assigned revision with an accepted date, and the sequence
    is the one obtained from the revision list without the rejected
    revisions: a rejected revision leaves no trace. *)
Theorem build_filtered_rev_data_date_filter
    (all_revisions : list Revision.t) (revised_sheets : list RevisedSheet) :
  let out := build_filtered_rev_data all_revisions revised_sheets in
  (∀ rev, rev ∈ all_revisions → assigned_to revised_sheets (Revision.Id rev) →
     (rev_data_of rev ∈ out ↔
      date_rx_match (date_string (Revision.RevisionDate rev)) = true))
  ∧ (∀ dstr, date_rx_match dstr = true ↔
       date_pattern dstr ∨ ∃ s', dstr = s' +:+ String newline "" ∧ date_pattern s')
  ∧ (∀ text, date_rx_match (date_string (DateText text)) = true ↔
       date_pattern (PyStr.strip text))
  ∧ (∀ x, x ∈ out →
       ∃ rev, rev ∈ all_revisions ∧ x = rev_data_of rev
              ∧ assigned_to revised_sheets (Revision.Id rev)
              ∧ date_rx_match (date_string (Revision.RevisionDate rev)) = true)
  ∧ out = build_filtered_rev_data
            (filter (λ rev, date_rx_match (date_string (Revision.RevisionDate rev)) = true)
                    all_revisions)
            revised_sheets.
Proof.
  intros out. split; [|split; [|split; [|split]]].
  - intros rev Hin Ha. unfold out. rewrite elem_of_build_filtered_rev_data. split.
    + intros (rev' & _ & E & _ & Hd). unfold rev_data_of in E.
      injection E as _ _ E _. by rewrite E.
    + intros Hd. by exists rev.
  - apply date_rx_match_spec.
  - intros text. apply date_rx_match_strip.
  - intros x. unfold out. by rewrite elem_of_build_filtered_rev_data.
  - unfold out, build_filtered_rev_data. f_equal.
    rewrite !filtered_rev_data_filter. f_equal.
    rewrite list_filter_filter. apply list_filter_iff.
    intros rev. unfold survives. tauto.
Qed.


(** * The chunk partitioner *)


Lemma num_chunks_bounds (total size : nat) :
  (0 < size)%nat →
  (total ≤ num_chunks total size * size)%nat
  ∧ (num_chunks total size * size < total + size)%nat.
Proof.
  intros Hs. unfold num_chunks.
  pose proof (Nat.div_mod_eq (total + size - 1) size) as Hdm.
  pose proof (Nat.mod_upper_bound (total + size - 1) size ltac:(lia)) as Hm.
  split; nia.
Qed.




Lemma length_chunk_at {A} (l : list A) (size k : nat) :
  length (chunk_at l size k) = (size `min` (length l - k * size))%nat.
Proof.
  unfold chunk_at, slice. rewrite length_take, length_drop. f_equal. lia.
Qed.


(** Every chunk but the last is full, and no chunk is empty. *)
Lemma chunk_at_full {A} (l : list A) (size k : nat) :
  (0 < size)%nat → (S k < num_chunks (length l) size)%nat →
  length (chunk_at l size k) = size.
Proof.
  intros Hs Hk. rewrite length_chunk_at.
  pose proof (num_chunks_bounds (length l) size Hs). nia.
Qed.

Lemma chunk_at_nonempty {A} (l : list A) (size k : nat) :
  (0 < size)%nat → (k < num_chunks (length l) size)%nat →
  (0 < length (chunk_at l size k) ≤ size)%nat.
Proof.
  intros Hs Hk. rewrite length_chunk_at.
  pose proof (num_chunks_bounds (length l) size Hs). nia.
Qed.

(** The nested loops visit the pages in row-major order. *)
Lemma for_each_app {S X} (body : X → S → option S) (xs ys : list X) (s : S) :
  for_each body (xs ++ ys) s = for_each body xs s ≫= for_each body ys.
Proof.
  revert s. induction xs as [|x xs IH]; intros s; simpl; [done|].
  destruct (body x s) as [s'|]; simpl; [apply IH|done].
Qed.

Lemma for_each_nested {S X Y} (body : X → Y → S → option S)
    (xs : list X) (ys : list Y) (s : S) :
  for_each (λ x s, for_each (body x) ys s) xs s
  = for_each (λ p, body p.1 p.2) (x ← xs; y ← ys; [(x, y)]) s.
Proof.
  revert s. induction xs as [|x xs IH]; intros s; [done|].
  cbn [for_each]. rewrite bind_cons, for_each_app.
  assert (∀ s, for_each (body x) ys s
               = for_each (λ p, body p.1 p.2) (y ← ys; [(x, y)]) s) as ->.
  { clear. induction ys as [|y ys IH]; intros s; [done|].
    cbn. destruct (body x y s); simpl; [apply IH|done]. }
  destruct (for_each _ _ s) as [s'|]; simpl; [apply IH|done].
Qed.

Lemma ws_index_row (w rc n : nat) :
  ws_index_of w <$> (seq 0 n ≫= λ sc, [(rc, sc)]) = seq (1 + rc * w) n.
Proof.
  induction n as [|n IH]; [done|].
  rewrite !seq_S, bind_app, fmap_app, IH, bind_singleton.
  simpl. do 2 f_equal. unfold ws_index_of. simpl. lia.
Qed.

Lemma ws_index_page_order (nrc nsc : nat) :
  ws_index_of nsc <$> page_order nrc nsc = seq 1 (nrc * nsc).
Proof.
  unfold page_order. induction nrc as [|nrc IH]; [done|].
  rewrite seq_S, bind_app, fmap_app, IH, bind_singleton.
  rewrite ws_index_row.
  replace (S nrc * nsc)%nat with (nrc * nsc + nsc)%nat by lia.
  rewrite seq_app. do 2 f_equal.
Qed.

Lemma length_page_order (nrc nsc : nat) : length (page_order nrc nsc) = (nrc * nsc)%nat.
Proof.
  rewrite <- (length_fmap (ws_index_of nsc)), ws_index_page_order.
  apply length_seq.
Qed.

Lemma page_order_lookup (nrc nsc rc sc : nat) :
  (rc < nrc)%nat → (sc < nsc)%nat →
  page_order nrc nsc !! (rc * nsc + sc)%nat = Some (rc, sc).
Proof.
  intros Hrc Hsc.
  assert (rc * nsc + sc < nrc * nsc)%nat as Hlt by nia.
  rewrite <- (length_page_order nrc nsc) in Hlt.
  apply lookup_lt_is_Some_2 in Hlt as [[rc' sc'] Hp]. rewrite Hp. f_equal.
  assert (rc' < nrc ∧ sc' < nsc)%nat as [Hrc' Hsc'].
  { apply list_elem_of_lookup_2 in Hp. unfold page_order in Hp.
    apply list_elem_of_bind in Hp as (x & Hp & Hx%elem_of_seq).
    apply list_elem_of_bind in Hp as (y & Hp & Hy%elem_of_seq).
    apply list_elem_of_singleton in Hp as [= -> ->]. lia. }
  pose proof (f_equal (.!! (rc * nsc + sc)%nat) (ws_index_page_order nrc nsc)) as E.
  rewrite list_lookup_fmap, Hp in E. simpl in E.
  rewrite lookup_seq_lt in E by nia. injection E as E.
  unfold ws_index_of in E. simpl in E.
  assert (rc' = rc) by nia. subst. f_equal. lia.
Qed.


(** * Sheets and their revisions *)

Lemma mapM_omap {A B} (f : A → option B) (l : list A) :
  (∀ x, x ∈ l → is_Some (f x)) → mapM f l = Some (omap f l).
Proof.
  induction l as [|x l IH]; intros H; [done|].
  destruct (H x ltac:(left)) as [y Hy]. cbn. rewrite Hy. simpl.
  rewrite IH by (intros; apply H; by right). done.
Qed.

Lemma foldl_add_ids {A} (f : A → ElementId) (l : list A) (acc : gset ElementId) :
  foldl (λ s x, s ∪ {[f x]}) acc l = acc ∪ list_to_set (f <$> l).
Proof.
  revert acc. induction l as [|x l IH]; intros acc; csimpl.
  - set_solver.
  - rewrite IH. set_solver.
Qed.

Lemma size_list_to_set_dups (l : list ElementId) :
  size (list_to_set (C:=gset ElementId) l) = length (remove_dups l).
Proof.
  rewrite <- (size_list_to_set (C:=gset ElementId) (remove_dups l))
    by apply NoDup_remove_dups.
  f_equal. apply set_eq. intros x.
  by rewrite !elem_of_list_to_set, elem_of_remove_dups.
Qed.

Lemma find_clouds_spec (doc : Document.t) (all_clouds : list RevisionCloud.t)
    (sheet : ViewSheet.t) :
  viewports_resolve doc sheet →
  _find_clouds doc all_clouds sheet = Some (sheet_markups doc all_clouds sheet).
Proof.
  intros Hvp. unfold _find_clouds.
  rewrite (mapM_omap _ _) by (intros vp Hin; destruct (Hvp vp Hin) as [v ->]; by eexists).
  done.
Qed.

Lemma find_revisions_spec (sheet : ViewSheet.t) (clouds : list RevisionCloud.t) :
  _find_revisions sheet clouds
  = list_to_set (RevisionCloud.RevisionId <$> clouds)
    ∪ list_to_set (ViewSheet.GetAdditionalRevisionIds sheet).
Proof.
  unfold _find_revisions.
  rewrite (foldl_add_ids RevisionCloud.RevisionId), (foldl_add_ids id).
  rewrite list_fmap_id. set_solver.
Qed.

Lemma RevisedSheet_init_spec (doc : Document.t) (all_clouds : list RevisionCloud.t)
    (sheet : ViewSheet.t) :
  viewports_resolve doc sheet →
  RevisedSheet_init doc all_clouds sheet
  = Some (revised_sheet_of doc all_clouds sheet).
Proof.
  intros Hvp. unfold RevisedSheet_init. rewrite find_clouds_spec by done.
  simpl. by rewrite find_revisions_spec.
Qed.

Lemma elem_of_placed_view_ids (doc : Document.t) (sheet : ViewSheet.t) (v : ElementId) :
  v ∈ placed_view_ids doc sheet ↔
  v = ViewSheet.Id sheet
  ∨ ∃ vp e, vp ∈ ViewSheet.GetAllViewports sheet
            ∧ Document.GetElement doc vp = Some (EViewport e)
            ∧ Viewport.ViewId e = v.
Proof.
  unfold placed_view_ids. rewrite elem_of_cons, list_elem_of_omap.
  apply or_iff_compat_l. split.
  - intros (vp & Hin & H). exists vp.
    destruct (Document.GetElement doc vp) as [[]|]; simplify_eq/=. eauto.
  - intros (vp & e & Hin & HE & <-). exists vp. by rewrite HE.
Qed.

(** C5: the association set of a sheet is the set of the revisions of
    the markups owned by the sheet or by the view of one of its
    viewports, together with the revisions attached to the sheet; as a
    set it holds every identifier once, and an attached revision is in
    it even when the sheet has no markup at all. *)
Theorem RevisedSheet_rev_ids_union (doc : Document.t)
    (all_clouds : list RevisionCloud.t) (sheet : ViewSheet.t) :
  viewports_resolve doc sheet →
  ∃ rs, RevisedSheet_init doc all_clouds sheet = Some rs
    ∧ _sheet rs = sheet
    ∧ (∀ c, c ∈ _clouds rs ↔
         c ∈ all_clouds
         ∧ (RevisionCloud.OwnerViewId c = ViewSheet.Id sheet
            ∨ ∃ vp e, vp ∈ ViewSheet.GetAllViewports sheet
                      ∧ Document.GetElement doc vp = Some (EViewport e)
                      ∧ Viewport.ViewId e = RevisionCloud.OwnerViewId c))
    ∧ (∀ rid, rid ∈ _rev_ids rs ↔
         (∃ c, c ∈ _clouds rs ∧ RevisionCloud.RevisionId c = rid)
         ∨ rid ∈ ViewSheet.GetAdditionalRevisionIds sheet)
    ∧ _rev_ids rs = sheet_rev_ids doc all_clouds sheet
    ∧ rev_count rs
      = length (remove_dups ((RevisionCloud.RevisionId <$> _clouds rs)
                             ++ ViewSheet.GetAdditionalRevisionIds sheet))
    ∧ (_clouds rs = [] →
       _rev_ids rs = list_to_set (ViewSheet.GetAdditionalRevisionIds sheet)).
Proof.
  intros Hvp. eexists. split; [by apply RevisedSheet_init_spec|].
  unfold revised_sheet_of. simpl.
  split; [done|]. split; [|split; [|split; [done|split]]].
  - intros c. unfold sheet_markups. rewrite list_elem_of_filter, elem_of_placed_view_ids.
    tauto.
  - intros rid. unfold sheet_rev_ids.
    rewrite elem_of_union, !elem_of_list_to_set, list_elem_of_fmap.
    apply or_iff_compat_r. split.
    + intros (c & -> & Hc). by exists c.
    + intros (c & Hc & <-). by exists c.
  - unfold rev_count, sheet_rev_ids. simpl.
    rewrite <- list_to_set_app_L. apply size_list_to_set_dups.
  - intros H. unfold sheet_rev_ids. rewrite H. set_solver.
Qed.



(** * The revision index of a chunk *)

Lemma build_rev_index_notin (idx : nat) (rev_chunk : list RevData)
    (m : gmap ElementId nat) (rid : ElementId) :
  rid ∉ rd_id <$> rev_chunk → build_rev_index idx rev_chunk m !! rid = m !! rid.
Proof.
  revert idx m. induction rev_chunk as [|x l IH]; intros idx m Hnin; [done|].
  rewrite fmap_cons, not_elem_of_cons in Hnin. destruct Hnin as [Hne Hnin].
  simpl. rewrite IH by done. by rewrite lookup_insert_ne.
Qed.

Lemma build_rev_index_lookup (idx : nat) (rev_chunk : list RevData)
    (m : gmap ElementId nat) (rid : ElementId) (j : nat) :
  build_rev_index idx rev_chunk m !! rid = Some j →
  (∃ k, j = (idx + k)%nat ∧ rd_id <$> rev_chunk !! k = Some rid)
  ∨ (m !! rid = Some j ∧ rid ∉ rd_id <$> rev_chunk).
Proof.
  revert idx m. induction rev_chunk as [|x l IH]; intros idx m H.
  - right. split; [done|]. apply not_elem_of_nil.
  - simpl in H. apply IH in H as [(k & -> & Hk)|[Hm Hnin]].
    + left. exists (S k). split; [lia|done].
    + destruct (decide (rd_id x = rid)) as [<-|Hne].
      * rewrite lookup_insert_eq in Hm. injection Hm as <-.
        left. exists 0%nat. split; [lia|done].
      * rewrite lookup_insert_ne in Hm by done. right. split; [done|].
        rewrite fmap_cons, not_elem_of_cons. done.
Qed.

(** A revision that the index sends to column [j] is the revision of
    the [j]-th row of the chunk. *)
Lemma rev_index_lookup (rev_chunk : list RevData) (rid : ElementId) (j : nat) :
  build_rev_index 0 rev_chunk ∅ !! rid = Some j →
  rd_id <$> rev_chunk !! j = Some rid.
Proof.
  intros [(k & -> & Hk)|[Hm _]]%build_rev_index_lookup; [done|].
  by rewrite lookup_empty in Hm.
Qed.

Lemma rev_index_is_Some (rev_chunk : list RevData) (rid : ElementId) :
  is_Some (build_rev_index 0 rev_chunk ∅ !! rid) ↔ rid ∈ rd_id <$> rev_chunk.
Proof.
  split.
  - intros [j Hj]. apply rev_index_lookup in Hj.
    rewrite <- list_lookup_fmap in Hj. by apply list_elem_of_lookup_2 in Hj.
  - generalize 0%nat (∅ : gmap ElementId nat).
    induction rev_chunk as [|x l IH]; intros idx m Hin.
    + by apply elem_of_nil in Hin.
    + simpl. destruct (decide (rid ∈ rd_id <$> l)) as [Hl|Hl]; [by apply IH|].
      rewrite build_rev_index_notin by done.
      rewrite fmap_cons in Hin. apply elem_of_cons in Hin as [->|?]; [|done].
      rewrite lookup_insert_eq. by eexists.
Qed.

(** When the rows of the chunk have distinct identifiers, the index of
    a row is its position. *)
Lemma rev_index_NoDup (rev_chunk : list RevData) (x : RevData) (j : nat) :
  NoDup (rd_id <$> rev_chunk) → rev_chunk !! j = Some x →
  build_rev_index 0 rev_chunk ∅ !! rd_id x = Some j.
Proof.
  intros Hnd Hj.
  assert (is_Some (build_rev_index 0 rev_chunk ∅ !! rd_id x)) as [j' Hj'].
  { apply rev_index_is_Some, list_elem_of_fmap. exists x. split; [done|].
    by apply list_elem_of_lookup_2 in Hj. }
  rewrite Hj'. f_equal. apply rev_index_lookup in Hj'.
  eapply NoDup_lookup; [done|..].
  - by rewrite list_lookup_fmap, Hj'.
  - by rewrite list_lookup_fmap, Hj.
Qed.

(** * The revisions of a sheet within a chunk *)

Lemma GetElement_Some (doc : Document.t) (id : ElementId) (e : Element) :
  Document.GetElement doc id = Some e → element_id e = id ∧ e ∈ Document.Elements doc.
Proof.
  intros H. apply find_some in H as [Hin He].
  apply bool_decide_eq_true in He. split; [done|]. by apply list_elem_of_In.
Qed.

Lemma as_revision_id (doc : Document.t) (rid : ElementId) (rev : Revision.t) :
  as_revision (Document.GetElement doc rid) = Some rev → Revision.Id rev = rid.
Proof.
  destruct (Document.GetElement doc rid) as [[]|] eqn:E; try done.
  intros [= ->]. by apply GetElement_Some in E as [? _].
Qed.

Lemma NoDup_fmap_inj {A B} (f : A → B) (l : list A) (x y : A) :
  NoDup (f <$> l) → x ∈ l → y ∈ l → f x = f y → x = y.
Proof.
  intros Hnd [i Hi]%list_elem_of_lookup [j Hj]%list_elem_of_lookup Hf.
  assert (i = j) as ->; [|congruence].
  eapply NoDup_lookup; [done|..]; rewrite list_lookup_fmap.
  - by rewrite Hi.
  - by rewrite Hj, Hf.
Qed.


Lemma resolved_ids (doc : Document.t) (ids : list ElementId) (revs0 : list Revision.t) :
  Forall2 (λ rid r, as_revision (Document.GetElement doc rid) = Some r) ids revs0 →
  Revision.Id <$> revs0 = ids.
Proof.
  induction 1 as [|rid r ids l Hr _ IH]; [done|].
  rewrite fmap_cons, IH. f_equal. by apply as_revision_id in Hr.
Qed.

Lemma chunk_ids_NoDup (rev_index : gmap ElementId nat) (rs : RevisedSheet) :
  NoDup (chunk_ids rev_index rs).
Proof. apply NoDup_filter, NoDup_elements. Qed.

Lemma elem_of_chunk_ids (rev_index : gmap ElementId nat) (rs : RevisedSheet)
    (rid : ElementId) :
  rid ∈ chunk_ids rev_index rs ↔ rid ∈ _rev_ids rs ∧ is_Some (rev_index !! rid).
Proof. unfold chunk_ids. rewrite list_elem_of_filter, elem_of_elements. tauto. Qed.

Section ChunkRevs.
Variable doc : Document.t.
Variable rev_index : gmap ElementId nat.
Variable rs : RevisedSheet.
Variable revs : list Revision.t.
Hypothesis Hrevs : chunk_revs doc rev_index rs = Some revs.

Lemma chunk_revs_unsorted :
  ∃ revs0, revs = stable_sort seq_leb revs0
    ∧ Forall2 (λ rid r, as_revision (Document.GetElement doc rid) = Some r)
              (chunk_ids rev_index rs) revs0.
Proof.
  unfold chunk_revs in Hrevs.
  destruct (mapM _ _) as [revs0|] eqn:E; [|done]. simpl in Hrevs.
  injection Hrevs as <-. exists revs0. split; [done|].
  by apply mapM_Some_1 in E.
Qed.

Lemma chunk_revs_ids : Revision.Id <$> revs ≡ₚ chunk_ids rev_index rs.
Proof.
  destruct chunk_revs_unsorted as (revs0 & -> & HF).
  rewrite (stable_sort_perm Revision.SequenceNumber Z.leb).
  by rewrite (resolved_ids _ _ _ HF).
Qed.

Lemma chunk_revs_NoDup_ids : NoDup (Revision.Id <$> revs).
Proof. rewrite chunk_revs_ids. apply chunk_ids_NoDup. Qed.

Lemma chunk_revs_NoDup : NoDup revs.
Proof. eapply NoDup_fmap_1, chunk_revs_NoDup_ids. Qed.

Lemma elem_of_chunk_revs (r : Revision.t) :
  r ∈ revs ↔
  Revision.Id r ∈ _rev_ids rs ∧ is_Some (rev_index !! Revision.Id r)
  ∧ as_revision (Document.GetElement doc (Revision.Id r)) = Some r.
Proof.
  destruct chunk_revs_unsorted as (revs0 & -> & HF).
  rewrite (stable_sort_perm Revision.SequenceNumber Z.leb).
  split.
  - intros Hr. apply list_elem_of_lookup in Hr as [i Hi].
    destruct (Forall2_lookup_r _ _ _ _ _ HF Hi) as (rid & Hrid & Hres).
    pose proof (as_revision_id _ _ _ Hres) as <-.
    apply list_elem_of_lookup_2, elem_of_chunk_ids in Hrid as [??]. done.
  - intros (Hin & Hidx & Hres).
    assert (Revision.Id r ∈ chunk_ids rev_index rs) as Hc
      by by apply elem_of_chunk_ids.
    apply list_elem_of_lookup in Hc as [i Hi].
    destruct (Forall2_lookup_l _ _ _ _ _ HF Hi) as (r' & Hr' & Hres').
    rewrite Hres in Hres'. injection Hres' as <-.
    by apply list_elem_of_lookup_2 in Hr'.
Qed.

End ChunkRevs.

Lemma chunk_revs_is_Some (doc : Document.t) (rev_chunk : list RevData)
    (rs : RevisedSheet) :
  chunk_resolves doc rev_chunk →
  is_Some (chunk_revs doc (build_rev_index 0 rev_chunk ∅) rs).
Proof.
  intros Hres. unfold chunk_revs.
  destruct (mapM _ _) as [revs0|] eqn:E; [by eexists|].
  exfalso. eapply eq_None_not_Some; [apply E|].
  apply mapM_is_Some_2, Forall_forall. intros rid Hin.
  apply list_elem_of_filter in Hin as [Hin _].
  apply rev_index_is_Some, list_elem_of_fmap in Hin as (x & -> & Hx).
  by apply Hres.
Qed.

(** * Grouping by numbering sequence *)

Section OrderedDict.
Context {V : Type}.
Implicit Types (g : list (ElementId * list V)) (k : ElementId) (v : V).

Lemma od_append_keys k v g :
  (od_setdefault_append k v g).*1 = if decide (k ∈ g.*1) then g.*1 else g.*1 ++ [k].
Proof.
  induction g as [|[k' vs] g IH]; csimpl; [done|].
  case_bool_decide as Hk; csimpl.
  - subst. by rewrite decide_True by left.
  - rewrite IH. destruct (decide (k ∈ g.*1)) as [Hin|Hin].
    + by rewrite decide_True by by right.
    + rewrite decide_False; [done|].
      intros [?|?]%elem_of_cons; [by subst|done].
Qed.

Lemma od_append_NoDup k v g :
  NoDup g.*1 → NoDup (od_setdefault_append k v g).*1.
Proof.
  intros Hnd. rewrite od_append_keys. case_decide; [done|].
  apply NoDup_app. split; [done|]. split; [|apply NoDup_singleton].
  intros x Hx ->%list_elem_of_singleton. done.
Qed.

Lemma od_append_values k v g :
  concat (od_setdefault_append k v g).*2 ≡ₚ v :: concat g.*2.
Proof.
  induction g as [|[k' vs] g IH]; csimpl; [done|].
  case_bool_decide; csimpl.
  - rewrite <- (assoc_L (++)). symmetry. apply Permutation_middle.
  - rewrite IH. symmetry. apply Permutation_middle.
Qed.

Lemma od_append_elem k v g k' (vs' : list V) :
  NoDup g.*1 →
  (k', vs') ∈ od_setdefault_append k v g ↔
  (k' ≠ k ∧ (k', vs') ∈ g)
  ∨ (k' = k ∧ ((∃ vs, (k, vs) ∈ g ∧ vs' = vs ++ [v]) ∨ ((k ∉ g.*1) ∧ vs' = [v]))).
Proof.
  induction g as [|[k0 vs0] g IH]; intros Hnd; cbn [od_setdefault_append].
  - rewrite list_elem_of_singleton. split.
    + intros [= -> ->]. right. split; [done|]. right. split; [|done].
      apply not_elem_of_nil.
    + intros [[_ H]|[-> [(vs & H & _)|[_ ->]]]]; try done;
        by apply elem_of_nil in H.
  - rewrite fmap_cons in Hnd. apply NoDup_cons in Hnd as [Hk0 Hnd].
    cbn [fst] in Hk0. specialize (IH Hnd).
    assert (∀ k1 (vs1 : list V), (k1, vs1) ∈ g → k1 ∈ g.*1) as Hfst.
    { intros k1 vs1 Hin. apply list_elem_of_fmap. by exists (k1, vs1). }
    rewrite fmap_cons. cbn [fst].
    case_bool_decide as Hk.
    + subst k0. split.
      * intros [[= -> ->]|Hin]%elem_of_cons.
        -- right. split; [done|]. left. exists vs0. split; [by left|done].
        -- left. split; [|by right]. intros ->. eauto.
      * intros [[Hne [[= ? ?]|Hin]%elem_of_cons]
               |[-> [(vs & [[= ->]|Hin]%elem_of_cons & ->)|[Hnin _]]]].
        -- done.
        -- by right.
        -- by left.
        -- destruct Hk0. eauto.
        -- destruct Hnin. by left.
    + rewrite elem_of_cons, IH. split.
      * intros [[= -> ->]|[[Hne Hin]|[-> H]]].
        -- left. split; [done|by left].
        -- left. split; [done|by right].
        -- right. split; [done|]. destruct H as [(vs & Hin & ->)|[Hnin ->]].
           ++ left. exists vs. split; [by right|done].
           ++ right. split; [|done]. intros [?|?]%elem_of_cons; [by subst|done].
      * intros [[Hne [[= -> ->]|Hin]%elem_of_cons]|[-> H]].
        -- by left.
        -- right. by left.
        -- right. right. split; [done|].
           destruct H as [(vs & [[= ? ?]|Hin]%elem_of_cons & ->)|[Hnin ->]].
           ++ by subst.
           ++ left. by exists vs.
           ++ right. split; [|done]. intros ?. apply Hnin. by right.
Qed.
End OrderedDict.

Lemma group_revs_snoc (revs : list Revision.t) (r : Revision.t) :
  group_revs (revs ++ [r]) = od_setdefault_append (seq_id r) r (group_revs revs).
Proof. unfold group_revs. by rewrite foldl_snoc. Qed.

Lemma group_revs_values (revs : list Revision.t) :
  concat (group_revs revs).*2 ≡ₚ revs.
Proof.
  induction revs as [|r revs IH] using rev_ind; [done|].
  rewrite group_revs_snoc, od_append_values, IH.
  by rewrite <- Permutation_cons_append.
Qed.

(** The groups are the non-empty classes of revisions with the same
    numbering sequence, each in the order of the sorted list. *)
Lemma group_revs_spec (revs : list Revision.t) :
  NoDup (group_revs revs).*1
  ∧ ∀ k grp, (k, grp) ∈ group_revs revs ↔
             grp = filter (λ r, seq_id r = k) revs ∧ grp ≠ [].
Proof.
  induction revs as [|r revs [Hnd IH]] using rev_ind.
  - split; [constructor|]. intros k grp. split.
    + by intros ?%elem_of_nil.
    + intros [-> ?]. done.
  - rewrite group_revs_snoc. split; [by apply od_append_NoDup|].
    intros k grp. rewrite od_append_elem by done.
    rewrite filter_app, filter_cons, filter_nil. split.
    + intros [[Hne Hin]|[-> [(vs & Hin & ->)|[Hnin ->]]]].
      * apply IH in Hin as [-> ?]. rewrite decide_False by done.
        by rewrite app_nil_r.
      * apply IH in Hin as [-> ?]. rewrite decide_True by done.
        split; [done|]. by intros [? _]%app_eq_nil.
      * rewrite decide_True by done. split; [|done].
        destruct (filter _ revs) as [|r' l] eqn:E; [done|].
        destruct Hnin. apply list_elem_of_fmap. exists (seq_id r, r' :: l).
        split; [done|]. apply IH. by rewrite E.
    + intros [-> Hne]. destruct (decide (seq_id r = k)) as [<-|Hk].
      * right. split; [done|].
        destruct (filter _ revs) as [|r' l] eqn:E.
        -- right. split; [|done]. intros ((k' & vs) & Hk' & Hin)%list_elem_of_fmap.
           simpl in Hk'. subst k'.
           apply IH in Hin as [-> Hvs]. by rewrite E in Hvs.
        -- left. exists (r' :: l). split; [|done]. apply IH. by rewrite E.
      * left. split; [done|]. rewrite app_nil_r in *. by apply IH.
Qed.

(** * The labels of a sheet row *)

Lemma resolve_label_spec (doc : Document.t) (seq_idx : Z) (rev : Revision.t) :
  resolve_label doc seq_idx rev = (λ q, label_of q seq_idx rev) <$> sequence_of doc rev.
Proof.
  unfold resolve_label, sequence_of.
  destruct (Document.GetElement doc _) as [[]|]; simpl; try done.
  by case_bool_decide.
Qed.

Lemma elem_of_concat {A} (x : A) (ls : list (list A)) :
  x ∈ concat ls ↔ ∃ l, x ∈ l ∧ l ∈ ls.
Proof.
  induction ls as [|l ls IH]; simpl.
  - split; [by intros ?%elem_of_nil|]. by intros (l & _ & ?%elem_of_nil).
  - rewrite elem_of_app, IH. split.
    + intros [?|(l' & ? & ?)]; [exists l|exists l']; split; try done;
        [by left|by right].
    + intros (l' & ? & [->|?]%elem_of_cons); [by left|right; by exists l'].
Qed.

Lemma label_group_elem (doc : Document.t) (rev_index : gmap ElementId nat)
    (s : Z) (grp : list Revision.t) (cells : list LabelCell) :
  label_group doc rev_index s grp = Some cells →
  ∀ c, c ∈ cells ↔
       ∃ (i : nat) rev j label,
         grp !! i = Some rev ∧ rev_index !! Revision.Id rev = Some j
         ∧ resolve_label doc (s + Z.of_nat i) rev = Some label
         ∧ c = (Revision.Id rev, j, label).
Proof.
  revert s cells. induction grp as [|rev grp IH]; intros s cells H c.
  - injection H as <-. split; [by intros ?%elem_of_nil|].
    by intros (i & ? & ? & ? & ? & _).
  - cbn [label_group] in H.
    assert (∀ cells', label_group doc rev_index (s + 1) grp = Some cells' →
              (c ∈ cells' ↔
               ∃ (i : nat) rev' j label,
                 (rev :: grp) !! S i = Some rev'
                 ∧ rev_index !! Revision.Id rev' = Some j
                 ∧ resolve_label doc (s + Z.of_nat (S i)) rev' = Some label
                 ∧ c = (Revision.Id rev', j, label))) as Htail.
    { intros cells' H'. rewrite (IH _ _ H').
      apply exist_proper; intros i. do 3 (apply exist_proper; intros ?).
      replace (s + 1 + Z.of_nat i) with (s + Z.of_nat (S i)) by lia. done. }
    destruct (rev_index !! Revision.Id rev) as [j|] eqn:Hj.
    + destruct (resolve_label doc s rev) as [label|] eqn:Hl; [|done].
      destruct (label_group doc rev_index (s + 1) grp) as [cells'|]; [|done].
      injection H as <-. rewrite elem_of_cons, (Htail _ eq_refl). split.
      * intros [->|(i & rev' & j' & label' & ?)].
        -- exists 0%nat, rev, j, label. by rewrite Z.add_0_r.
        -- by exists (S i), rev', j', label'.
      * intros ([|i] & rev' & j' & label' & Hi & Hj' & Hl' & ->).
        -- left. injection Hi as <-. rewrite Z.add_0_r in Hl'. congruence.
        -- right. by exists i, rev', j', label'.
    + rewrite (Htail _ H). split.
      * intros (i & rev' & j' & label' & ?). by exists (S i), rev', j', label'.
      * intros ([|i] & rev' & j' & label' & Hi & Hj' & Hl' & ->).
        -- injection Hi as <-. congruence.
        -- by exists i, rev', j', label'.
Qed.

Lemma label_group_is_Some (doc : Document.t) (rev_index : gmap ElementId nat)
    (s : Z) (grp : list Revision.t) :
  (∀ rev, rev ∈ grp → is_Some (sequence_of doc rev)) →
  is_Some (label_group doc rev_index s grp).
Proof.
  revert s. induction grp as [|rev grp IH]; intros s H; [by eexists|].
  cbn [label_group].
  destruct (IH (s + 1)) as [cells Hc]; [intros; apply H; by right|].
  rewrite Hc. destruct (rev_index !! _); [|by eexists].
  rewrite resolve_label_spec.
  destruct (H rev) as [q ->]; [by left|]. by eexists.
Qed.

Lemma sheet_label_cells_elem (doc : Document.t) (rev_index : gmap ElementId nat)
    (rs : RevisedSheet) (cells : list LabelCell) :
  sheet_label_cells doc rev_index rs = Some cells →
  ∃ revs, chunk_revs doc rev_index rs = Some revs
    ∧ ∀ c, c ∈ cells ↔
           ∃ k grp (i : nat) rev j label,
             (k, grp) ∈ group_revs revs
             ∧ grp !! i = Some rev ∧ rev_index !! Revision.Id rev = Some j
             ∧ resolve_label doc (1 + Z.of_nat i) rev = Some label
             ∧ c = (Revision.Id rev, j, label).
Proof.
  unfold sheet_label_cells. intros H.
  destruct (chunk_revs doc rev_index rs) as [revs|]; [|done]. simpl in H.
  exists revs. split; [done|].
  destruct (mapM _ _) as [cellss|] eqn:E; [|done]. injection H as <-.
  apply mapM_Some_1 in E. intros c. rewrite elem_of_concat. split.
  - intros (cs & Hc & [n Hn]%list_elem_of_lookup).
    destruct (Forall2_lookup_r _ _ _ _ _ E Hn) as (grp & Hgrp & Hlg).
    apply (label_group_elem _ _ _ _ _ Hlg) in Hc as (i & rev & j & label & ?).
    rewrite list_lookup_fmap in Hgrp.
    destruct (group_revs revs !! n) as [[k grp']|] eqn:Hk; [|done].
    injection Hgrp as ->. apply list_elem_of_lookup_2 in Hk.
    by exists k, grp, i, rev, j, label.
  - intros (k & grp & i & rev & j & label & [n Hn]%list_elem_of_lookup & Hrest).
    assert ((group_revs revs).*2 !! n = Some grp) as Hgrp
      by by rewrite list_lookup_fmap, Hn.
    destruct (Forall2_lookup_l _ _ _ _ _ E Hgrp) as (cs & Hcs & Hlg).
    exists cs. split; [|by apply list_elem_of_lookup_2 in Hcs].
    apply (label_group_elem _ _ _ _ _ Hlg). by exists i, rev, j, label.
Qed.

Lemma sheet_label_cells_is_Some (doc : Document.t) (rev_chunk : list RevData)
    (rs : RevisedSheet) :
  chunk_resolves doc rev_chunk → sequences_resolve doc rev_chunk →
  is_Some (sheet_label_cells doc (build_rev_index 0 rev_chunk ∅) rs).
Proof.
  intros Hres Hseq. unfold sheet_label_cells.
  destruct (chunk_revs_is_Some doc rev_chunk rs Hres) as [revs Hrevs].
  rewrite Hrevs. simpl.
  destruct (mapM _ _) as [cellss|] eqn:E; [by eexists|].
  exfalso. eapply eq_None_not_Some; [apply E|].
  apply mapM_is_Some_2, Forall_forall. intros grp Hgrp.
  apply label_group_is_Some. intros rev Hrev.
  assert (rev ∈ revs) as Hin.
  { rewrite <- group_revs_values. apply elem_of_concat. by exists grp. }
  apply (elem_of_chunk_revs _ _ _ _ Hrevs) in Hin as (_ & Hidx & Hr).
  apply rev_index_is_Some, list_elem_of_fmap in Hidx as (x & Hx & Hin).
  apply (Hseq x); [done|]. by rewrite <- Hx.
Qed.

(** * What the fill functions leave in a worksheet *)

Lemma cells_lookup_snoc (j : nat) (cells : list LabelCell) (c : LabelCell) :
  cells_lookup j (cells ++ [c])
  = if bool_decide (c.1.2 = j) then Some c.2 else cells_lookup j cells.
Proof. unfold cells_lookup. by rewrite foldl_snoc. Qed.

Lemma cells_lookup_None (j : nat) (cells : list LabelCell) :
  (∀ c, c ∈ cells → c.1.2 ≠ j) → cells_lookup j cells = None.
Proof.
  induction cells as [|c cells IH] using rev_ind; intros H; [done|].
  rewrite cells_lookup_snoc, bool_decide_eq_false_2.
  - apply IH. intros c' Hc'. apply H, elem_of_app. by left.
  - apply H, elem_of_app. right. by left.
Qed.

Lemma cells_lookup_Some (j : nat) (cells : list LabelCell) (label : PyVal) :
  (∃ c, c ∈ cells ∧ c.1.2 = j) →
  (∀ c, c ∈ cells → c.1.2 = j → c.2 = label) →
  cells_lookup j cells = Some label.
Proof.
  induction cells as [|c cells IH] using rev_ind; intros (c0 & Hin & Hj) H.
  { by apply elem_of_nil in Hin. }
  rewrite cells_lookup_snoc. case_bool_decide as Hc.
  - f_equal. apply H; [|done]. apply elem_of_app. right. by left.
  - apply IH.
    + exists c0. split; [|done].
      apply elem_of_app in Hin as [?|Heq%list_elem_of_singleton]; [done|].
      by subst.
    + intros c' Hc'. apply H, elem_of_app. by left.
Qed.

Lemma cells_lookup_elem (j : nat) (cells : list LabelCell) (label : PyVal) :
  cells_lookup j cells = Some label → ∃ c, c ∈ cells ∧ c.1.2 = j ∧ c.2 = label.
Proof.
  induction cells as [|c cells IH] using rev_ind; [done|].
  rewrite cells_lookup_snoc. case_bool_decide as Hc.
  - intros [= <-]. exists c. split; [|done]. apply elem_of_app. right. by left.
  - intros (c' & ? & ?)%IH. exists c'. split; [|done]. apply elem_of_app. by left.
Qed.

Lemma write_label_lookup (row : Z) (ws : Worksheet) (cells : list LabelCell) (j : nat) :
  0 ≤ row →
  foldl (write_label row) ws cells !! cell (excel_col_name (3 + Z.of_nat j)) row
  = match cells_lookup j cells with
    | Some label => Some label
    | None => ws !! cell (excel_col_name (3 + Z.of_nat j)) row
    end.
Proof.
  intros Hrow. induction cells as [|[[rid j'] label] cells IH] using rev_ind; [done|].
  rewrite foldl_snoc, cells_lookup_snoc. simpl. unfold set_value.
  case_bool_decide as Hj.
  - subst. by rewrite lookup_insert_eq.
  - rewrite lookup_insert_ne; [done|].
    intros [? _]%cell_col_inj; lia.
Qed.

Lemma write_label_frame (row : Z) (ws : Worksheet) (cells : list LabelCell) (a : string) :
  (∀ c, no_digit c → a ≠ cell c row) →
  foldl (write_label row) ws cells !! a = ws !! a.
Proof.
  intros Ha. induction cells as [|[[rid j'] label] cells IH] using rev_ind; [done|].
  rewrite foldl_snoc. simpl. unfold set_value.
  rewrite lookup_insert_ne; [done|]. intros E. eapply Ha; [|done]. apply col_no_digit.
Qed.

Lemma no_digit_A : no_digit "A".
Proof. reflexivity. Qed.

Lemma no_digit_B : no_digit "B".
Proof. reflexivity. Qed.

Section Rows.
Variable doc : Document.t.
Variable rev_index : gmap ElementId nat.

Lemma fill_sheet_row_lookup (i : nat) (rs : RevisedSheet) (ws ws' : Worksheet)
    (j : nat) :
  fill_sheet_row doc rev_index i rs ws = Some ws' →
  ∃ cells, sheet_label_cells doc rev_index rs = Some cells
    ∧ ws' !! cell (excel_col_name (3 + Z.of_nat j)) (10 + Z.of_nat i)
      = match cells_lookup j cells with
        | Some label => Some label
        | None => ws !! cell (excel_col_name (3 + Z.of_nat j)) (10 + Z.of_nat i)
        end.
Proof.
  unfold fill_sheet_row. intros H.
  destruct (sheet_label_cells doc rev_index rs) as [cells|]; [|done].
  injection H as <-. exists cells. split; [done|].
  rewrite write_label_lookup by lia. destruct (cells_lookup j cells); [done|].
  unfold set_value. rewrite !lookup_insert_ne; [done|..].
  - intros E. symmetry in E. by apply cell_col_A in E; lia.
  - intros E. symmetry in E. by apply cell_col_B in E; lia.
Qed.

Lemma fill_sheet_row_frame (i : nat) (rs : RevisedSheet) (ws ws' : Worksheet)
    (a : string) :
  fill_sheet_row doc rev_index i rs ws = Some ws' →
  (∀ c, no_digit c → a ≠ cell c (10 + Z.of_nat i)) →
  ws' !! a = ws !! a.
Proof.
  unfold fill_sheet_row. intros H Ha.
  destruct (sheet_label_cells doc rev_index rs) as [cells|]; [|done].
  injection H as <-. rewrite write_label_frame by done.
  unfold set_value. rewrite !lookup_insert_ne; [done|..].
  - intros E. symmetry in E. by apply Ha in E; [|apply no_digit_A].
  - intros E. symmetry in E. by apply Ha in E; [|apply no_digit_B].
Qed.

Lemma fill_sheet_rows_frame (i0 : nat) (sheet_block : list RevisedSheet)
    (ws ws' : Worksheet) (a : string) :
  fill_sheet_rows_from doc rev_index i0 sheet_block ws = Some ws' →
  (∀ c (r : nat), no_digit c → (i0 ≤ r)%nat → a ≠ cell c (10 + Z.of_nat r)) →
  ws' !! a = ws !! a.
Proof.
  revert i0 ws. induction sheet_block as [|rs block IH]; intros i0 ws H Ha.
  - by injection H as <-.
  - cbn [fill_sheet_rows_from] in H.
    destruct (fill_sheet_row doc rev_index i0 rs ws) as [ws1|] eqn:E; [|done].
    simpl in H. rewrite (IH _ _ H) by (intros; apply Ha; [done|lia]).
    eapply fill_sheet_row_frame; [done|]. intros c Hc. by apply Ha.
Qed.

Lemma fill_sheet_rows_lookup (i0 : nat) (sheet_block : list RevisedSheet)
    (ws ws' : Worksheet) (k : nat) (rs : RevisedSheet) (j : nat) :
  fill_sheet_rows_from doc rev_index i0 sheet_block ws = Some ws' →
  sheet_block !! k = Some rs →
  ∃ cells, sheet_label_cells doc rev_index rs = Some cells
    ∧ ws' !! cell (excel_col_name (3 + Z.of_nat j)) (10 + Z.of_nat (i0 + k))
      = match cells_lookup j cells with
        | Some label => Some label
        | None =>
            ws !! cell (excel_col_name (3 + Z.of_nat j)) (10 + Z.of_nat (i0 + k))
        end.
Proof.
  revert i0 ws k. induction sheet_block as [|rs0 block IH]; intros i0 ws k H Hk;
    [done|].
  cbn [fill_sheet_rows_from] in H.
  destruct (fill_sheet_row doc rev_index i0 rs0 ws) as [ws1|] eqn:E; [|done].
  simpl in H. destruct k as [|k].
  - injection Hk as ->. rewrite Nat.add_0_r.
    destruct (fill_sheet_row_lookup _ _ _ _ j E) as (cells & Hc & Hl).
    exists cells. split; [done|]. rewrite <- Hl.
    eapply fill_sheet_rows_frame; [done|].
    intros c r Hc' Hr [_ ?]%cell_inj; [lia|apply col_no_digit|done|lia|lia].
  - destruct (IH _ _ _ H Hk) as (cells & Hc & Hl).
    exists cells. split; [done|].
    replace (i0 + S k)%nat with (S i0 + k)%nat by lia. rewrite Hl.
    destruct (cells_lookup j cells); [done|].
    eapply fill_sheet_row_frame; [done|].
    intros c Hc' [_ ?]%cell_inj; [lia|apply col_no_digit|done|lia|lia].
Qed.

Lemma fill_sheet_rows_is_Some (i0 : nat) (sheet_block : list RevisedSheet)
    (ws : Worksheet) :
  (∀ rs, rs ∈ sheet_block → is_Some (sheet_label_cells doc rev_index rs)) →
  is_Some (fill_sheet_rows_from doc rev_index i0 sheet_block ws).
Proof.
  revert i0 ws. induction sheet_block as [|rs block IH]; intros i0 ws H;
    [by eexists|].
  cbn [fill_sheet_rows_from]. unfold fill_sheet_row at 1.
  destruct (H rs) as [cells ->]; [by left|]. simpl.
  apply IH. intros; apply H; by right.
Qed.
End Rows.

(** The header rows stay clear of the sheet rows. *)
Lemma fill_revision_header_frame (j0 : nat) (rev_chunk : list RevData)
    (ws : Worksheet) (m r : Z) :
  10 ≤ r →
  fill_revision_header_from j0 rev_chunk ws !! cell (excel_col_name m) r
  = ws !! cell (excel_col_name m) r.
Proof.
  intros Hr. revert j0 ws. induction rev_chunk as [|x l IH]; intros j0 ws; [done|].
  cbn [fill_revision_header_from].
  destruct (digit_runs _ _) as [|d [|mo [|y [|]]]]; try apply IH.
  rewrite IH. unfold set_value.
  rewrite !lookup_insert_ne; [done|..];
    first [ apply (cell_header_row _ _ "6" _ 6 eq_refl)
          | apply (cell_header_row _ _ "7" _ 7 eq_refl)
          | apply (cell_header_row _ _ "8" _ 8 eq_refl) ]; lia.
Qed.

(** * The position of a revision in its group *)



Lemma filter_none {A} (P : A → Prop) `{!∀ x, Decision (P x)} (l : list A) :
  (∀ y, y ∈ l → ¬ P y) → filter P l = [].
Proof.
  induction l as [|x l IH]; intros Hl; [done|].
  rewrite filter_cons, decide_False by (apply Hl; by left).
  apply IH. intros; apply Hl; by right.
Qed.



Section Position.
Variable doc : Document.t.
Variable rev_chunk : list RevData.
Variable rs : RevisedSheet.
Variable revs : list Revision.t.
Local Abbreviation rev_index := (build_rev_index 0 rev_chunk ∅).
Hypothesis Hrevs : chunk_revs doc rev_index rs = Some revs.
Hypothesis Hdistinct : distinct_sequence_numbers doc rev_chunk.


End Position.

(** * The label of a revision on a sheet *)

Section LabelOfRevision.
Variable doc : Document.t.
Variable rev_chunk : list RevData.
Variable rs : RevisedSheet.
Variable revs : list Revision.t.
Variable cells : list LabelCell.
Local Abbreviation rev_index := (build_rev_index 0 rev_chunk ∅).
Hypothesis Hrevs : chunk_revs doc rev_index rs = Some revs.
Hypothesis Hcells : sheet_label_cells doc rev_index rs = Some cells.

Lemma label_cells_elem (c : LabelCell) :
  c ∈ cells ↔
  ∃ k grp (i : nat) rev j label,
    (k, grp) ∈ group_revs revs
    ∧ grp !! i = Some rev ∧ rev_index !! Revision.Id rev = Some j
    ∧ resolve_label doc (1 + Z.of_nat i) rev = Some label
    ∧ c = (Revision.Id rev, j, label).
Proof.
  destruct (sheet_label_cells_elem _ _ _ _ Hcells) as (revs' & Hrevs' & H).
  rewrite Hrevs in Hrevs'. by injection Hrevs' as <-.
Qed.

(** Every label write is for a revision of the sheet, in the column
    that the index gives to this revision. *)
Lemma label_cells_sound (rid : ElementId) (j : nat) (label : PyVal) :
  (rid, j, label) ∈ cells →
  rid ∈ _rev_ids rs ∧ rev_index !! rid = Some j
  ∧ rd_id <$> rev_chunk !! j = Some rid.
Proof.
  intros (k & grp & i & rev & j' & label' & Hg & Hi & Hj & _ & [= -> -> ->])
         %label_cells_elem.
  assert (rev ∈ revs) as Hin.
  { apply group_revs_spec in Hg as [-> _].
    apply list_elem_of_lookup_2, list_elem_of_filter in Hi as [_ ?]. done. }
  apply (elem_of_chunk_revs _ _ _ _ Hrevs) in Hin as (? & _ & _).
  split; [done|]. split; [done|]. by apply rev_index_lookup.
Qed.

Lemma cells_lookup_rev (rev : Revision.t) (j : nat)
    (q : option NumberingSequence.t) :
  rev ∈ revs → rev_index !! Revision.Id rev = Some j →
  sequence_of doc rev = Some q →
  ∃ i : nat, filter (λ r, seq_id r = seq_id rev) revs !! i = Some rev
    ∧ cells_lookup j cells = Some (label_of q (1 + Z.of_nat i) rev).
Proof.
  intros Hin Hj Hq.
  set (grp := filter (λ r, seq_id r = seq_id rev) revs).
  assert (rev ∈ grp) as Hgrp by by apply list_elem_of_filter.
  destruct (proj1 (list_elem_of_lookup _ _) Hgrp) as [i Hi].
  exists i. split; [done|].
  assert ((seq_id rev, grp) ∈ group_revs revs) as Hg.
  { apply group_revs_spec. split; [done|]. intros E. rewrite E in Hgrp.
    by apply elem_of_nil in Hgrp. }
  assert (resolve_label doc (1 + Z.of_nat i) rev
          = Some (label_of q (1 + Z.of_nat i) rev)) as Hl
    by by rewrite resolve_label_spec, Hq.
  apply cells_lookup_Some.
  - exists (Revision.Id rev, j, label_of q (1 + Z.of_nat i) rev).
    split; [|done]. apply label_cells_elem.
    by exists (seq_id rev), grp, i, rev, j, (label_of q (1 + Z.of_nat i) rev).
  - intros c (k' & grp' & i' & rev' & j' & label' & Hg' & Hi' & Hj' & Hl' & ->)
             %label_cells_elem.
    simpl. intros ->.
    apply group_revs_spec in Hg' as [-> _].
    pose proof Hi' as [Hk' Hin']%list_elem_of_lookup_2%list_elem_of_filter.
    assert (rev' = rev) as ->.
    { apply (NoDup_fmap_inj Revision.Id revs); [|done|done|].
      - by eapply chunk_revs_NoDup_ids.
      - apply rev_index_lookup in Hj, Hj'. congruence. }
    subst k'. fold grp in Hi'.
    assert (i' = i) as ->.
    { eapply NoDup_lookup; [|done..].
      apply NoDup_filter. by eapply chunk_revs_NoDup. }
    congruence.
Qed.
End LabelOfRevision.

(** * The revision matrix *)

Lemma fill_sheet_block_chunk_is_Some (doc : Document.t) (ws : Worksheet)
    (sheet_block : list RevisedSheet) (rev_chunk : list RevData) :
  chunk_resolves doc rev_chunk → sequences_resolve doc rev_chunk →
  is_Some (fill_sheet_block_chunk doc ws sheet_block rev_chunk).
Proof.
  intros Hres Hseq. apply fill_sheet_rows_is_Some. intros rs _.
  by apply sheet_label_cells_is_Some.
Qed.

(** The cell of sheet [i] and column [j] after the block is filled. *)
Lemma fill_sheet_block_chunk_lookup (doc : Document.t) (ws ws' : Worksheet)
    (sheet_block : list RevisedSheet) (rev_chunk : list RevData)
    (i : nat) (rs : RevisedSheet) (j : nat) :
  fill_sheet_block_chunk doc ws sheet_block rev_chunk = Some ws' →
  sheet_block !! i = Some rs →
  ∃ revs cells,
    chunk_revs doc (build_rev_index 0 rev_chunk ∅) rs = Some revs
    ∧ sheet_label_cells doc (build_rev_index 0 rev_chunk ∅) rs = Some cells
    ∧ ws' !! cell (excel_col_name (3 + Z.of_nat j)) (10 + Z.of_nat i)
      = match cells_lookup j cells with
        | Some label => Some label
        | None => ws !! cell (excel_col_name (3 + Z.of_nat j)) (10 + Z.of_nat i)
        end.
Proof.
  intros H Hi.
  destruct (fill_sheet_rows_lookup _ _ _ _ _ _ _ _ j H Hi) as (cells & Hc & Hl).
  destruct (sheet_label_cells_elem _ _ _ _ Hc) as (revs & Hrevs & _).
  by exists revs, cells.
Qed.



(** C10: on a page, the cell where the row of a sheet meets the column
    of a revision keeps the content it had in the template when the
    revision is not in the sheet's association set; the cell is
    written only for a revision of the set, and (the rows of the chunk
    having distinct identifiers) it is then written. *)
Theorem untouched_cells (doc : Document.t) (ws : Worksheet)
    (sheet_block : list RevisedSheet) (rev_chunk : list RevData) :
  chunk_resolves doc rev_chunk → sequences_resolve doc rev_chunk →
  ∃ ws',
    fill_sheet_block_chunk doc (fill_revision_header_chunk ws rev_chunk)
                           sheet_block rev_chunk = Some ws'
    ∧ ∀ (i : nat) rs (j : nat) x,
        sheet_block !! i = Some rs → rev_chunk !! j = Some x →
        let a := cell (excel_col_name (3 + Z.of_nat j)) (10 + Z.of_nat i) in
        (rd_id x ∉ _rev_ids rs → ws' !! a = ws !! a)
        ∧ (ws' !! a ≠ ws !! a → rd_id x ∈ _rev_ids rs)
        ∧ (NoDup (rd_id <$> rev_chunk) → rd_id x ∈ _rev_ids rs → is_Some (ws' !! a)).
Proof.
  intros Hres Hseq.
  destruct (fill_sheet_block_chunk_is_Some doc
              (fill_revision_header_chunk ws rev_chunk) sheet_block rev_chunk Hres Hseq)
    as [ws' Hws]. exists ws'. split; [done|].
  intros i rs j x Hi Hj a.
  destruct (fill_sheet_block_chunk_lookup _ _ _ _ _ _ _ j Hws Hi)
    as (revs & cells & Hrevs & Hcells & Hl). fold a in Hl.
  assert (rd_id x ∉ _rev_ids rs → ws' !! a = ws !! a) as Hframe.
  { intros Hnin. rewrite Hl, cells_lookup_None.
    - apply fill_revision_header_frame. lia.
    - intros [[rid j'] label] Hc. simpl. intros ->.
      destruct (label_cells_sound _ _ _ _ _ Hrevs Hcells _ _ _ Hc) as (Hin & _ & E).
      rewrite Hj in E. simpl in E. congruence. }
  split; [done|]. split.
  - intros Hne. destruct (decide (rd_id x ∈ _rev_ids rs)); [done|].
    destruct Hne. auto.
  - intros Hnd Hin. destruct (Hres x) as [rev Hrev]; [by eapply list_elem_of_lookup_2|].
    destruct (Hseq x rev) as [q Hq]; [by eapply list_elem_of_lookup_2|done|].
    pose proof (as_revision_id _ _ _ Hrev) as Hid.
    pose proof (rev_index_NoDup _ _ _ Hnd Hj) as Hidx.
    assert (rev ∈ revs) as Hrin.
    { apply (elem_of_chunk_revs _ _ _ _ Hrevs). rewrite Hid, Hidx. eauto. }
    rewrite <- Hid in Hidx.
    destruct (cells_lookup_rev _ _ _ _ _ Hrevs Hcells rev j _ Hrin Hidx Hq)
      as (k & _ & Hk).
    rewrite Hl, Hk. by eexists.
Qed.

(** * Labels of the other sequences *)

(** X17: what the renderer writes for a revision whose sequence is
    not numeric: [get_rev_number(rev)], called without a sheet, hence
    the revision's own number, or its sequence number when it has
    none. *)
Lemma non_numeric_label_own_number (doc : Document.t) (ws : Worksheet)
    (sheet_block : list RevisedSheet) (rev_chunk : list RevData) :
  chunk_resolves doc rev_chunk → sequences_resolve doc rev_chunk →
  NoDup (rd_id <$> rev_chunk) →
  ∃ ws', fill_sheet_block_chunk doc ws sheet_block rev_chunk = Some ws'
    ∧ ∀ (i : nat) rs (j : nat) x rev,
        sheet_block !! i = Some rs → rev_chunk !! j = Some x →
        rd_id x ∈ _rev_ids rs →
        as_revision (Document.GetElement doc (rd_id x)) = Some rev →
        (∀ seq, Document.GetElement doc (seq_id rev) = Some (ENumberingSequence seq) →
                NumberingSequence.NumberType seq ≠ Numeric) →
        ws' !! cell (excel_col_name (3 + Z.of_nat j)) (10 + Z.of_nat i)
        = Some (match Revision.RevisionNumber rev with
                | Some n => PStr n
                | None => PInt (Revision.SequenceNumber rev)
                end).
Proof.
  intros Hres Hseq Hnd.
  destruct (fill_sheet_block_chunk_is_Some doc ws sheet_block rev_chunk Hres Hseq)
    as [ws' Hws]. exists ws'. split; [done|].
  intros i rs j x rev Hi Hj Hin Hrev Hnn.
  destruct (fill_sheet_block_chunk_lookup _ _ _ _ _ _ _ j Hws Hi)
    as (revs & cells & Hrevs & Hcells & ->).
  pose proof (as_revision_id _ _ _ Hrev) as Hid.
  pose proof (rev_index_NoDup _ _ _ Hnd Hj) as Hidx.
  assert (rev ∈ revs) as Hrin.
  { apply (elem_of_chunk_revs _ _ _ _ Hrevs). rewrite Hid, Hidx. eauto. }
  destruct (Hseq x rev) as [q Hq]; [by eapply list_elem_of_lookup_2|done|].
  rewrite <- Hid in Hidx.
  destruct (cells_lookup_rev _ _ _ _ _ Hrevs Hcells rev j _ Hrin Hidx Hq)
    as (k & _ & ->).
  f_equal. unfold label_of. destruct q as [seq|]; [|done].
  rewrite bool_decide_eq_false_2; [done|]. apply Hnn.
  unfold sequence_of in Hq.
  destruct (Document.GetElement doc (seq_id rev)) as [[]|]; congruence.
Qed.

(** * The drawing number *)

Lemma foldl_app_concat {A B} (f : A → list B) (l : list A) (acc : list B) :
  foldl (λ parts x, parts ++ f x) acc l = acc ++ concat (f <$> l).
Proof.
  revert acc. induction l as [|x l IH]; intros acc; simpl.
  - by rewrite app_nil_r.
  - by rewrite IH, (assoc_L (++)).
Qed.

Lemma drawing_number_part_spec (doc : Document.t) (rs : RevisedSheet) (pname : string) :
  (attribute_value doc rs pname ≠ "" → PyStr.strip (attribute_value doc rs pname) ≠ "") →
  drawing_number_part doc rs pname
  = filter (λ s, s ≠ "") [PyStr.strip (attribute_value doc rs pname)].
Proof.
  unfold drawing_number_part, attribute_value.
  destruct (drawing_number_lookup doc rs pname) as [p|]; [|done].
  destruct (Param.AsString p) as [[|c s]|]; simpl; [done| |done].
  intros H. rewrite filter_cons, decide_True by (by apply H). done.
Qed.

Lemma drawing_number_parts_spec (doc : Document.t) (rs : RevisedSheet)
    (names : list string) :
  (∀ pname, pname ∈ names →
     attribute_value doc rs pname ≠ "" →
     PyStr.strip (attribute_value doc rs pname) ≠ "") →
  concat (drawing_number_part doc rs <$> names)
  = filter (λ s, s ≠ "") (PyStr.strip <$> (attribute_value doc rs <$> names)).
Proof.
  induction names as [|pname l IH]; intros H; [done|].
  rewrite !fmap_cons, filter_cons. cbn [concat].
  rewrite IH by (intros; apply H; [by right|done]).
  rewrite drawing_number_part_spec by (apply H; by left).
  rewrite filter_cons. by case_decide.
Qed.

(** X18: when no attribute is made of white space only, the drawing
    number is the hyphen-join of the non-empty trimmed attribute
    values. *)
Lemma get_drawing_number_spec (doc : Document.t) (rs : RevisedSheet) :
  (∀ pname, pname ∈ drawing_number_params →
     attribute_value doc rs pname ≠ "" →
     PyStr.strip (attribute_value doc rs pname) ≠ "") →
  get_drawing_number doc rs = drawing_number_spec doc rs.
Proof.
  intros H. unfold get_drawing_number, drawing_number_spec. f_equal.
  rewrite foldl_app_concat, app_nil_l. by apply drawing_number_parts_spec.
Qed.

(** * Checks of the conditions *)

Lemma chunk_resolves_check (doc : Document.t) (rev_chunk : list RevData) :
  chunk_resolves_b doc rev_chunk = true → chunk_resolves doc rev_chunk.
Proof.
  unfold chunk_resolves_b. rewrite forallb_forall. intros H x Hx.
  apply list_elem_of_In, H in Hx. by apply bool_decide_eq_true in Hx.
Qed.

Lemma sequences_resolve_check (doc : Document.t) (rev_chunk : list RevData) :
  sequences_resolve_b doc rev_chunk = true → sequences_resolve doc rev_chunk.
Proof.
  unfold sequences_resolve_b. rewrite forallb_forall. intros H x rev Hx Hrev.
  apply list_elem_of_In, H in Hx. rewrite Hrev in Hx.
  by apply bool_decide_eq_true in Hx.
Qed.

Lemma distinct_sequence_numbers_check (doc : Document.t) (rev_chunk : list RevData) :
  distinct_sequence_numbers_b doc rev_chunk = true →
  distinct_sequence_numbers doc rev_chunk.
Proof.
  unfold distinct_sequence_numbers_b. rewrite bool_decide_eq_true.
  intros Hnd x y r1 r2 Hx Hy H1 H2 Heq.
  assert (∀ z r, z ∈ rev_chunk →
                 as_revision (Document.GetElement doc (rd_id z)) = Some r →
                 r ∈ omap (λ rid, as_revision (Document.GetElement doc rid))
                          (remove_dups (rd_id <$> rev_chunk))) as Hin.
  { intros z r Hz Hr. apply list_elem_of_omap. exists (rd_id z). split; [|done].
    apply elem_of_remove_dups, list_elem_of_fmap. by exists z. }
  eapply NoDup_fmap_inj; eauto.
Qed.

Lemma viewports_resolve_check (doc : Document.t) (sheet : ViewSheet.t) :
  viewports_resolve_b doc sheet = true → viewports_resolve doc sheet.
Proof.
  unfold viewports_resolve_b. rewrite forallb_forall. intros H vp Hvp.
  apply list_elem_of_In, H in Hvp. by apply bool_decide_eq_true in Hvp.
Qed.

(** * The conditions in a run of [main] *)

(** In a document whose elements have different identifiers, the
    revisions that [main] collects resolve to themselves, and the rows
    of every revision chunk have different identifiers. *)
Lemma find_unique (l : list Element) (e : Element) :
  NoDup (element_id <$> l) → e ∈ l →
  List.find (λ e', bool_decide (element_id e' = element_id e)) l = Some e.
Proof.
  induction l as [|x l IH]; intros Hnd Hin; [by apply elem_of_nil in Hin|].
  rewrite fmap_cons in Hnd. apply NoDup_cons in Hnd as [Hx Hnd]. simpl.
  apply elem_of_cons in Hin as [->|Hin].
  - by rewrite bool_decide_eq_true_2.
  - rewrite bool_decide_eq_false_2; [by apply IH|].
    intros E. apply Hx. rewrite E. apply list_elem_of_fmap. by exists e.
Qed.

Lemma GetElement_unique (doc : Document.t) (e : Element) :
  unique_ids doc → e ∈ Document.Elements doc →
  Document.GetElement doc (element_id e) = Some e.
Proof. apply find_unique. Qed.

Lemma elem_of_doc_revisions (doc : Document.t) (rev : Revision.t) :
  rev ∈ doc_revisions doc ↔ ERevision rev ∈ Document.Elements doc.
Proof.
  unfold doc_revisions. rewrite list_elem_of_omap. split.
  - intros ([] & Hin & [= ->]); done.
  - intros Hin. by exists (ERevision rev).
Qed.

Lemma doc_revisions_resolve (doc : Document.t) (rev : Revision.t) :
  unique_ids doc → rev ∈ doc_revisions doc →
  as_revision (Document.GetElement doc (Revision.Id rev)) = Some rev.
Proof.
  intros Hu Hin%elem_of_doc_revisions.
  pose proof (GetElement_unique doc (ERevision rev) Hu Hin) as H.
  simpl in H. by rewrite H.
Qed.

Lemma doc_revisions_ids (doc : Document.t) :
  Revision.Id <$> doc_revisions doc `sublist_of` element_id <$> Document.Elements doc.
Proof.
  unfold doc_revisions. induction (Document.Elements doc) as [|e l IH]; [done|].
  rewrite fmap_cons. destruct e; simpl; try by apply sublist_cons.
  by apply sublist_skip.
Qed.

Lemma chunk_at_sublist {A} (l : list A) (size k : nat) :
  chunk_at l size k `sublist_of` l.
Proof.
  unfold chunk_at, slice. etrans; [apply sublist_take|apply sublist_drop].
Qed.

Lemma rev_data_ids_NoDup (all_revisions : list Revision.t)
    (revised_sheets : list RevisedSheet) :
  NoDup (Revision.Id <$> all_revisions) →
  NoDup (rd_id <$> build_filtered_rev_data all_revisions revised_sheets).
Proof.
  intros Hnd. rewrite build_filtered_rev_data_perm, <- list_fmap_compose.
  eapply sublist_NoDup; [apply Hnd|].
  apply (fmap_sublist Revision.Id), sublist_filter.
Qed.

Lemma pipeline_chunk_conditions (doc : Document.t)
    (revised_sheets : list RevisedSheet) (size k : nat) :
  unique_ids doc →
  let rev_chunk :=
    chunk_at (build_filtered_rev_data (doc_revisions doc) revised_sheets) size k in
  chunk_resolves doc rev_chunk ∧ NoDup (rd_id <$> rev_chunk).
Proof.
  intros Hu rev_chunk. split.
  - intros x Hx.
    assert (x ∈ build_filtered_rev_data (doc_revisions doc) revised_sheets) as Hin.
    { eapply elem_of_sublist; [done|]. apply chunk_at_sublist. }
    apply elem_of_build_filtered_rev_data in Hin as (rev & Hrev & -> & _).
    exists rev. by apply doc_revisions_resolve.
  - eapply sublist_NoDup; [|apply fmap_sublist, chunk_at_sublist].
    apply rev_data_ids_NoDup.
    eapply sublist_NoDup; [apply Hu|apply doc_revisions_ids].
Qed.

(** * The worked example *)

Example example_sheets :
  filter_valid_sheets_and_show_count
    Example.doc Example.all_clouds Example.all_sheets Example.all_revisions
  = Some ([Example.rs1; Example.rs2], 5%nat).
Proof. vm_compute. reflexivity. Qed.

Example example_rev_data :
  Example.rev_data
  = [ (5, PStr "0", "1.1.24", "Feasibility");
      (2, PStr "2", "1.2.2024", "Planning");
      (3, PStr "3", "03/04/24", "Tender");
      (4, PStr "P5", "5.6.24", "Construction") ].
Proof. vm_compute. reflexivity. Qed.

(** The report of the example: the first sheet carries [A01], [A02],
    [A03] for revisions whose sequence numbers are 2, 9 and 17; the
    mark of the template stays in [G10]. *)
Example example_report :
  ∃ ws, main_fill Example.doc Example.template = Some [ws]
    ∧ ws !! "A10" = Some (PStr "100-B-L2-S01")
    ∧ ws !! "B10" = Some (PStr "Ground floor plan")
    ∧ ws !! "D10" = Some (PStr "A01")
    ∧ ws !! "E10" = Some (PStr "A02")
    ∧ ws !! "F10" = Some (PStr "A03")
    ∧ ws !! "G10" = Some (PStr "-")
    ∧ ws !! "D11" = None
    ∧ ws !! "E6" = Some (PInt 1) ∧ ws !! "E7" = Some (PInt 2)
    ∧ ws !! "E8" = Some (PInt 2024).
Proof. eexists. split; [vm_compute; reflexivity|]. vm_compute. repeat split. Qed.

(** The drawing number of the attributes
    ["100"; ""; "B"; "L2"; ""; missing; "S01"]. *)
Example example_drawing_number :
  attribute_value Example.doc Example.rs1 <$> drawing_number_params
  = ["100"; ""; "B"; "L2"; ""; ""; "S01"]
  ∧ get_drawing_number Example.doc Example.rs1 = "100-B-L2-S01".
Proof. split; vm_compute; reflexivity. Qed.

(** ** C1 *)


Lemma example_conditions :
  chunk_resolves Example.doc Example.rev_data
  ∧ sequences_resolve Example.doc Example.rev_data
  ∧ NoDup (rd_id <$> Example.rev_data)
  ∧ distinct_sequence_numbers Example.doc Example.rev_data.
Proof.
  split; [|split; [|split]].
  - apply chunk_resolves_check. vm_compute. reflexivity.
  - apply sequences_resolve_check. vm_compute. reflexivity.
  - apply (bool_decide_unpack _). vm_compute. exact I.
  - apply distinct_sequence_numbers_check. vm_compute. reflexivity.
Defined.


(** ** C2 *)

Lemma build_filtered_rev_data_date_filter_witness :
  Example.r1 ∈ Example.all_revisions
  ∧ assigned_to [Example.rs1; Example.rs2] (Revision.Id Example.r1)
  ∧ (rev_data_of Example.r1
       ∈ build_filtered_rev_data Example.all_revisions [Example.rs1; Example.rs2]
     ↔ date_rx_match (date_string (Revision.RevisionDate Example.r1)) = true).
Proof.
  assert (Example.r1 ∈ Example.all_revisions) as Hin by (vm_compute; left).
  assert (assigned_to [Example.rs1; Example.rs2] (Revision.Id Example.r1)) as Ha.
  { exists Example.rs2. split; [right; left|]. vm_compute. reflexivity. }
  split; [done|]. split; [done|].
  apply (build_filtered_rev_data_date_filter
           Example.all_revisions [Example.rs1; Example.rs2]); done.
Defined.

(** ** C3 *)


(** ** C4 *)




(** ** C5 *)

Lemma RevisedSheet_rev_ids_union_witness :
  viewports_resolve Example.doc Example.sh1
  ∧ ∃ rs, RevisedSheet_init Example.doc Example.all_clouds Example.sh1 = Some rs
      ∧ _rev_ids rs = sheet_rev_ids Example.doc Example.all_clouds Example.sh1.
Proof.
  assert (viewports_resolve Example.doc Example.sh1) as Hvp
    by (apply viewports_resolve_check; vm_compute; reflexivity).
  split; [done|].
  destruct (RevisedSheet_rev_ids_union Example.doc Example.all_clouds Example.sh1 Hvp)
    as (rs & Hinit & _ & _ & _ & Hids & _).
  by exists rs.
Defined.

Example example_rev_ids :
  elements (sheet_rev_ids Example.doc Example.all_clouds Example.sh1) ≡ₚ [2; 3; 5]
  ∧ elements (sheet_rev_ids Example.doc Example.all_clouds Example.sh2) ≡ₚ [1; 2; 4].
Proof.
  split; apply NoDup_Permutation; try apply NoDup_elements;
    try (apply (bool_decide_unpack _); vm_compute; exact I);
    intros x; rewrite elem_of_elements; unfold sheet_rev_ids; set_solver.
Qed.

(** ** C7 *)

(** C7: on the second sheet of the example the revision of the
    alphanumeric sequence has the per-sheet number [P2], which
    [get_rev_number] returns when it is given the sheet; the renderer
    calls it without the sheet and writes the revision's own number
    [P5]. *)
Theorem non_numeric_label_ignores_sheet_number :
  ∃ ws, main_fill Example.doc Example.template = Some [ws]
    ∧ Example.rev_data !! 3%nat = Some (rev_data_of Example.r4)
    ∧ Revision.Id Example.r4 ∈ _rev_ids Example.rs2
    ∧ Document.GetElement Example.doc (seq_id Example.r4)
      = Some (ENumberingSequence Example.seqP)
    ∧ NumberingSequence.NumberType Example.seqP = Alphanumeric
    ∧ get_rev_number Example.r4 (Some (_sheet Example.rs2)) = PStr "P2"
    ∧ get_rev_number Example.r4 None = PStr "P5"
    ∧ ws !! cell (excel_col_name (3 + 3)) (10 + 1) = Some (PStr "P5").
Proof.
  eexists. split; [vm_compute; reflexivity|].
  repeat split; vm_compute; reflexivity.
Qed.

(** ** C8 *)

(** C8: with an originator code that is a single space the attribute
    passes the emptiness test and is trimmed to the empty string
    afterwards: the drawing number gets an empty part and two hyphens
    in a row, where the join of the non-empty trimmed values has
    none. *)
Theorem drawing_number_blank_attribute :
  attribute_value Example.doc_blank Example.rs1 <$> drawing_number_params
  = ["100"; " "; "B"; "L2"; ""; ""; "S01"]
  ∧ drawing_number_spec Example.doc_blank Example.rs1 = "100-B-L2-S01"
  ∧ get_drawing_number Example.doc_blank Example.rs1 = "100--B-L2-S01".
Proof. repeat split; vm_compute; reflexivity. Qed.

(** ** C9 *)


(** ** C10 *)

Lemma untouched_cells_witness :
  chunk_resolves Example.doc Example.rev_data
  ∧ sequences_resolve Example.doc Example.rev_data
  ∧ ∃ ws',
      fill_sheet_block_chunk Example.doc
        (fill_revision_header_chunk {[ "G10" := PStr "-" ]} Example.rev_data)
        [Example.rs1; Example.rs2] Example.rev_data = Some ws'
      ∧ ws' !! cell (excel_col_name (3 + Z.of_nat 3)) (10 + Z.of_nat 0)
        = Some (PStr "-").
Proof.
  destruct example_conditions as (H1 & H2 & _).
  split; [done|]. split; [done|].
  destruct (untouched_cells Example.doc {[ "G10" := PStr "-" ]}
              [Example.rs1; Example.rs2] Example.rev_data H1 H2)
    as (ws' & Hws & Hcell).
  exists ws'. split; [done|].
  destruct (Hcell 0%nat Example.rs1 3%nat (rev_data_of Example.r4)
              eq_refl eq_refl) as (Hframe & _).
  rewrite Hframe; [reflexivity|].
  apply (bool_decide_unpack _). vm_compute. exact I.
Defined.

(** * Further properties: column names *)

Lemma letter_value_letter (r : Z) : 0 ≤ r < 26 → letter_value (letter r) = r + 1.
Proof.
  intros Hr. unfold letter_value, letter, PyStr.chr.
  rewrite N_ascii_embedding by lia. lia.
Qed.

Lemma letter_is_upper (r : Z) : 0 ≤ r < 26 → is_upper (letter r) = true.
Proof.
  intros Hr. unfold is_upper, letter, PyStr.chr.
  rewrite N_ascii_embedding by lia.
  apply andb_true_iff. split; apply N.leb_le; lia.
Qed.

Lemma col_value_snoc (s : string) (c : ascii) :
  col_value (s +:+ String c "") = 26 * col_value s + letter_value c.
Proof. unfold col_value. rewrite to_list_app. simpl. by rewrite foldl_snoc. Qed.

(** X1: a column name is the numeral of [n + 1] in base 26 with the
    digits [A] = 1 to [Z] = 26: reading the name back gives the index. *)
Theorem excel_col_name_value (n : Z) : 0 ≤ n → col_value (excel_col_name n) = n + 1.
Proof.
  intros Hn. pattern n. apply Zlt_0_ind; [|done]. clear n Hn.
  intros n IH Hn. rewrite excel_col_name_step, col_value_snoc by done.
  rewrite letter_value_letter by by apply Z.mod_pos_bound.
  assert (0 ≤ n / 26) by (apply Z.div_pos; lia).
  pose proof (Z.div_mod n 26 ltac:(lia)) as Hdm.
  destruct (Z_lt_le_dec (n / 26 - 1) 0) as [Hneg|Hpos].
  - rewrite excel_col_name_neg by done. unfold col_value. simpl. lia.
  - assert (n / 26 ≤ n) by (apply Z.div_le_upper_bound; lia).
    rewrite IH by lia. lia.
Qed.

Lemma excel_col_name_value_witness : 0 ≤ 29 ∧ col_value (excel_col_name 29) = 29 + 1.
Proof. split; [lia|]. apply (excel_col_name_value 29). lia. Defined.

Lemma excel_col_name_upper (n : Z) :
  forallb is_upper (PyStr.to_list (excel_col_name n)) = true.
Proof.
  destruct (Z_lt_le_dec n 0) as [Hneg|Hn].
  { by rewrite excel_col_name_neg. }
  pattern n. apply Zlt_0_ind; [|done]. clear n Hn.
  intros n IH Hn. rewrite excel_col_name_step by done.
  rewrite to_list_app, forallb_app. apply andb_true_iff. split.
  - destruct (Z_lt_le_dec (n / 26 - 1) 0) as [Hneg|Hpos].
    + by rewrite excel_col_name_neg.
    + assert (n / 26 ≤ n) by (apply Z.div_le_upper_bound; lia).
      apply IH; lia.
  - simpl. rewrite letter_is_upper; [done|]. by apply Z.mod_pos_bound.
Qed.

(** X2: for a negative index the loop is not entered and the name is
    empty; otherwise the name is not empty and made of the capital
    letters [A] to [Z] only: one letter below 26, two letters from 26
    to 701. *)
Theorem excel_col_name_shape (n : Z) :
  (n < 0 → excel_col_name n = "")
  ∧ (0 ≤ n → excel_col_name n ≠ "")
  ∧ forallb is_upper (PyStr.to_list (excel_col_name n)) = true
  ∧ (0 ≤ n < 26 → excel_col_name n = String (letter n) "")
  ∧ (26 ≤ n < 702 →
     excel_col_name n = String (letter (n / 26 - 1)) (String (letter (n mod 26)) "")).
Proof.
  split; [apply excel_col_name_neg|]. split; [apply excel_col_name_nonempty|].
  split; [apply excel_col_name_upper|].
  assert (∀ m, 0 ≤ m < 26 → excel_col_name m = String (letter m) "") as Hone.
  { intros m Hm. rewrite excel_col_name_step by lia.
    rewrite Z.div_small, Z.mod_small by lia.
    by rewrite excel_col_name_neg by lia. }
  split; [apply Hone|]. intros Hn. rewrite excel_col_name_step by lia.
  assert (1 ≤ n / 26) by (apply Z.div_le_lower_bound; lia).
  assert (n / 26 < 27) by (apply Z.div_lt_upper_bound; lia).
  rewrite Hone by lia. done.
Qed.

Lemma excel_col_name_shape_witness :
  26 ≤ 52 < 702
  ∧ excel_col_name 52 = String (letter (52 / 26 - 1)) (String (letter (52 mod 26)) "").
Proof. split; [lia|]. apply (excel_col_name_shape 52). lia. Defined.

(** * Further properties: the revision header *)

Lemma digit_runs_digits (cur ds rest : list ascii) :
  forallb is_digit ds = true →
  digit_runs cur (ds ++ rest) = digit_runs (List.rev ds ++ cur) rest.
Proof.
  revert cur. induction ds as [|c ds IH]; intros cur Hds; [done|].
  simpl in Hds. apply andb_true_iff in Hds as [Hc Hds].
  simpl. rewrite Hc, IH by done. by rewrite <- (assoc_L (++)).
Qed.

Lemma digit_runs_no_digits (cur tail : list ascii) :
  forallb (λ c, negb (is_digit c)) tail = true →
  digit_runs cur tail = match cur with [] => [] | _ => [List.rev cur] end.
Proof.
  revert cur. induction tail as [|c tail IH]; intros cur Ht; [by destruct cur|].
  simpl in Ht. apply andb_true_iff in Ht as [Hc Ht].
  apply negb_true_iff in Hc. simpl. rewrite Hc, IH by done.
  destruct cur; [done|]. by rewrite app_nil_r.
Qed.

Lemma is_sep_not_digit (c : ascii) : is_sep c = true → is_digit c = false.
Proof.
  unfold is_sep. intros [H|H]%orb_true_iff; apply bool_decide_eq_true in H;
    by subst.
Qed.

Lemma digit_runs_group (ds c rest : list ascii) :
  forallb is_digit ds = true → ds ≠ [] →
  forallb is_sep c = true → length c = 1%nat →
  digit_runs [] (ds ++ c ++ rest) = ds :: digit_runs [] rest.
Proof.
  intros Hds Hne Hc Hlen. destruct c as [|s [|]]; try done.
  simpl in Hc. rewrite andb_true_r in Hc. apply is_sep_not_digit in Hc.
  rewrite digit_runs_digits by done. rewrite app_nil_r. simpl. rewrite Hc.
  destruct (List.rev ds) eqn:E.
  - apply (f_equal (@List.rev ascii)) in E. rewrite rev_involutive in E. done.
  - by rewrite <- E, rev_involutive.
Qed.

Lemma date_parts_runs (dstr : string) (d m y : list ascii) :
  date_parts dstr d m y → digit_runs [] (PyStr.to_list dstr) = [d; m; y].
Proof.
  intros (c1 & c2 & tail & -> & Hd & Ld & Hc1 & Lc1 & Hm & Lm & Hc2 & Lc2 & Hy & Ly & Ht).
  rewrite digit_runs_group; [|done|by intros ->; simpl in Ld; lia|done..].
  rewrite digit_runs_group; [|done|by intros ->; simpl in Lm; lia|done..].
  rewrite digit_runs_digits, app_nil_r by done.
  rewrite digit_runs_no_digits by (by destruct Ht as [->| ->]).
  destruct (List.rev y) eqn:E.
  - apply (f_equal (@List.rev ascii)) in E. rewrite rev_involutive in E.
    subst. simpl in Ly. lia.
  - by rewrite <- E, rev_involutive.
Qed.

Lemma date_rx_match_parts (dstr : string) :
  date_rx_match dstr = true → ∃ d m y, date_parts dstr d m y.
Proof.
  intros [H|(s' & -> & H)]%date_rx_match_spec;
    destruct H as (d & c1 & m & c2 & y & E & ?); exists d, m, y.
  - exists c1, c2, []. rewrite app_nil_r. naive_solver.
  - exists c1, c2, [newline]. rewrite to_list_app, E.
    rewrite <- !(assoc_L (++)). naive_solver.
Qed.

Lemma int_of_digits_bounds (ds : list ascii) :
  forallb is_digit ds = true → 0 ≤ int_of_digits ds < 10 ^ Z.of_nat (length ds).
Proof.
  unfold int_of_digits. induction ds as [|c ds IH] using rev_ind; [simpl; lia|].
  rewrite forallb_app. intros [Hds Hc]%andb_true_iff. specialize (IH Hds).
  simpl in Hc. rewrite andb_true_r in Hc. unfold is_digit in Hc.
  apply andb_true_iff in Hc as [H1%N.leb_le H2%N.leb_le].
  rewrite foldl_snoc, length_app. simpl.
  replace (Z.of_nat (length ds + 1)) with (Z.succ (Z.of_nat (length ds))) by lia.
  rewrite Z.pow_succ_r by lia. lia.
Qed.

Lemma header_frame_gen (j0 : nat) (rev_chunk : list RevData) (ws : Worksheet)
    (a : string) :
  (∀ (j : nat) h, (j0 ≤ j < j0 + length rev_chunk)%nat → 6 ≤ h ≤ 8 →
     a ≠ cell (excel_col_name (3 + Z.of_nat j)) h) →
  fill_revision_header_from j0 rev_chunk ws !! a = ws !! a.
Proof.
  revert j0 ws. induction rev_chunk as [|x l IH]; intros j0 ws Ha; [done|].
  cbn [fill_revision_header_from]. simpl in Ha.
  assert (∀ ws', fill_revision_header_from (S j0) l ws' !! a = ws' !! a) as Hrest.
  { intros ws'. apply IH. intros j h Hj Hh. apply Ha; [lia|done]. }
  destruct (digit_runs _ _) as [|d [|mo [|y [|]]]]; try apply Hrest.
  rewrite Hrest. unfold set_value.
  rewrite !lookup_insert_ne; [done|..]; intros E; symmetry in E;
    [apply (Ha j0 6) in E|apply (Ha j0 7) in E|apply (Ha j0 8) in E]; done || lia.
Qed.

Lemma header_lookup (j0 : nat) (rev_chunk : list RevData) (ws : Worksheet)
    (k : nat) (x : RevData) (h : Z) :
  rev_chunk !! k = Some x → 6 ≤ h ≤ 8 →
  fill_revision_header_from j0 rev_chunk ws
    !! cell (excel_col_name (3 + Z.of_nat (j0 + k))) h
  = match digit_runs [] (PyStr.to_list (rd_date x)) with
    | [d; m; y] => Some (PInt (int_of_digits (header_component h d m y)))
    | _ => ws !! cell (excel_col_name (3 + Z.of_nat (j0 + k))) h
    end.
Proof.
  revert j0 ws k. induction rev_chunk as [|x0 l IH]; intros j0 ws k Hk Hh; [done|].
  cbn [fill_revision_header_from]. destruct k as [|k].
  - injection Hk as ->. rewrite Nat.add_0_r.
    assert (∀ ws', fill_revision_header_from (S j0) l ws'
                     !! cell (excel_col_name (3 + Z.of_nat j0)) h
                   = ws' !! cell (excel_col_name (3 + Z.of_nat j0)) h) as Hrest.
    { intros ws'. apply header_frame_gen.
      intros j h' Hj Hh' [? _]%cell_col_inj; lia. }
    destruct (digit_runs _ _) as [|d [|mo [|y [|]]]]; try apply Hrest.
    rewrite Hrest. unfold set_value, header_component.
    change (?c +:+ "6") with (cell c 6). change (?c +:+ "7") with (cell c 7).
    change (?c +:+ "8") with (cell c 8).
    destruct (Z.eqb_spec h 6) as [->|H6].
    { do 2 (rewrite lookup_insert_ne by (intros [_ ?]%cell_col_inj; lia)).
      by rewrite lookup_insert_eq. }
    destruct (Z.eqb_spec h 7) as [->|H7].
    { rewrite lookup_insert_ne by (intros [_ ?]%cell_col_inj; lia).
      by rewrite lookup_insert_eq. }
    assert (h = 8) as -> by lia. by rewrite lookup_insert_eq.
  - replace (j0 + S k)%nat with (S j0 + k)%nat by lia.
    assert (∀ ws', ws' !! cell (excel_col_name (3 + Z.of_nat (S j0 + k))) h
                   = ws !! cell (excel_col_name (3 + Z.of_nat (S j0 + k))) h →
              fill_revision_header_from (S j0) l ws'
                !! cell (excel_col_name (3 + Z.of_nat (S j0 + k))) h
              = match digit_runs [] (PyStr.to_list (rd_date x)) with
                | [d; m; y] => Some (PInt (int_of_digits (header_component h d m y)))
                | _ => ws !! cell (excel_col_name (3 + Z.of_nat (S j0 + k))) h
                end) as Hrest.
    { intros ws' E. rewrite (IH _ ws' _ Hk Hh), E. done. }
    destruct (digit_runs [] (PyStr.to_list (rd_date x0))) as [|d [|mo [|y [|]]]];
      try by apply Hrest.
    apply Hrest. unfold set_value.
    change (?c +:+ "6") with (cell c 6). change (?c +:+ "7") with (cell c 7).
    change (?c +:+ "8") with (cell c 8).
    rewrite !lookup_insert_ne; [done|..]; intros [? _]%cell_col_inj; lia.
Qed.

(** X3: for a row of the chunk whose date string is accepted by the
    date pattern, the header cells of its column in rows 6, 7 and 8
    hold the day, the month and the year, which are the numbers of the
    three digit groups of the string; the day and the month are below
    100 and the year is below 10000. *)
Theorem header_date_components (ws : Worksheet) (rev_chunk : list RevData)
    (j : nat) (x : RevData) :
  rev_chunk !! j = Some x → date_rx_match (rd_date x) = true →
  ∃ d m y, date_parts (rd_date x) d m y
    ∧ fill_revision_header_chunk ws rev_chunk
        !! (excel_col_name (3 + Z.of_nat j) +:+ "6")
      = Some (PInt (int_of_digits d))
    ∧ fill_revision_header_chunk ws rev_chunk
        !! (excel_col_name (3 + Z.of_nat j) +:+ "7")
      = Some (PInt (int_of_digits m))
    ∧ fill_revision_header_chunk ws rev_chunk
        !! (excel_col_name (3 + Z.of_nat j) +:+ "8")
      = Some (PInt (int_of_digits y))
    ∧ 0 ≤ int_of_digits d < 100 ∧ 0 ≤ int_of_digits m < 100
    ∧ 0 ≤ int_of_digits y < 10000.
Proof.
  intros Hj (d & m & y & Hparts)%date_rx_match_parts.
  exists d, m, y. split; [done|].
  pose proof (date_parts_runs _ _ _ _ Hparts) as Hruns.
  unfold fill_revision_header_chunk.
  change (?c +:+ "6") with (cell c 6). change (?c +:+ "7") with (cell c 7).
  change (?c +:+ "8") with (cell c 8).
  rewrite !(header_lookup 0 rev_chunk ws j x) by (done || lia).
  rewrite Hruns. split; [done|]. split; [done|]. split; [done|].
  destruct Hparts as (c1 & c2 & tail & _ & Hd & Ld & _ & _ & Hm & Lm & _ & _ & Hy & Ly & _).
  pose proof (int_of_digits_bounds d Hd). pose proof (int_of_digits_bounds m Hm).
  pose proof (int_of_digits_bounds y Hy).
  assert (∀ n k : nat, (n ≤ k)%nat → 10 ^ Z.of_nat n ≤ 10 ^ Z.of_nat k) as Hpow
    by (intros; apply Z.pow_le_mono_r; lia).
  pose proof (Hpow (length d) 2%nat ltac:(lia)).
  pose proof (Hpow (length m) 2%nat ltac:(lia)).
  pose proof (Hpow (length y) 4%nat ltac:(lia)).
  simpl in *. lia.
Qed.

Lemma header_date_components_witness :
  Example.rev_data !! 1%nat = Some (rev_data_of Example.r2)
  ∧ date_rx_match (rd_date (rev_data_of Example.r2)) = true
  ∧ ∃ d m y, date_parts (rd_date (rev_data_of Example.r2)) d m y
      ∧ fill_revision_header_chunk ∅ Example.rev_data
          !! (excel_col_name (3 + Z.of_nat 1) +:+ "6")
        = Some (PInt (int_of_digits d))
      ∧ fill_revision_header_chunk ∅ Example.rev_data
          !! (excel_col_name (3 + Z.of_nat 1) +:+ "7")
        = Some (PInt (int_of_digits m))
      ∧ fill_revision_header_chunk ∅ Example.rev_data
          !! (excel_col_name (3 + Z.of_nat 1) +:+ "8")
        = Some (PInt (int_of_digits y))
      ∧ 0 ≤ int_of_digits d < 100 ∧ 0 ≤ int_of_digits m < 100
      ∧ 0 ≤ int_of_digits y < 10000.
Proof.
  assert (Example.rev_data !! 1%nat = Some (rev_data_of Example.r2)) as H1
    by (vm_compute; reflexivity).
  assert (date_rx_match (rd_date (rev_data_of Example.r2)) = true) as H2
    by (vm_compute; reflexivity).
  split; [done|]. split; [done|].
  apply (header_date_components ∅ Example.rev_data 1 (rev_data_of Example.r2) H1 H2).
Defined.

(** X4: the header function writes in rows 6 to 8 of the columns of
    the chunk and nowhere else, and it leaves the three cells of a
    column as they are when the date string of the row does not have
    exactly three digit groups. *)
Theorem header_writes_only_header (ws : Worksheet) (rev_chunk : list RevData) :
  (∀ a, (∀ (j : nat) h, (j < length rev_chunk)%nat → 6 ≤ h ≤ 8 →
           a ≠ cell (excel_col_name (3 + Z.of_nat j)) h) →
        fill_revision_header_chunk ws rev_chunk !! a = ws !! a)
  ∧ (∀ (j : nat) x h, rev_chunk !! j = Some x → 6 ≤ h ≤ 8 →
       length (digit_runs [] (PyStr.to_list (rd_date x))) ≠ 3%nat →
       fill_revision_header_chunk ws rev_chunk
         !! cell (excel_col_name (3 + Z.of_nat j)) h
       = ws !! cell (excel_col_name (3 + Z.of_nat j)) h).
Proof.
  split.
  - intros a Ha. apply header_frame_gen. intros j h Hj. apply Ha. lia.
  - intros j x h Hj Hh Hlen. unfold fill_revision_header_chunk.
    rewrite (header_lookup 0 rev_chunk ws j x) by done.
    by destruct (digit_runs _ _) as [|d [|mo [|y [|]]]].
Qed.

Lemma header_writes_only_header_witness :
  [ (7, PInt 1, "Spring 2024", "") ] !! 0%nat = Some (7, PInt 1, "Spring 2024", "")
  ∧ 6 ≤ 6 ≤ 8
  ∧ length (digit_runs [] (PyStr.to_list "Spring 2024")) ≠ 3%nat
  ∧ fill_revision_header_chunk {[ "D6" := PStr "dd" ]}
      [ (7, PInt 1, "Spring 2024", "") ] !! cell (excel_col_name (3 + Z.of_nat 0)) 6
    = ({[ "D6" := PStr "dd" ]} : Worksheet) !! cell (excel_col_name (3 + Z.of_nat 0)) 6.
Proof.
  split; [reflexivity|]. split; [lia|]. split; [vm_compute; discriminate|].
  destruct (header_writes_only_header {[ "D6" := PStr "dd" ]}
              [ (7, PInt 1, "Spring 2024", "") ]) as [_ H].
  apply (H 0%nat (7, PInt 1, "Spring 2024", "") 6).
  - reflexivity.
  - lia.
  - vm_compute. discriminate.
Defined.

(** X5: every row that the revision filter returns has an accepted
    date string, hence exactly three digit groups: the header of no
    column of the report is skipped. *)
Theorem filtered_rows_have_three_groups (all_revisions : list Revision.t)
    (revised_sheets : list RevisedSheet) (x : RevData) :
  x ∈ build_filtered_rev_data all_revisions revised_sheets →
  date_rx_match (rd_date x) = true
  ∧ length (digit_runs [] (PyStr.to_list (rd_date x))) = 3%nat.
Proof.
  intros (rev & _ & -> & _ & Hd)%elem_of_build_filtered_rev_data.
  split; [done|]. simpl.
  apply date_rx_match_parts in Hd as (d & m & y & Hparts).
  by rewrite (date_parts_runs _ _ _ _ Hparts).
Qed.

Lemma filtered_rows_have_three_groups_witness :
  rev_data_of Example.r3
    ∈ build_filtered_rev_data Example.all_revisions [Example.rs1; Example.rs2]
  ∧ date_rx_match (rd_date (rev_data_of Example.r3)) = true
  ∧ length (digit_runs [] (PyStr.to_list (rd_date (rev_data_of Example.r3)))) = 3%nat.
Proof.
  assert (rev_data_of Example.r3
            ∈ build_filtered_rev_data Example.all_revisions [Example.rs1; Example.rs2])
    as Hin by (vm_compute; do 2 right; left).
  split; [done|].
  apply (filtered_rows_have_three_groups Example.all_revisions
           [Example.rs1; Example.rs2] _ Hin).
Defined.

(** * Further properties: the sheet block *)

Lemma write_label_frame_cells (row : Z) (ws : Worksheet) (cells : list LabelCell)
    (a : string) :
  (∀ c, c ∈ cells → a ≠ cell (excel_col_name (3 + Z.of_nat c.1.2)) row) →
  foldl (write_label row) ws cells !! a = ws !! a.
Proof.
  induction cells as [|[[rid j] label] cells IH] using rev_ind; intros Ha; [done|].
  rewrite foldl_snoc. simpl. unfold set_value.
  rewrite lookup_insert_ne.
  - apply IH. intros c Hc. apply Ha, elem_of_app. by left.
  - intros E. symmetry in E. revert E.
    apply (Ha (rid, j, label)), elem_of_app. right. by left.
Qed.

Lemma cell_A_B (r1 r2 : Z) : 0 ≤ r1 → 0 ≤ r2 → cell "A" r1 ≠ cell "B" r2.
Proof.
  intros H1 H2 [E _]%cell_inj; [done|apply no_digit_A|apply no_digit_B|done..].
Qed.

Section BlockRows.
Variable doc : Document.t.
Variable rev_chunk : list RevData.
Local Abbreviation rev_index := (build_rev_index 0 rev_chunk ∅).

Lemma fill_sheet_row_names (i : nat) (rs : RevisedSheet) (ws ws' : Worksheet) :
  fill_sheet_row doc rev_index i rs ws = Some ws' →
  ws' !! cell "A" (10 + Z.of_nat i) = Some (PStr (get_drawing_number doc rs))
  ∧ ws' !! cell "B" (10 + Z.of_nat i) = Some (PStr (sheet_name rs)).
Proof.
  unfold fill_sheet_row. intros H.
  destruct (sheet_label_cells doc rev_index rs) as [cells|]; [|done].
  injection H as <-. unfold set_value. split.
  - rewrite write_label_frame_cells
      by (intros c _ E; symmetry in E; by apply cell_col_A in E; lia).
    rewrite lookup_insert_ne by (intros E; symmetry in E; by apply cell_A_B in E; lia).
    by rewrite lookup_insert_eq.
  - rewrite write_label_frame_cells
      by (intros c _ E; symmetry in E; by apply cell_col_B in E; lia).
    by rewrite lookup_insert_eq.
Qed.

Lemma fill_sheet_row_frame_exact (i : nat) (rs : RevisedSheet) (ws ws' : Worksheet)
    (a : string) :
  fill_sheet_row doc rev_index i rs ws = Some ws' →
  a ≠ cell "A" (10 + Z.of_nat i) → a ≠ cell "B" (10 + Z.of_nat i) →
  (∀ (j : nat) x, rev_chunk !! j = Some x → rd_id x ∈ _rev_ids rs →
     a ≠ cell (excel_col_name (3 + Z.of_nat j)) (10 + Z.of_nat i)) →
  ws' !! a = ws !! a.
Proof.
  unfold fill_sheet_row. intros H HA HB Hcols.
  destruct (sheet_label_cells doc rev_index rs) as [cells|] eqn:Hcells; [|done].
  injection H as <-.
  destruct (sheet_label_cells_elem _ _ _ _ Hcells) as (revs & Hrevs & _).
  rewrite write_label_frame_cells.
  - unfold set_value. by rewrite !lookup_insert_ne.
  - intros [[rid j] label] Hc. simpl.
    destruct (label_cells_sound _ _ _ _ _ Hrevs Hcells _ _ _ Hc) as (Hin & _ & Hj).
    destruct (rev_chunk !! j) as [x|] eqn:Hx; [|done].
    injection Hj as <-. by apply (Hcols j x).
Qed.

Lemma fill_sheet_rows_names (i0 : nat) (sheet_block : list RevisedSheet)
    (ws ws' : Worksheet) (k : nat) (rs : RevisedSheet) :
  fill_sheet_rows_from doc rev_index i0 sheet_block ws = Some ws' →
  sheet_block !! k = Some rs →
  ws' !! cell "A" (10 + Z.of_nat (i0 + k)) = Some (PStr (get_drawing_number doc rs))
  ∧ ws' !! cell "B" (10 + Z.of_nat (i0 + k)) = Some (PStr (sheet_name rs)).
Proof.
  revert i0 ws k. induction sheet_block as [|rs0 block IH]; intros i0 ws k H Hk;
    [done|].
  cbn [fill_sheet_rows_from] in H.
  destruct (fill_sheet_row doc rev_index i0 rs0 ws) as [ws1|] eqn:E; [|done].
  simpl in H. destruct k as [|k].
  - injection Hk as ->. rewrite Nat.add_0_r.
    destruct (fill_sheet_row_names _ _ _ _ E) as [HA HB].
    rewrite <- HA, <- HB.
    split; (eapply fill_sheet_rows_frame; [done|]);
      intros c r Hc Hr [_ ?]%cell_inj; done || lia || apply no_digit_A
                                       || apply no_digit_B.
  - replace (i0 + S k)%nat with (S i0 + k)%nat by lia. by eapply IH.
Qed.

Lemma fill_sheet_rows_frame_exact (i0 : nat) (sheet_block : list RevisedSheet)
    (ws ws' : Worksheet) (a : string) :
  fill_sheet_rows_from doc rev_index i0 sheet_block ws = Some ws' →
  (∀ (k : nat) rs, sheet_block !! k = Some rs →
     a ≠ cell "A" (10 + Z.of_nat (i0 + k))
     ∧ a ≠ cell "B" (10 + Z.of_nat (i0 + k))
     ∧ ∀ (j : nat) x, rev_chunk !! j = Some x → rd_id x ∈ _rev_ids rs →
         a ≠ cell (excel_col_name (3 + Z.of_nat j)) (10 + Z.of_nat (i0 + k))) →
  ws' !! a = ws !! a.
Proof.
  revert i0 ws. induction sheet_block as [|rs0 block IH]; intros i0 ws H Ha.
  - by injection H as <-.
  - cbn [fill_sheet_rows_from] in H.
    destruct (fill_sheet_row doc rev_index i0 rs0 ws) as [ws1|] eqn:E; [|done].
    simpl in H. rewrite (IH _ _ H).
    + destruct (Ha 0%nat rs0 eq_refl) as (HA & HB & Hcols).
      rewrite Nat.add_0_r in *. by eapply fill_sheet_row_frame_exact.
    + intros k rs Hk. replace (S i0 + k)%nat with (i0 + S k)%nat by lia.
      by apply Ha.
Qed.
End BlockRows.

(** X6: after a block is filled, row [10 + i] holds in column [A] the
    drawing number and in column [B] the name of the [i]-th sheet of
    the block. *)
Theorem sheet_rows_names (doc : Document.t) (ws ws' : Worksheet)
    (sheet_block : list RevisedSheet) (rev_chunk : list RevData)
    (i : nat) (rs : RevisedSheet) :
  fill_sheet_block_chunk doc ws sheet_block rev_chunk = Some ws' →
  sheet_block !! i = Some rs →
  ws' !! cell "A" (10 + Z.of_nat i) = Some (PStr (get_drawing_number doc rs))
  ∧ ws' !! cell "B" (10 + Z.of_nat i) = Some (PStr (ViewSheet.Name (_sheet rs))).
Proof. intros H Hi. by apply (fill_sheet_rows_names doc rev_chunk 0 _ _ _ _ _ H Hi). Qed.

Lemma sheet_rows_names_witness :
  ∃ ws', fill_sheet_block_chunk Example.doc ∅ [Example.rs1; Example.rs2] Example.rev_data
         = Some ws'
    ∧ [Example.rs1; Example.rs2] !! 1%nat = Some Example.rs2
    ∧ ws' !! cell "A" (10 + Z.of_nat 1)
      = Some (PStr (get_drawing_number Example.doc Example.rs2))
    ∧ ws' !! cell "B" (10 + Z.of_nat 1)
      = Some (PStr (ViewSheet.Name (_sheet Example.rs2))).
Proof.
  eexists. split; [vm_compute; reflexivity|]. split; [reflexivity|].
  eapply (sheet_rows_names Example.doc ∅ _ [Example.rs1; Example.rs2]
            Example.rev_data 1 Example.rs2).
  - vm_compute. reflexivity.
  - reflexivity.
Defined.

(** X7: filling a block changes no cell but, in the row of each sheet
    of the block, the cells of columns [A] and [B] and the cells of the
    columns of those revisions of the chunk that are in the sheet's
    association set; rows below the block and columns beyond the chunk
    keep their content. *)
Theorem sheet_block_frame (doc : Document.t) (ws ws' : Worksheet)
    (sheet_block : list RevisedSheet) (rev_chunk : list RevData) (a : string) :
  fill_sheet_block_chunk doc ws sheet_block rev_chunk = Some ws' →
  (∀ (i : nat) rs, sheet_block !! i = Some rs →
     a ≠ cell "A" (10 + Z.of_nat i)
     ∧ a ≠ cell "B" (10 + Z.of_nat i)
     ∧ ∀ (j : nat) x, rev_chunk !! j = Some x → rd_id x ∈ _rev_ids rs →
         a ≠ cell (excel_col_name (3 + Z.of_nat j)) (10 + Z.of_nat i)) →
  ws' !! a = ws !! a.
Proof. intros H Ha. by apply (fill_sheet_rows_frame_exact doc rev_chunk 0 _ _ _ _ H). Qed.

Lemma sheet_block_frame_witness :
  ∃ ws', fill_sheet_block_chunk Example.doc {[ "C5" := PStr "x" ]}
           [Example.rs1; Example.rs2] Example.rev_data = Some ws'
    ∧ (∀ (i : nat) rs, [Example.rs1; Example.rs2] !! i = Some rs →
         "C5" ≠ cell "A" (10 + Z.of_nat i)
         ∧ "C5" ≠ cell "B" (10 + Z.of_nat i)
         ∧ ∀ (j : nat) x, Example.rev_data !! j = Some x → rd_id x ∈ _rev_ids rs →
             "C5" ≠ cell (excel_col_name (3 + Z.of_nat j)) (10 + Z.of_nat i))
    ∧ ws' !! "C5" = ({[ "C5" := PStr "x" ]} : Worksheet) !! "C5".
Proof.
  assert (∀ (i : nat) rs, [Example.rs1; Example.rs2] !! i = Some rs →
            "C5" ≠ cell "A" (10 + Z.of_nat i)
            ∧ "C5" ≠ cell "B" (10 + Z.of_nat i)
            ∧ ∀ (j : nat) x, Example.rev_data !! j = Some x → rd_id x ∈ _rev_ids rs →
                "C5" ≠ cell (excel_col_name (3 + Z.of_nat j)) (10 + Z.of_nat i)) as Ha.
  { intros i rs _. change "C5" with (cell (excel_col_name 2) 5).
    split; [|split].
    - intros [_ ?]%cell_inj; [lia|apply col_no_digit|apply no_digit_A|lia..].
    - intros [_ ?]%cell_inj; [lia|apply col_no_digit|apply no_digit_B|lia..].
    - intros j x _ _ [_ ?]%cell_col_inj; lia. }
  eexists. split; [vm_compute; reflexivity|]. split; [exact Ha|].
  eapply (sheet_block_frame Example.doc {[ "C5" := PStr "x" ]} _
            [Example.rs1; Example.rs2] Example.rev_data "C5"); [|exact Ha].
  vm_compute. reflexivity.
Defined.

(** * Further properties: the workbook *)

(** A loop whose [k]-th step replaces worksheet [i0 + k] by a filled
    copy. *)
Section IndexedPages.
Context {P : Type} (idx : P → nat) (fill : P → Worksheet → option Worksheet).

Local Abbreviation page_body :=
  (λ (p : P) (wb : list Worksheet),
     ws ← wb !! idx p; ws' ← fill p ws; Some (<[idx p := ws']> wb)).

Lemma for_each_indexed (ps : list P) (i0 : nat) (wb wb' : list Worksheet) :
  idx <$> ps = seq i0 (length ps) →
  for_each page_body ps wb = Some wb' →
  length wb' = length wb
  ∧ (∀ k, (k < i0 ∨ i0 + length ps ≤ k)%nat → wb' !! k = wb !! k)
  ∧ ∀ k p, ps !! k = Some p →
      ∃ ws ws', wb !! (i0 + k)%nat = Some ws ∧ fill p ws = Some ws'
                ∧ wb' !! (i0 + k)%nat = Some ws'.
Proof.
  revert i0 wb. induction ps as [|p ps IH]; intros i0 wb Hidx H.
  - injection H as <-. split; [done|]. split; [done|]. by intros k p ?.
  - rewrite fmap_cons in Hidx. simpl in Hidx. injection Hidx as Hp Hidx.
    cbn [for_each] in H. rewrite Hp in H.
    destruct (wb !! i0) as [ws|] eqn:Hws; [|done]. simpl in H.
    destruct (fill p ws) as [ws'|] eqn:Hfill; [|done]. simpl in H.
    destruct (IH _ _ Hidx H) as (Hlen & Hframe & Hpages).
    rewrite length_insert in Hlen.
    assert (i0 < length wb)%nat as Hlt by by eapply lookup_lt_Some.
    split; [done|]. split.
    + intros k Hk. simpl in Hk. rewrite Hframe by lia.
      apply list_lookup_insert_ne. lia.
    + intros [|k] q Hq.
      * injection Hq as <-. rewrite Nat.add_0_r. exists ws, ws'.
        split; [done|]. split; [done|]. rewrite Hframe by lia.
        by apply list_lookup_insert_eq.
      * destruct (Hpages k q Hq) as (w & w' & Hw & Hf & Hw').
        exists w, w'. replace (i0 + S k)%nat with (S i0 + k)%nat by lia.
        split; [|done]. rewrite <- Hw. symmetry. apply list_lookup_insert_ne. lia.
Qed.

Lemma for_each_indexed_None (ps : list P) (i0 : nat) (wb : list Worksheet) :
  idx <$> ps = seq i0 (length ps) →
  (i0 ≤ length wb < i0 + length ps)%nat →
  for_each page_body ps wb = None.
Proof.
  revert i0 wb. induction ps as [|p ps IH]; intros i0 wb Hidx Hlen.
  - simpl in Hlen. lia.
  - rewrite fmap_cons in Hidx. simpl in Hidx. injection Hidx as Hp Hidx.
    cbn [for_each]. rewrite Hp.
    destruct (wb !! i0) as [ws|] eqn:Hws; [|done]. simpl.
    destruct (fill p ws) as [ws'|]; [|done]. simpl.
    apply lookup_lt_Some in Hws.
    apply (IH (S i0)); [done|]. rewrite length_insert. simpl in Hlen. lia.
Qed.

Lemma for_each_indexed_Some (ps : list P) (i0 : nat) (wb : list Worksheet) :
  idx <$> ps = seq i0 (length ps) →
  (i0 + length ps ≤ length wb)%nat →
  (∀ p ws, p ∈ ps → is_Some (fill p ws)) →
  is_Some (for_each page_body ps wb).
Proof.
  revert i0 wb. induction ps as [|p ps IH]; intros i0 wb Hidx Hlen Hfill;
    [by eexists|].
  rewrite fmap_cons in Hidx. simpl in Hidx. injection Hidx as Hp Hidx.
  cbn [for_each]. rewrite Hp. simpl in Hlen.
  destruct (lookup_lt_is_Some_2 wb i0 ltac:(lia)) as [ws ->]. simpl.
  destruct (Hfill p ws ltac:(left)) as [ws' ->]. simpl.
  apply (IH (S i0)); [done|by rewrite length_insert; lia|].
  intros q w Hq. apply Hfill. by right.
Qed.
End IndexedPages.

Lemma page_order_indices (nrc nsc : nat) :
  (λ p, ws_index_of nsc p - 1)%nat <$> page_order nrc nsc
  = seq 0 (length (page_order nrc nsc)).
Proof.
  rewrite length_page_order.
  transitivity (Nat.pred <$> (ws_index_of nsc <$> page_order nrc nsc)).
  - rewrite <- list_fmap_compose. apply list_fmap_ext. intros _ p _. simpl. lia.
  - rewrite ws_index_page_order, <- fmap_S_seq, <- list_fmap_compose.
    apply list_fmap_id.
Qed.

(** The loops of [fill_all_chunks] as one loop over the pages. *)
Lemma fill_all_chunks_pages_eq (doc : Document.t) (wb : list Worksheet)
    (all_revisions : list Revision.t) (revised_sheets : list RevisedSheet) :
  let rev_data := build_filtered_rev_data all_revisions revised_sheets in
  let nrc := num_chunks (length rev_data) 50 in
  let nsc := num_chunks (length revised_sheets) 27 in
  fill_all_chunks doc wb all_revisions revised_sheets
    rev_chunk_size_default sheet_chunk_size_default
  = for_each (λ p wb,
                ws ← wb !! (ws_index_of nsc p - 1)%nat;
                ws' ← fill_worksheet doc rev_data revised_sheets 50 27 p ws;
                Some (<[(ws_index_of nsc p - 1)%nat := ws']> wb))
             (page_order nrc nsc) wb.
Proof.
  intros rev_data nrc nsc. unfold fill_all_chunks.
  rewrite bool_decide_eq_false_2
    by (unfold rev_chunk_size_default, sheet_chunk_size_default; lia).
  apply (for_each_nested
           (fill_page doc rev_data revised_sheets 50 27 nsc)).
Qed.

(** X8: when [fill_all_chunks] returns, the workbook has as many
    worksheets as before; the worksheet of page [(rc, sc)], at 0-based
    position [rc * num_sheet_chunks + sc], is the template's worksheet
    at that position with the header of revision chunk [rc] and the
    block of sheets [sc] filled in, and the worksheets behind the last
    page are as they were. *)
Theorem fill_all_chunks_pages (doc : Document.t) (wb wb' : list Worksheet)
    (all_revisions : list Revision.t) (revised_sheets : list RevisedSheet) :
  let rev_data := build_filtered_rev_data all_revisions revised_sheets in
  let nrc := num_chunks (length rev_data) 50 in
  let nsc := num_chunks (length revised_sheets) 27 in
  fill_all_chunks doc wb all_revisions revised_sheets
    rev_chunk_size_default sheet_chunk_size_default = Some wb' →
  length wb' = length wb
  ∧ (∀ k, (nrc * nsc ≤ k)%nat → wb' !! k = wb !! k)
  ∧ ∀ rc sc, (rc < nrc)%nat → (sc < nsc)%nat →
      ∃ ws ws', wb !! (rc * nsc + sc)%nat = Some ws
        ∧ fill_worksheet doc rev_data revised_sheets 50 27 (rc, sc) ws = Some ws'
        ∧ wb' !! (rc * nsc + sc)%nat = Some ws'.
Proof.
  intros rev_data nrc nsc H. rewrite fill_all_chunks_pages_eq in H.
  apply (for_each_indexed _ _ _ 0 _ _ (page_order_indices _ _)) in H
    as (Hlen & Hframe & Hpages).
  rewrite length_page_order in Hframe. subst rev_data nrc nsc.
  split; [done|]. split.
  - intros k Hk. apply Hframe. lia.
  - intros rc sc Hrc Hsc. apply (Hpages _ _ (page_order_lookup _ _ _ _ Hrc Hsc)).
Qed.

Lemma fill_all_chunks_pages_witness :
  ∃ wb',
    fill_all_chunks Example.doc [∅; {[ "A1" := PStr "spare" ]}] Example.all_revisions
      [Example.rs1; Example.rs2] rev_chunk_size_default sheet_chunk_size_default
    = Some wb'
    ∧ length wb' = length [(∅ : Worksheet); {[ "A1" := PStr "spare" ]}]
    ∧ wb' !! 1%nat = Some {[ "A1" := PStr "spare" ]}.
Proof.
  destruct (fill_all_chunks Example.doc [∅; {[ "A1" := PStr "spare" ]}]
              Example.all_revisions [Example.rs1; Example.rs2]
              rev_chunk_size_default sheet_chunk_size_default) as [wb'|] eqn:E;
    [|vm_compute in E; discriminate].
  exists wb'. split; [reflexivity|].
  destruct (fill_all_chunks_pages _ _ _ _ _ E) as (Hlen & Hframe & _).
  split; [exact Hlen|]. rewrite Hframe; [reflexivity|]. vm_compute. lia.
Defined.

(** X9: when the workbook has fewer worksheets than the report has
    pages, [fill_all_chunks] fails (the lookup of a worksheet raises);
    it returns no workbook, whatever it wrote before. *)
Theorem fill_all_chunks_page_shortfall (doc : Document.t) (wb : list Worksheet)
    (all_revisions : list Revision.t) (revised_sheets : list RevisedSheet) :
  let rev_data := build_filtered_rev_data all_revisions revised_sheets in
  let nrc := num_chunks (length rev_data) 50 in
  let nsc := num_chunks (length revised_sheets) 27 in
  (length wb < nrc * nsc)%nat →
  fill_all_chunks doc wb all_revisions revised_sheets
    rev_chunk_size_default sheet_chunk_size_default = None.
Proof.
  intros rev_data nrc nsc Hlen. rewrite fill_all_chunks_pages_eq.
  apply (for_each_indexed_None _ _ _ 0 _ (page_order_indices _ _)).
  rewrite length_page_order. subst rev_data nrc nsc. lia.
Qed.

Lemma fill_all_chunks_page_shortfall_witness :
  (length ([] : list Worksheet)
   < num_chunks (length (build_filtered_rev_data Example.all_revisions
                           [Example.rs1; Example.rs2])) 50
     * num_chunks (length [Example.rs1; Example.rs2]) 27)%nat
  ∧ fill_all_chunks Example.doc [] Example.all_revisions [Example.rs1; Example.rs2]
      rev_chunk_size_default sheet_chunk_size_default = None.
Proof.
  assert (length ([] : list Worksheet)
          < num_chunks (length (build_filtered_rev_data Example.all_revisions
                                  [Example.rs1; Example.rs2])) 50
            * num_chunks (length [Example.rs1; Example.rs2]) 27)%nat as H
    by (vm_compute; lia).
  split; [exact H|].
  apply (fill_all_chunks_page_shortfall Example.doc [] Example.all_revisions
           [Example.rs1; Example.rs2] H).
Defined.

Lemma chunk_resolves_sublist (doc : Document.t) (l k : list RevData) :
  l `sublist_of` k → chunk_resolves doc k → chunk_resolves doc l.
Proof. intros Hs H x Hx. apply H. by eapply elem_of_sublist. Qed.

Lemma sequences_resolve_sublist (doc : Document.t) (l k : list RevData) :
  l `sublist_of` k → sequences_resolve doc k → sequences_resolve doc l.
Proof. intros Hs H x rev Hx. apply H. by eapply elem_of_sublist. Qed.

(** X10: [fill_all_chunks] returns a workbook when the workbook has a
    worksheet for every page, every row of the filtered revision data
    names a revision of the document, and the numbering sequence
    identifier of each of these revisions names a numbering sequence
    or nothing at all. *)
Theorem fill_all_chunks_succeeds (doc : Document.t) (wb : list Worksheet)
    (all_revisions : list Revision.t) (revised_sheets : list RevisedSheet) :
  let rev_data := build_filtered_rev_data all_revisions revised_sheets in
  let nrc := num_chunks (length rev_data) 50 in
  let nsc := num_chunks (length revised_sheets) 27 in
  (nrc * nsc ≤ length wb)%nat →
  chunk_resolves doc rev_data → sequences_resolve doc rev_data →
  is_Some (fill_all_chunks doc wb all_revisions revised_sheets
             rev_chunk_size_default sheet_chunk_size_default).
Proof.
  intros rev_data nrc nsc Hlen Hres Hseq. rewrite fill_all_chunks_pages_eq.
  apply (for_each_indexed_Some _ _ _ 0 _ (page_order_indices _ _)).
  - rewrite length_page_order. subst rev_data nrc nsc. lia.
  - intros p ws _. apply fill_sheet_block_chunk_is_Some.
    + eapply chunk_resolves_sublist; [apply chunk_at_sublist|done].
    + eapply sequences_resolve_sublist; [apply chunk_at_sublist|done].
Qed.

Lemma fill_all_chunks_succeeds_witness :
  (num_chunks (length Example.rev_data) 50
   * num_chunks (length [Example.rs1; Example.rs2]) 27 ≤ length Example.template)%nat
  ∧ chunk_resolves Example.doc Example.rev_data
  ∧ sequences_resolve Example.doc Example.rev_data
  ∧ is_Some (fill_all_chunks Example.doc Example.template Example.all_revisions
               [Example.rs1; Example.rs2]
               rev_chunk_size_default sheet_chunk_size_default).
Proof.
  destruct example_conditions as (H1 & H2 & _).
  assert (num_chunks (length Example.rev_data) 50
          * num_chunks (length [Example.rs1; Example.rs2]) 27
          ≤ length Example.template)%nat as H0 by (vm_compute; lia).
  split; [exact H0|]. split; [exact H1|]. split; [exact H2|].
  apply (fill_all_chunks_succeeds Example.doc Example.template Example.all_revisions
           [Example.rs1; Example.rs2] H0 H1 H2).
Defined.

(** X11: when no assigned revision has an accepted date, or no sheet
    is included, the report has no page: [fill_all_chunks] returns the
    workbook as it is, without a header and without the sheet list. *)
Theorem fill_all_chunks_nothing (doc : Document.t) (wb : list Worksheet)
    (all_revisions : list Revision.t) (revised_sheets : list RevisedSheet) :
  (∀ rev, rev ∈ all_revisions → ¬ survives revised_sheets rev) ∨ revised_sheets = [] →
  fill_all_chunks doc wb all_revisions revised_sheets
    rev_chunk_size_default sheet_chunk_size_default = Some wb.
Proof.
  intros H. rewrite fill_all_chunks_pages_eq.
  assert (page_order
            (num_chunks (length (build_filtered_rev_data all_revisions revised_sheets)) 50)
            (num_chunks (length revised_sheets) 27) = []) as ->; [|done].
  apply length_zero_iff_nil. rewrite length_page_order.
  destruct H as [H| ->]; [|simpl; lia].
  assert (build_filtered_rev_data all_revisions revised_sheets = []) as ->; [|done].
  apply Permutation_nil_r. rewrite build_filtered_rev_data_perm.
  by rewrite filter_none.
Qed.

Lemma fill_all_chunks_nothing_witness :
  ((∀ rev, rev ∈ [Example.r1] → ¬ survives [Example.rs2] rev)
   ∨ [Example.rs2] = [])
  ∧ fill_all_chunks Example.doc Example.template [Example.r1] [Example.rs2]
      rev_chunk_size_default sheet_chunk_size_default = Some Example.template.
Proof.
  assert (∀ rev, rev ∈ [Example.r1] → ¬ survives [Example.rs2] rev) as H.
  { intros rev ->%list_elem_of_singleton [_ Hd]. vm_compute in Hd. discriminate. }
  split; [by left|].
  apply (fill_all_chunks_nothing Example.doc Example.template [Example.r1]
           [Example.rs2]). by left.
Defined.

(** * Further properties: the sheet list *)

Lemma StronglySorted_sublist {A} (R : A → A → Prop) (l k : list A) :
  l `sublist_of` k → StronglySorted R k → StronglySorted R l.
Proof.
  induction 1 as [|x l k Hs IH|x l k Hs IH]; intros Hk; [done|..];
    apply StronglySorted_inv in Hk as [Hk Hx].
  - constructor; [by apply IH|].
    apply Forall_forall. intros y Hy.
    apply (proj1 (Forall_forall _ _) Hx). by eapply elem_of_sublist.
  - by apply IH.
Qed.

Lemma RevisedSheet_init_sheet (doc : Document.t) (all_clouds : list RevisionCloud.t)
    (sheet : ViewSheet.t) (rs : RevisedSheet) :
  RevisedSheet_init doc all_clouds sheet = Some rs → _sheet rs = sheet.
Proof.
  unfold RevisedSheet_init. destruct (_find_clouds _ _ _); [|done].
  by intros [= <-].
Qed.

Lemma filter_valid_sheets_sublist (doc : Document.t) (all_clouds : list RevisionCloud.t)
    (all_sheets : list ViewSheet.t) (revised_sheets : list RevisedSheet) :
  filter_valid_sheets doc all_clouds all_sheets = Some revised_sheets →
  _sheet <$> revised_sheets `sublist_of` all_sheets.
Proof.
  revert revised_sheets. induction all_sheets as [|sheet l IH]; intros rss H.
  - by injection H as <-.
  - cbn [filter_valid_sheets] in H.
    assert (∀ rss', filter_valid_sheets doc all_clouds l = Some rss' →
                    _sheet <$> rss' `sublist_of` sheet :: l) as Hskip.
    { intros rss' H'. by apply sublist_cons, IH. }
    destruct (ViewSheet.LookupParameter sheet _) as [p|]; [|by apply Hskip].
    case_bool_decide; [by apply Hskip|].
    destruct (RevisedSheet_init doc all_clouds sheet) as [rs|] eqn:Hinit; [|done].
    simpl in H. destruct (filter_valid_sheets doc all_clouds l) as [rss'|]; [|done].
    simpl in H. destruct (_ && _); injection H as <-; [|by apply Hskip].
    rewrite fmap_cons, (RevisedSheet_init_sheet _ _ _ _ Hinit).
    by apply sublist_skip, IH.
Qed.

Lemma string_leb_trans (s1 s2 s3 : string) :
  String.leb s1 s2 = true → String.leb s2 s3 = true → String.leb s1 s3 = true.
Proof.
  intros H12 H23. apply Is_true_true. apply Is_true_true in H12, H23.
  by apply (transitivity (R:=String.le) (y:=s2)).
Qed.

Lemma doc_sheets_sorted (doc : Document.t) :
  StronglySorted
    (λ a b, String.leb (ViewSheet.SheetNumber a) (ViewSheet.SheetNumber b) = true)
    (doc_sheets doc).
Proof.
  apply (stable_sort_sorted ViewSheet.SheetNumber String.leb).
  - apply String.leb_total.
  - apply string_leb_trans.
Qed.

(** X12: in a run of [main] the included sheets are a selection of
    the document's sheets in ascending order of sheet number (strings
    compared by code point), and the reported count is the number of
    revisions of the document. *)
Theorem main_sheets_sorted (doc : Document.t) (revised_sheets : list RevisedSheet)
    (total : nat) :
  filter_valid_sheets_and_show_count doc (doc_clouds doc) (doc_sheets doc)
    (doc_revisions doc) = Some (revised_sheets, total) →
  StronglySorted
    (λ a b, String.leb (ViewSheet.SheetNumber (_sheet a))
                       (ViewSheet.SheetNumber (_sheet b)) = true)
    revised_sheets
  ∧ _sheet <$> revised_sheets `sublist_of` doc_sheets doc
  ∧ total = length (doc_revisions doc).
Proof.
  unfold filter_valid_sheets_and_show_count. intros H.
  destruct (filter_valid_sheets _ _ _) as [rss|] eqn:E; [|done].
  injection H as <- <-. apply filter_valid_sheets_sublist in E.
  split; [|done].
  pose proof (StronglySorted_sublist _ _ _ E (doc_sheets_sorted doc)) as Hs.
  clear E. induction rss as [|rs rss IH]; [constructor|].
  rewrite fmap_cons in Hs. apply StronglySorted_inv in Hs as [Hs Hx].
  constructor; [by apply IH|].
  apply Forall_forall. intros y Hy.
  apply (proj1 (Forall_forall _ _) Hx (_sheet y)), list_elem_of_fmap. by exists y.
Qed.

Lemma main_sheets_sorted_witness :
  filter_valid_sheets_and_show_count Example.doc (doc_clouds Example.doc)
    (doc_sheets Example.doc) (doc_revisions Example.doc)
  = Some ([Example.rs1; Example.rs2], 5%nat)
  ∧ StronglySorted
      (λ a b, String.leb (ViewSheet.SheetNumber (_sheet a))
                         (ViewSheet.SheetNumber (_sheet b)) = true)
      [Example.rs1; Example.rs2].
Proof.
  split; [apply example_sheets|].
  apply (main_sheets_sorted Example.doc [Example.rs1; Example.rs2] 5 example_sheets).
Defined.

Lemma RevisedSheet_init_None (doc : Document.t) (all_clouds : list RevisionCloud.t)
    (sheet : ViewSheet.t) :
  RevisedSheet_init doc all_clouds sheet = None ↔ ¬ viewports_resolve doc sheet.
Proof.
  split.
  - intros H Hvp. by rewrite RevisedSheet_init_spec in H.
  - intros Hn. unfold RevisedSheet_init, _find_clouds.
    destruct (mapM _ _) as [vps|] eqn:E; [|done].
    destruct Hn. intros vp Hvp.
    assert (is_Some (mapM (λ vp, Viewport.ViewId
                                   <$> as_viewport (Document.GetElement doc vp))
                          (ViewSheet.GetAllViewports sheet))) as Hs by by eexists.
    apply mapM_is_Some_1 in Hs. rewrite Forall_forall in Hs.
    destruct (Hs vp Hvp) as [v Hv]. simpl in Hv.
    destruct (as_viewport _); [by eexists|done].
Qed.

(** X13: the sheet filter fails exactly when some sheet with the flag
    value 1 has a viewport identifier that names no viewport of the
    document: its [RevisedSheet] is built before the sheet is tested
    for viewports and revisions, and the failure ends the run.  A
    sheet without the flag is never looked into. *)
Theorem filter_valid_sheets_fails (doc : Document.t) (all_clouds : list RevisionCloud.t)
    (all_sheets : list ViewSheet.t) (all_revisions : list Revision.t) :
  filter_valid_sheets_and_show_count doc all_clouds all_sheets all_revisions = None
  ↔ ∃ sheet, sheet ∈ all_sheets ∧ flag_value sheet = Some 1
             ∧ ¬ viewports_resolve doc sheet.
Proof.
  unfold filter_valid_sheets_and_show_count.
  transitivity (filter_valid_sheets doc all_clouds all_sheets = None).
  { by destruct (filter_valid_sheets _ _ _). }
  induction all_sheets as [|sheet l IH].
  - split; [done|]. by intros (s & ?%elem_of_nil & _).
  - assert (flag_value sheet ≠ Some 1 →
            (filter_valid_sheets doc all_clouds l = None
             ↔ ∃ s, s ∈ sheet :: l ∧ flag_value s = Some 1
                    ∧ ¬ viewports_resolve doc s)) as Hskip.
    { intros Hf. rewrite IH. split.
      - intros (s & ? & ?). exists s. split; [by right|done].
      - intros (s & [->|?]%elem_of_cons & Hs & ?); [done|]. by exists s. }
    cbn [filter_valid_sheets]. unfold flag_value in Hskip at 1.
    destruct (ViewSheet.LookupParameter sheet _) as [p|] eqn:Hp;
      [|by apply Hskip].
    case_bool_decide as Hflag; [apply Hskip; simpl; congruence|].
    assert (flag_value sheet = Some 1) as Hf
      by (unfold flag_value; rewrite Hp; simpl; congruence).
    destruct (RevisedSheet_init doc all_clouds sheet) as [rs|] eqn:Hinit.
    + assert (viewports_resolve doc sheet) as Hvp.
      { destruct (decide (Forall (λ vp, is_Some (as_viewport
                                     (Document.GetElement doc vp)))
                                 (ViewSheet.GetAllViewports sheet))) as [H|H].
        - intros vp Hvp. rewrite Forall_forall in H. by apply H.
        - assert (RevisedSheet_init doc all_clouds sheet = None) as E; [|congruence].
          apply RevisedSheet_init_None. intros Hvp. apply H, Forall_forall, Hvp. }
      simpl. destruct (filter_valid_sheets doc all_clouds l) as [rss|] eqn:E; simpl.
      * split; [by destruct (_ && _)|].
        intros (s & [->|Hs]%elem_of_cons & Hfs & Hn); [done|].
        assert (Some rss = None) as [=]. apply IH. by exists s.
      * split; [|done]. intros _. destruct (proj1 IH eq_refl) as (s & ? & ?).
        exists s. split; [by right|done].
    + simpl. split; [|done]. intros _. exists sheet. split; [by left|].
      split; [done|]. by apply (RevisedSheet_init_None doc all_clouds sheet).
Qed.

(** X14: when the revisions of the model have distinct identifiers, so
    have the rows of the filtered revision data: no revision gets two
    columns, and there are no more columns than revisions. *)
Theorem revision_columns_distinct (all_revisions : list Revision.t)
    (revised_sheets : list RevisedSheet) :
  NoDup (Revision.Id <$> all_revisions) →
  NoDup (rd_id <$> build_filtered_rev_data all_revisions revised_sheets)
  ∧ (length (build_filtered_rev_data all_revisions revised_sheets)
     ≤ length all_revisions)%nat.
Proof.
  intros Hnd. split; [by apply rev_data_ids_NoDup|].
  rewrite build_filtered_rev_data_perm, length_fmap. apply length_filter.
Qed.

Lemma revision_columns_distinct_witness :
  NoDup (Revision.Id <$> Example.all_revisions)
  ∧ NoDup (rd_id <$> build_filtered_rev_data Example.all_revisions
                       [Example.rs1; Example.rs2])
  ∧ (length (build_filtered_rev_data Example.all_revisions [Example.rs1; Example.rs2])
     ≤ length Example.all_revisions)%nat.
Proof.
  assert (NoDup (Revision.Id <$> Example.all_revisions)) as H
    by (apply (bool_decide_unpack _); vm_compute; exact I).
  split; [exact H|].
  apply (revision_columns_distinct Example.all_revisions [Example.rs1; Example.rs2] H).
Defined.

(** * Further properties: the job information *)

Lemma fill_worksheet_job_cells (doc : Document.t) (rev_data : list RevData)
    (revised_sheets : list RevisedSheet) (rev_chunk_size sheet_chunk_size : nat)
    (p : nat * nat) (ws ws' : Worksheet) (a : string) :
  a = cell "A" 6 ∨ a = cell "B" 7 →
  fill_worksheet doc rev_data revised_sheets rev_chunk_size sheet_chunk_size p ws
  = Some ws' →
  ws' !! a = ws !! a.
Proof.
  intros Ha H. unfold fill_worksheet, fill_sheet_block_chunk in H.
  rewrite (fill_sheet_rows_frame _ _ _ _ _ _ a H).
  - apply header_frame_gen. intros j h _ Hh E.
    destruct Ha as [-> | ->]; symmetry in E;
      [by apply cell_col_A in E; [|lia..] | by apply cell_col_B in E; [|lia..]].
  - intros c r Hc _ E.
    destruct Ha as [-> | ->];
      apply cell_inj in E as [_ E];
      first [lia | done | apply no_digit_A | apply no_digit_B].
Qed.

Lemma fill_job_info_spec (doc : Document.t) (wb wb1 : list Worksheet) (k : nat)
    (ws1 : Worksheet) :
  fill_job_info doc wb = Some wb1 → wb1 !! k = Some ws1 →
  ∃ name number,
    job_info_text (Document.ProjectInformation doc !! "Project Name") = Some name
    ∧ job_info_text (Document.ProjectInformation doc !! "Project Number")
      = Some number
    ∧ ws1 !! cell "A" 6 = Some (PStr ("Job name: " +:+ name))
    ∧ ws1 !! cell "B" 7 = Some (PStr ("Job no: " +:+ number)).
Proof.
  unfold fill_job_info. intros H Hk. apply mapM_Some in H.
  destruct (Forall2_lookup_r _ _ _ _ _ H Hk) as (ws & _ & Hws).
  destruct (job_info_text (_ !! "Project Name")) as [name|]; [|done].
  destruct (job_info_text (_ !! "Project Number")) as [number|]; [|done].
  simpl in Hws. injection Hws as <-. exists name, number.
  split; [done|]. split; [done|]. unfold set_value. split.
  - rewrite lookup_insert_ne by done. apply lookup_insert_eq.
  - apply lookup_insert_eq.
Qed.

(** X15: when the fill of [main] returns, the workbook has as many
    worksheets as the template, and every worksheet, filled page or
    not, holds in [A6] the text [Job name: ] followed by the trimmed
    project name and in [B7] the text [Job no: ] followed by the
    trimmed project number (the empty string for a parameter that the
    project information does not have): neither the header nor the
    sheet list overwrites them. *)
Theorem main_job_info (doc : Document.t) (wb wb' : list Worksheet) (k : nat)
    (ws' : Worksheet) :
  main_fill doc wb = Some wb' → wb' !! k = Some ws' →
  length wb' = length wb
  ∧ ∃ name number,
      job_info_text (Document.ProjectInformation doc !! "Project Name") = Some name
      ∧ job_info_text (Document.ProjectInformation doc !! "Project Number")
        = Some number
      ∧ ws' !! "A6" = Some (PStr ("Job name: " +:+ name))
      ∧ ws' !! "B7" = Some (PStr ("Job no: " +:+ number)).
Proof.
  unfold main_fill. intros H Hk.
  destruct (filter_valid_sheets_and_show_count _ _ _ _) as [[rss total]|]; [|done].
  simpl in H. destruct (fill_job_info doc wb) as [wb1|] eqn:E1; [|done].
  simpl in H. rewrite fill_all_chunks_pages_eq in H.
  apply (for_each_indexed _ _ _ 0 _ _ (page_order_indices _ _)) in H
    as (Hlen & Hframe & Hpages).
  assert (length wb1 = length wb) as Hlen1.
  { unfold fill_job_info in E1. apply mapM_Some in E1.
    symmetry. by eapply Forall2_length. }
  split; [congruence|].
  assert (∃ ws1, wb1 !! k = Some ws1 ∧ ws' !! cell "A" 6 = ws1 !! cell "A" 6
                 ∧ ws' !! cell "B" 7 = ws1 !! cell "B" 7) as (ws1 & Hk1 & HA & HB).
  { set (po := page_order _ _) in Hframe, Hpages.
    destruct (po !! k) as [p|] eqn:Hp.
    - destruct (Hpages k p Hp) as (ws0 & ws0' & Hw0 & Hfill & Hw0').
      simpl in Hw0, Hw0'. rewrite Hk in Hw0'. injection Hw0' as <-.
      exists ws0. split; [done|].
      split; eapply fill_worksheet_job_cells; eauto.
    - apply lookup_ge_None in Hp. exists ws'.
      rewrite <- Hframe by (right; simpl; lia). done. }
  destruct (fill_job_info_spec doc wb wb1 k ws1 E1 Hk1)
    as (name & number & Hn & Hm & H6 & H7).
  exists name, number. split; [done|]. split; [done|].
  change "A6" with (cell "A" 6). change "B7" with (cell "B" 7).
  split; congruence.
Qed.

Lemma main_job_info_witness :
  ∃ wb' ws',
    main_fill Example.doc Example.template = Some wb'
    ∧ wb' !! 0%nat = Some ws'
    ∧ length wb' = 1%nat
    ∧ ws' !! "A6" = Some (PStr "Job name: Mill Lane")
    ∧ ws' !! "B7" = Some (PStr "Job no: 100").
Proof.
  destruct (main_fill Example.doc Example.template) as [wb'|] eqn:E;
    [|vm_compute in E; discriminate].
  destruct (wb' !! 0%nat) as [ws'|] eqn:E0;
    [|vm_compute in E; injection E as <-; discriminate].
  exists wb', ws'. split; [done|]. split; [done|].
  destruct (main_job_info Example.doc Example.template wb' 0 ws' E E0)
    as (Hlen & name & number & Hn & Hm & H6 & H7).
  split; [exact Hlen|].
  vm_compute in Hn. injection Hn as <-. vm_compute in Hm. injection Hm as <-.
  split; [exact H6 | exact H7].
Defined.

(** X16: the job information is written before any page is filled,
    and a project parameter that is present but holds no string makes
    it fail (the script calls [strip] on its value): on a workbook with
    at least one worksheet the run then stops without a workbook. *)
Theorem main_job_info_null (doc : Document.t) (wb : list Worksheet) (p : Param.t) :
  wb ≠ [] →
  (Document.ProjectInformation doc !! "Project Name" = Some p
   ∨ Document.ProjectInformation doc !! "Project Number" = Some p) →
  Param.AsString p = None →
  main_fill doc wb = None.
Proof.
  intros Hwb Hp Hs. unfold main_fill.
  destruct (filter_valid_sheets_and_show_count _ _ _ _) as [[rss total]|]; [|done].
  simpl. destruct wb as [|ws wb]; [done|].
  assert (fill_job_info doc (ws :: wb) = None) as ->; [|done].
  unfold fill_job_info. simpl.
  destruct Hp as [-> | ->]; simpl; rewrite Hs; simpl; [done|].
  by destruct (job_info_text _).
Qed.

Lemma main_job_info_null_witness :
  Example.template ≠ []
  ∧ Document.ProjectInformation doc_null_name !! "Project Name"
    = Some (Param.mk 0 None)
  ∧ main_fill doc_null_name Example.template = None.
Proof.
  assert (Example.template ≠ []) as H0 by done.
  assert (Document.ProjectInformation doc_null_name !! "Project Name"
          = Some (Param.mk 0 None)) as H1 by (vm_compute; reflexivity).
  split; [exact H0|]. split; [exact H1|].
  apply (main_job_info_null doc_null_name Example.template (Param.mk 0 None) H0
           (or_introl H1) eq_refl).
Defined.

(** * Further properties: labels and drawing numbers on the example *)

Lemma non_numeric_label_own_number_witness :
  chunk_resolves Example.doc Example.rev_data
  ∧ sequences_resolve Example.doc Example.rev_data
  ∧ NoDup (rd_id <$> Example.rev_data)
  ∧ ∃ ws', fill_sheet_block_chunk Example.doc ∅ [Example.rs1; Example.rs2]
             Example.rev_data = Some ws'
      ∧ ws' !! cell (excel_col_name (3 + Z.of_nat 3)) (10 + Z.of_nat 1)
        = Some (PStr "P5").
Proof.
  destruct example_conditions as (H1 & H2 & H3 & _).
  split; [exact H1|]. split; [exact H2|]. split; [exact H3|].
  destruct (non_numeric_label_own_number Example.doc ∅ [Example.rs1; Example.rs2]
              Example.rev_data H1 H2 H3) as (ws' & Hfill & Hlabel).
  exists ws'. split; [exact Hfill|].
  apply (Hlabel 1%nat Example.rs2 3%nat (4, PStr "P5", "5.6.24", Revision.Description Example.r4)
           Example.r4).
  - reflexivity.
  - vm_compute. reflexivity.
  - apply (bool_decide_unpack _). vm_compute. exact I.
  - vm_compute. reflexivity.
  - intros seq Hseq. vm_compute in Hseq. injection Hseq as <-. discriminate.
Defined.

Lemma get_drawing_number_spec_witness :
  (∀ pname, pname ∈ drawing_number_params →
     attribute_value Example.doc Example.rs1 pname ≠ "" →
     PyStr.strip (attribute_value Example.doc Example.rs1 pname) ≠ "")
  ∧ get_drawing_number Example.doc Example.rs1
    = drawing_number_spec Example.doc Example.rs1.
Proof.
  assert (∀ pname, pname ∈ drawing_number_params →
            attribute_value Example.doc Example.rs1 pname ≠ "" →
            PyStr.strip (attribute_value Example.doc Example.rs1 pname) ≠ "") as H.
  { intros pname Hin. unfold drawing_number_params in Hin.
    repeat (apply elem_of_cons in Hin as [-> | Hin]);
      [..|by apply elem_of_nil in Hin];
      vm_compute; intros H1 H2; first [discriminate H2 | exact (H1 H2)]. }
  split; [exact H|].
  apply (get_drawing_number_spec Example.doc Example.rs1 H).
Defined.
